(** * Verification of the dashboard's data transformation pipeline

    The development embeds the pure functions of
    [utils/dataProcessor.ts], [utils/fieldMapping.ts] and the period
    comparison logic of the trends view ([TrendsDashboard]) and proves the
    properties of the specification about them.  It also embeds the
    processing effect of [context/DataContext.tsx], the selection
    handlers of the filter panel and the header handling of
    [utils/googleSheetsApi.ts], and proves further properties of the
    code.

    Conventions of the embedding.
    - A JavaScript [Date] is represented by its local time value, an
      integer number of milliseconds.  The local time zone is assumed to
      have a fixed offset from UTC, so that differences and comparisons of
      [getTime()] values coincide with those of local time values;
      daylight-saving transitions are not modelled, and a statement about
      the difference of two dates holds of the program for dates with the
      same offset.  Time values are unbounded integers: the limit of
      8.64e15 milliseconds of a [Date] and the invalid date beyond it are
      not modelled, and the statements about dates built from components
      bound the components.  The calendar functions follow the
      definitions of ECMAScript (Day, TimeWithinDay, DayFromYear,
      YearFromTime, MonthFromTime, DateFromTime, WeekDay, MakeDay,
      MakeDate), including the constructor's rule that maps the years
      0..99 to 1900..1999.
    - Integer valued JavaScript numbers are [Z]; a number that may be NaN
      is [option Z] with [None] for NaN.
    - Metric values (IEEE doubles in the program) are exact rationals [Q]:
      rounding is not modelled, and the statements about metric values
      are about which sums and ratios are computed, not about identities
      between differently rounded results.
    - Strings are [string] (byte strings, UTF-8).
    - The host functions [new Date(string)], [parseFloat] and
      [Number.prototype.toString] are parameters of the development. *)

From Stdlib Require Import ZArith Lia List Bool String Ascii QArith.
From Stdlib Require Import DecimalString DecimalN DecimalPos DecimalFacts.
From Stdlib Require Import Permutation Sorted.
Import ListNotations.

Local Open Scope Z_scope.

(** ** ECMAScript calendar arithmetic *)

Module JsDate.

Definition msPerDay : Z := 86400000.

Definition Day (t : Z) : Z := t / msPerDay.
Definition TimeWithinDay (t : Z) : Z := t mod msPerDay.

Definition isLeap (y : Z) : bool :=
  (y mod 4 =? 0) && (negb (y mod 100 =? 0) || (y mod 400 =? 0)).

Definition DaysInYear (y : Z) : Z := if isLeap y then 366 else 365.

Definition DayFromYear (y : Z) : Z :=
  365 * (y - 1970) + (y - 1969) / 4 - (y - 1901) / 100 + (y - 1601) / 400.

(** [YearFromDay d] is the largest [y] with [DayFromYear y <= d]
    (lemma [YearFromDay_spec]); it is computed from an estimate that is
    off by at most one. *)
Definition YearFromDay (d : Z) : Z :=
  let y := 1970 + (400 * d) / 146097 in
  if d <? DayFromYear y then y - 1
  else if DayFromYear (y + 1) <=? d then y + 1
  else y.

Definition DayWithinYear (d : Z) : Z := d - DayFromYear (YearFromDay d).

Definition InLeapYear (d : Z) : Z :=
  if isLeap (YearFromDay d) then 1 else 0.

(** Number of days of the year before month [m] (0-based). *)
Definition daysBeforeMonth (leap : Z) (m : Z) : Z :=
  match m with
  | 0 => 0
  | 1 => 31
  | 2 => 59 + leap
  | 3 => 90 + leap
  | 4 => 120 + leap
  | 5 => 151 + leap
  | 6 => 181 + leap
  | 7 => 212 + leap
  | 8 => 243 + leap
  | 9 => 273 + leap
  | 10 => 304 + leap
  | _ => 334 + leap
  end.

Definition MonthFromDay (d : Z) : Z :=
  let w := DayWithinYear d in
  let l := InLeapYear d in
  if w <? 31 then 0
  else if w <? 59 + l then 1
  else if w <? 90 + l then 2
  else if w <? 120 + l then 3
  else if w <? 151 + l then 4
  else if w <? 181 + l then 5
  else if w <? 212 + l then 6
  else if w <? 243 + l then 7
  else if w <? 273 + l then 8
  else if w <? 304 + l then 9
  else if w <? 334 + l then 10
  else 11.

Definition DateFromDay (d : Z) : Z :=
  DayWithinYear d - daysBeforeMonth (InLeapYear d) (MonthFromDay d) + 1.

(** 0 = Sunday, ..., 6 = Saturday; day 0 (1 January 1970) is a Thursday. *)
Definition WeekDay (d : Z) : Z := (d + 4) mod 7.

Definition MakeDay (year month date : Z) : Z :=
  let ym := year + month / 12 in
  let mn := month mod 12 in
  DayFromYear ym + daysBeforeMonth (if isLeap ym then 1 else 0) mn + date - 1.

Definition MakeDate (day time : Z) : Z := day * msPerDay + time.

Definition MakeTime (h m s ms : Z) : Z :=
  h * 3600000 + m * 60000 + s * 1000 + ms.

(** The [Date] methods used by the program, on a valid date [t]. *)
Definition getFullYear (t : Z) : Z := YearFromDay (Day t).
Definition getMonth (t : Z) : Z := MonthFromDay (Day t).
Definition getDate (t : Z) : Z := DateFromDay (Day t).
Definition getDay (t : Z) : Z := WeekDay (Day t).

Definition setDate (t : Z) (date : Z) : Z :=
  MakeDate (MakeDay (getFullYear t) (getMonth t) date) (TimeWithinDay t).

Definition setHours (t : Z) (h m s ms : Z) : Z :=
  MakeDate (Day t) (MakeTime h m s ms).

Definition setFullYear (t : Z) (y : Z) : Z :=
  MakeDate (MakeDay y (getMonth t) (getDate t)) (TimeWithinDay t).

(** [new Date(year, month, date)]: years 0..99 denote 1900..1999. *)
Definition MakeFullYear (y : Z) : Z :=
  if (0 <=? y) && (y <=? 99) then 1900 + y else y.

Definition newDate (year month date : Z) : Z :=
  MakeDate (MakeDay (MakeFullYear year) month date) 0.

End JsDate.

Import JsDate.

(** ** JavaScript strings and number conversions *)

Module JsString.

Local Open Scope string_scope.

(** White space skipped by [trim], [parseInt] and [Number] (the ASCII part
    of ECMAScript's WhiteSpace and LineTerminator). *)
Definition isWhite (c : ascii) : bool :=
  let n := N_of_ascii c in
  (((9 <=? n) && (n <=? 13)) || (n =? 32))%N.

Fixpoint trimStart (s : string) : string :=
  match s with
  | String c s' => if isWhite c then trimStart s' else s
  | EmptyString => EmptyString
  end.

Fixpoint trimEnd (s : string) : string :=
  match s with
  | String c s' =>
      match trimEnd s' with
      | EmptyString => if isWhite c then EmptyString else String c EmptyString
      | r => String c r
      end
  | EmptyString => EmptyString
  end.

Definition trim (s : string) : string := trimEnd (trimStart s).

Definition isDigit (c : ascii) : bool :=
  let n := N_of_ascii c in ((48 <=? n) && (n <=? 57))%N.

Definition digitVal (c : ascii) : N := (N_of_ascii c - 48)%N.

Definition hexVal (c : ascii) : option N :=
  let n := N_of_ascii c in
  if ((48 <=? n) && (n <=? 57))%N then Some (n - 48)%N
  else if ((65 <=? n) && (n <=? 70))%N then Some (n - 55)%N
  else if ((97 <=? n) && (n <=? 102))%N then Some (n - 87)%N
  else None.

(** Value of the longest prefix of decimal digits. *)
Fixpoint parseDigits (s : string) (acc : N) : N :=
  match s with
  | String c s' =>
      if isDigit c then parseDigits s' (10 * acc + digitVal c)%N else acc
  | EmptyString => acc
  end.

Fixpoint parseHexDigits (s : string) (acc : N) : N :=
  match s with
  | String c s' =>
      match hexVal c with
      | Some v => parseHexDigits s' (16 * acc + v)%N
      | None => acc
      end
  | EmptyString => acc
  end.

Definition startsWithDigit (s : string) : bool :=
  match s with String c _ => isDigit c | EmptyString => false end.

Definition startsWithHexDigit (s : string) : bool :=
  match s with
  | String c _ => match hexVal c with Some _ => true | None => false end
  | EmptyString => false
  end.

(** The unsigned part of [parseInt(s)] with no radix argument: a [0x]
    prefix selects radix 16; the longest prefix of digits is read and an
    empty prefix gives NaN. *)
Definition parseUnsigned (s : string) : option N :=
  match s with
  | String "0" (String x s') =>
      if (Ascii.eqb x "x" || Ascii.eqb x "X")%bool then
        if startsWithHexDigit s' then Some (parseHexDigits s' 0) else None
      else Some (parseDigits s 0)
  | _ => if startsWithDigit s then Some (parseDigits s 0) else None
  end.

(** [parseInt(s)]; [None] is NaN. *)
Definition parseInt (s : string) : option Z :=
  match trimStart s with
  | String "-" s' => option_map (fun n => - Z.of_N n) (parseUnsigned s')
  | String "+" s' => option_map Z.of_N (parseUnsigned s')
  | s' => option_map Z.of_N (parseUnsigned s')
  end.

Fixpoint allDigits (s : string) : bool :=
  match s with
  | String c s' => isDigit c && allDigits s'
  | EmptyString => true
  end.

(** [Number(s)] on the strings whose value is an integer written in
    decimal: optional white space around an optionally signed sequence of
    digits; the empty string is 0.  Every other string is NaN in the model
    (fractions, exponents, radix prefixes and [Infinity] are not
    modelled; they do not occur in the date strings and period keys the
    function is applied to). *)
Definition jsNumber (s : string) : option Z :=
  match trim s with
  | EmptyString => Some 0
  | String "-" s' =>
      if startsWithDigit s' && allDigits s'
      then Some (- Z.of_N (parseDigits s' 0)) else None
  | String "+" s' =>
      if startsWithDigit s' && allDigits s'
      then Some (Z.of_N (parseDigits s' 0)) else None
  | s' => if allDigits s' then Some (Z.of_N (parseDigits s' 0)) else None
  end.

(** Decimal representation of an integer ([String(n)], template literals). *)
Definition showN (n : N) : string := NilEmpty.string_of_uint (N.to_uint n).

Definition showZ (z : Z) : string :=
  if (z <? 0)%Z then String "-" (showN (Z.to_N (- z))) else showN (Z.to_N z).

(** Representation of a number that may be NaN. *)
Definition showNum (z : option Z) : string :=
  match z with Some z => showZ z | None => "NaN" end.

(** [s.padStart(2, '0')]. *)
Definition padStart2 (s : string) : string :=
  match String.length s with
  | O => "00"
  | S O => String "0" s
  | _ => s
  end.

(** [s.split(sep)] for a separator of one character. *)
Fixpoint split (sep : ascii) (s : string) : list string :=
  match s with
  | EmptyString => [EmptyString]
  | String c s' =>
      if Ascii.eqb c sep then EmptyString :: split sep s'
      else match split sep s' with
           | h :: t => String c h :: t
           | [] => [String c EmptyString]
           end
  end.

(** [s.substring(1)]. *)
Definition dropFirst (s : string) : string :=
  match s with String _ s' => s' | EmptyString => EmptyString end.

(** [s.indexOf(pat)]. *)
Fixpoint indexOf (pat s : string) : option nat :=
  if String.prefix pat s then Some O
  else match s with
       | String _ s' => option_map S (indexOf pat s')
       | EmptyString => None
       end.

Definition includes (pat s : string) : bool :=
  match indexOf pat s with Some _ => true | None => false end.

(** [s.substring(0, n)]. *)
Definition take (n : nat) (s : string) : string := String.substring 0 n s.

Fixpoint drop (n : nat) (s : string) : string :=
  match n, s with
  | S n', String _ s' => drop n' s'
  | _, _ => s
  end.

Definition toLowerChar (c : ascii) : ascii :=
  let n := N_of_ascii c in
  if ((65 <=? n) && (n <=? 90))%N then ascii_of_N (n + 32) else c.

Definition toUpperChar (c : ascii) : ascii :=
  let n := N_of_ascii c in
  if ((97 <=? n) && (n <=? 122))%N then ascii_of_N (n - 32) else c.

Fixpoint mapString (f : ascii -> ascii) (s : string) : string :=
  match s with
  | String c s' => String (f c) (mapString f s')
  | EmptyString => EmptyString
  end.

(** [toLowerCase] and [toUpperCase] on ASCII letters. *)
Definition toLowerCase : string -> string := mapString toLowerChar.
Definition toUpperCase : string -> string := mapString toUpperChar.

(** Truthiness of a string: non-empty. *)
Definition nonEmpty (s : string) : bool :=
  match s with EmptyString => false | _ => true end.

End JsString.

Import JsString.

(** ** dataProcessor.ts: ISO week *)

Record IsoWeek : Type := mkIsoWeek { year : Z; week : Z }.

(** [Math.ceil(a / b)] for integers [a] and [b > 0]. *)
Definition ceilDiv (a b : Z) : Z := - ((- a) / b).

(** [Math.ceil((((a - b) / 86400000) + 1) / 7)] for the time values [a] and
    [b]: over the reals [((a - b) / D + 1) / 7 = (a - b + D) / (7 * D)],
    and the quotient is an integer only when [a - b + D] is a multiple of
    [7 * D], so the rounding of the division does not change the
    ceiling. *)
Definition weekIndex (a b : Z) : Z := ceilDiv (a - b + msPerDay) (7 * msPerDay).

(** [date.getDay() || 7]: the ISO day of the week, 1 = Monday, ...,
    7 = Sunday. *)
Definition isoDayOfWeek (date : Z) : Z :=
  if getDay date =? 0 then 7 else getDay date.

(** The Thursday of the ISO week of [date], at the same time of day: the
    [target] of [getISOWeek] (lemma [setDate_thursday]). *)
Definition thursdayOf (date : Z) : Z :=
  date + (4 - isoDayOfWeek date) * msPerDay.

(** The body of [getISOWeek]; [self] stands for the recursive call. *)
Definition getISOWeek_body (self : Z -> option IsoWeek) (date : Z)
  : option IsoWeek :=
  let target := date in
  let dayOfWeek := isoDayOfWeek date in
  let target := setDate target (getDate target + (4 - dayOfWeek)) in
  let firstDayOfYear := newDate (getFullYear target) 0 1 in
  let weekNumber := weekIndex target firstDayOfYear in
  let isoYear := getFullYear target in
  let dec31Week := weekIndex (newDate isoYear 11 31) firstDayOfYear in
  if (52 <? weekNumber) && (dec31Week <? 53) then
    Some (mkIsoWeek (isoYear + 1) 1)
  else if weekNumber =? 0 then
    let prevYear := isoYear - 1 in
    let lastDayOfPrevYear := newDate prevYear 11 31 in
    match self lastDayOfPrevYear with
    | Some prevYearResult => Some (mkIsoWeek prevYear (week prevYearResult))
    | None => None
    end
  else
    let isoYear :=
      if (getMonth date <? 3) && (getFullYear date <? isoYear)
      then getFullYear date else isoYear in
    Some (mkIsoWeek isoYear weekNumber).

(** [getISOWeek] with a bound on the depth of the recursion; [None] when
    the bound is reached. *)
Fixpoint getISOWeek_fuel (fuel : nat) (date : Z) : option IsoWeek :=
  match fuel with
  | O => None
  | S fuel' => getISOWeek_body (getISOWeek_fuel fuel') date
  end.

(** The recursive call is never made (lemma [getISOWeek_body_eq]), so a
    depth of 2 is more than enough. *)
Definition getISOWeek (date : Z) : option IsoWeek := getISOWeek_fuel 2 date.

(** A calendar date at local midnight plus [ms] milliseconds. *)
Definition civil (y m d ms : Z) : Z := MakeDate (MakeDay y (m - 1) d) ms.

(** ** types/data.ts *)

(** [AdData]: one row of advertising data.  The field names of the source
    that are not identifiers are written with underscores
    (['Domain name'] is [Domain_name], ['Impr.'] is [Impr], ['Conv. rate']
    is [Conv_rate]).  [processedDate] holds a valid [Date] when present. *)
Record AdData : Type := mkAdData {
  Campaign : string;
  Domain_name : string;
  Account_name : string;
  Language : string;
  Campaign_type : string;
  Status : string;
  Date : string;
  processedDate : option Z;
  Impr : string;
  Clicks : string;
  Cost : string;
  Conversions : string;
  Revenue : string;
  Profit : string;
  CLV : string;
  Click_share : string;
  Search_impr_share : string;
  Impr_abs_top : string;
  Impr_top : string;
  CTR : option Q;
  CPC : option Q;
  CPA : option Q;
  Conv_rate : option Q;
  ROAS : option Q
}.

Record FilterOptions : Type := mkFilterOptions {
  accounts : list string;
  languages : list string;
  campaignTypes : list string;
  domains : list string
}.

Record DateRange : Type := mkDateRange {
  startDate : string;
  endDate : string
}.

Record KpiSummary : Type := mkKpiSummary {
  impressions : Q;
  clicks : Q;
  cost : Q;
  conversions : Q;
  revenue : Q;
  profit : Q;
  ctr : Q;
  cpc : Q;
  cpa : Q;
  convRate : Q;
  roas : Q;
  clv : Q
}.

(** [TrendData] is [{ period, ...kpiSummary }]. *)
Record TrendData : Type := mkTrendData {
  period : string;
  kpi : KpiSummary
}.

(** [ComparisonData] is [{ name, ...kpiSummary }]. *)
Record ComparisonData : Type := mkComparisonData {
  name : string;
  cmpKpi : KpiSummary
}.

Inductive TimeUnit : Type := Day_ | Week | Month | Quarter | Year.

Inductive CompareBy : Type :=
  ByAccountName | ByLanguage | ByCampaignType | ByDomainName.

(** ** utils/constants.ts *)

Inductive DataSourceType : Type :=
  GOOGLE_ADS | MICROSOFT_ADS | COMPETITOR_DATA_URL.

(** ** Arrays *)

(** [[...new Set(l)]]: the distinct elements in order of first occurrence. *)
Fixpoint uniqAcc (seen : list string) (l : list string) : list string :=
  match l with
  | [] => []
  | x :: l' =>
      if existsb (String.eqb x) seen then uniqAcc seen l'
      else x :: uniqAcc (x :: seen) l'
  end.

Definition uniq (l : list string) : list string := uniqAcc [] l.

(** [arr.includes(x)] on strings. *)
Definition listIncludes (l : list string) (x : string) : bool :=
  existsb (String.eqb x) l.

(** [arr.sort(cmp)]: the sort of the model is a stable insertion sort; a
    comparator result that is NaN counts as 0.  For a comparator that is
    a total preorder on the elements every stable sort gives this
    result. *)
Fixpoint insertBy {A : Type} (cmp : A -> A -> Z) (x : A) (l : list A)
  : list A :=
  match l with
  | [] => [x]
  | y :: l' => if cmp x y <=? 0 then x :: y :: l' else y :: insertBy cmp x l'
  end.

Definition sortBy {A : Type} (cmp : A -> A -> Z) (l : list A) : list A :=
  fold_right (insertBy cmp) [] l.

(** Comparator results: a difference of two numbers that may be NaN. *)
Definition numSub (a b : option Z) : option Z :=
  match a, b with Some a, Some b => Some (a - b) | _, _ => None end.

(** [a !== b] on numbers that may be NaN. *)
Definition numNeq (a b : option Z) : bool :=
  match a, b with Some a, Some b => negb (a =? b) | _, _ => true end.

Definition cmpResult (r : option Z) : Z :=
  match r with Some z => z | None => 0 end.

(** [a.localeCompare(b)] on period keys: the order of the code points. *)
Definition localeCompare (a b : string) : Z :=
  match String.compare a b with Lt => -1 | Eq => 0 | Gt => 1 end.

(** [getISOWeek] with its result taken out of the option; the default is
    never used (lemma [getISOWeek_returns]). *)
Definition isoWeekOf (date : Z) : IsoWeek :=
  match getISOWeek date with
  | Some r => r
  | None => mkIsoWeek 0 0
  end.

Section Pipeline.

(** Host functions.  [dateParse s] is [new Date(s)] ([None] is the invalid
    date), [parseFloat s] is [parseFloat(s)] ([None] is NaN) and
    [numToString x] is [x.toString()]. *)
Variable dateParse : string -> option Z.
Variable parseFloat : string -> option Q.
Variable numToString : Q -> string.

(** ** utils/dataProcessor.ts *)

(** [value.replace(/[€$,]/g, '')]; the euro sign is the three bytes
    226 130 172 of its UTF-8 encoding. *)
Definition isEuroSign (a b c : ascii) : bool :=
  Ascii.eqb a "226" && Ascii.eqb b "130" && Ascii.eqb c "172".

Fixpoint removeCurrency (s : string) : string :=
  match s with
  | EmptyString => EmptyString
  | String c s' =>
      if (Ascii.eqb c "$" || Ascii.eqb c ",")%bool then removeCurrency s'
      else
        match s' with
        | String c2 (String c3 s'') =>
            if isEuroSign c c2 c3 then removeCurrency s''
            else String c (removeCurrency s')
        | _ => String c (removeCurrency s')
        end
  end.

Definition parseNumericValue (value : string) : Q :=
  if nonEmpty value then
    match parseFloat (removeCurrency value) with
    | Some numValue => numValue
    | None => 0%Q
    end
  else 0%Q.

(** [a > b] on metric values. *)
Definition Qgtb (a b : Q) : bool := negb (Qle_bool a b).

(** [d > 0 ? n / d : 0]. *)
Definition ratioOrZero (n d : Q) : Q :=
  (if Qgtb d 0 then n / d else 0)%Q.

Definition calculateMetricsRow (row : AdData) : AdData :=
  let impressions := parseNumericValue (Impr row) in
  let clicks := parseNumericValue (Clicks row) in
  let cost := parseNumericValue (Cost row) in
  let conversions := parseNumericValue (Conversions row) in
  let revenue := parseNumericValue (Revenue row) in
  let ctr := ratioOrZero clicks impressions in
  let cpc := ratioOrZero cost clicks in
  let cpa := ratioOrZero cost conversions in
  let convRate := ratioOrZero conversions clicks in
  let roas := ratioOrZero revenue cost in
  let profit := (revenue - cost)%Q in
  let clv := ratioOrZero revenue conversions in
  {| Campaign := Campaign row;
     Domain_name := Domain_name row;
     Account_name := Account_name row;
     Language := Language row;
     Campaign_type := Campaign_type row;
     Status := Status row;
     Date := Date row;
     processedDate := processedDate row;
     Impr := Impr row;
     Clicks := Clicks row;
     Cost := Cost row;
     Conversions := Conversions row;
     Revenue := Revenue row;
     Profit := numToString profit;
     CLV := numToString clv;
     Click_share := Click_share row;
     Search_impr_share := Search_impr_share row;
     Impr_abs_top := Impr_abs_top row;
     Impr_top := Impr_top row;
     CTR := Some ctr;
     CPC := Some cpc;
     CPA := Some cpa;
     Conv_rate := Some convRate;
     ROAS := Some roas |}.

Definition calculateMetrics (data : list AdData) : list AdData :=
  map calculateMetricsRow data.

Definition filterData (data : list AdData) (filters : FilterOptions)
  : list AdData :=
  filter (fun row =>
    let accountMatch :=
      (List.length (accounts filters) =? 0)%nat
      || listIncludes (accounts filters) (Account_name row) in
    let languageMatch :=
      (List.length (languages filters) =? 0)%nat
      || listIncludes (languages filters) (Language row) in
    let campaignTypeMatch :=
      (List.length (campaignTypes filters) =? 0)%nat
      || listIncludes (campaignTypes filters) (Campaign_type row) in
    let domainMatch :=
      (List.length (domains filters) =? 0)%nat
      || listIncludes (domains filters) (Domain_name row) in
    accountMatch && languageMatch && campaignTypeMatch && domainMatch) data.

Definition extractFilterOptions (data : list AdData) : FilterOptions :=
  {| accounts := uniq (map Account_name data);
     languages := uniq (map Language data);
     campaignTypes := uniq (map Campaign_type data);
     domains := uniq (map Domain_name data) |}.

Definition initialSummary : KpiSummary :=
  {| impressions := 0%Q; clicks := 0%Q; cost := 0%Q; conversions := 0%Q;
     revenue := 0%Q; profit := 0%Q; ctr := 0%Q; cpc := 0%Q; cpa := 0%Q;
     convRate := 0%Q; roas := 0%Q; clv := 0%Q |}.

(** The reducer of [calculateKpiSummary]. *)
Definition kpiStep (acc : KpiSummary) (row : AdData) : KpiSummary :=
  let rowRevenue := parseNumericValue (Revenue row) in
  let rowCost := parseNumericValue (Cost row) in
  {| impressions := (impressions acc + parseNumericValue (Impr row))%Q;
     clicks := (clicks acc + parseNumericValue (Clicks row))%Q;
     cost := (cost acc + parseNumericValue (Cost row))%Q;
     conversions := (conversions acc + parseNumericValue (Conversions row))%Q;
     revenue := (revenue acc + parseNumericValue (Revenue row))%Q;
     profit := (profit acc + (rowRevenue - rowCost))%Q;
     ctr := ctr acc; cpc := cpc acc; cpa := cpa acc;
     convRate := convRate acc; roas := roas acc; clv := clv acc |}.

Definition calculateKpiSummary (data : list AdData) : KpiSummary :=
  let summary := fold_left kpiStep data initialSummary in
  {| impressions := impressions summary;
     clicks := clicks summary;
     cost := cost summary;
     conversions := conversions summary;
     revenue := revenue summary;
     profit := profit summary;
     ctr := ratioOrZero (clicks summary) (impressions summary);
     cpc := ratioOrZero (cost summary) (clicks summary);
     cpa := ratioOrZero (cost summary) (conversions summary);
     convRate := ratioOrZero (conversions summary) (clicks summary);
     roas := ratioOrZero (revenue summary) (cost summary);
     clv := ratioOrZero (revenue summary) (conversions summary) |}.

Definition withProcessedDate (row : AdData) (d : Z) : AdData :=
  {| Campaign := Campaign row;
     Domain_name := Domain_name row;
     Account_name := Account_name row;
     Language := Language row;
     Campaign_type := Campaign_type row;
     Status := Status row;
     Date := Date row;
     processedDate := Some d;
     Impr := Impr row;
     Clicks := Clicks row;
     Cost := Cost row;
     Conversions := Conversions row;
     Revenue := Revenue row;
     Profit := Profit row;
     CLV := CLV row;
     Click_share := Click_share row;
     Search_impr_share := Search_impr_share row;
     Impr_abs_top := Impr_abs_top row;
     Impr_top := Impr_top row;
     CTR := CTR row;
     CPC := CPC row;
     CPA := CPA row;
     Conv_rate := Conv_rate row;
     ROAS := ROAS row |}.

(** The first step of [generateTrendData] and of [filterByDateRange]: a
    row without [processedDate] gets one when its [Date] string parses. *)
Definition ensureProcessedDate (row : AdData) : AdData :=
  match processedDate row with
  | Some _ => row
  | None =>
      match dateParse (Date row) with
      | Some date => withProcessedDate row date
      | None => row
      end
  end.

Definition dayKey (y m d : Z) : string :=
  (showZ y ++ "-" ++ padStart2 (showZ m) ++ "-" ++ padStart2 (showZ d))%string.
Definition weekKey (y w : Z) : string := (showZ y ++ "-" ++ showZ w)%string.
Definition monthKey (y m : Z) : string := (showZ y ++ "-" ++ showZ m)%string.
Definition quarterKey (y q : Z) : string :=
  (showZ y ++ "-Q" ++ showZ q)%string.
Definition yearKey (y : Z) : string := showZ y.

Definition periodKeyOf (timeUnit : TimeUnit) (date : Z) : string :=
  match timeUnit with
  | Day_ => dayKey (getFullYear date) (getMonth date + 1) (getDate date)
  | Week => weekKey (year (isoWeekOf date)) (week (isoWeekOf date))
  | Month => monthKey (getFullYear date) (getMonth date + 1)
  | Quarter => quarterKey (getFullYear date) (getMonth date / 3 + 1)
  | Year => yearKey (getFullYear date)
  end.

(** [groupedData[key].push(row)], creating the group when the key is new.
    The groups are kept in the order in which their keys were first seen,
    the order of [Object.keys] for keys that are not array indices
    (JavaScript lists keys that are array indices, such as year keys,
    first and in ascending order). *)
Fixpoint groupPush (key : string) (row : AdData)
  (g : list (string * list AdData)) : list (string * list AdData) :=
  match g with
  | [] => [(key, [row])]
  | (k, rows) :: g' =>
      if String.eqb k key then (k, rows ++ [row]) :: g'
      else (k, rows) :: groupPush key row g'
  end.

Definition nthNum (l : list (option Z)) (i : nat) : option Z :=
  match nth_error l i with Some n => n | None => None end.

Definition nthStr (l : list string) (i : nat) : string :=
  nth i l EmptyString.

(** [comparePeriods] of [generateTrendData].  In the quarter case a key
    without a second segment, on which the source would throw, is read
    with an empty second segment. *)
Definition comparePeriods (timeUnit : TimeUnit) (a b : string) : Z :=
  match timeUnit with
  | Day_ => localeCompare a b
  | Week | Month =>
      let aParts := map jsNumber (split "-" a) in
      let bParts := map jsNumber (split "-" b) in
      if numNeq (nthNum aParts 0) (nthNum bParts 0)
      then cmpResult (numSub (nthNum aParts 0) (nthNum bParts 0))
      else cmpResult (numSub (nthNum aParts 1) (nthNum bParts 1))
  | Quarter =>
      let aParts := split "-" a in
      let bParts := split "-" b in
      if negb (String.eqb (nthStr aParts 0) (nthStr bParts 0))
      then cmpResult (numSub (parseInt (nthStr aParts 0))
                        (parseInt (nthStr bParts 0)))
      else cmpResult (numSub (parseInt (dropFirst (nthStr aParts 1)))
                        (parseInt (dropFirst (nthStr bParts 1))))
  | Year => cmpResult (numSub (parseInt a) (parseInt b))
  end.

Definition groupStep (timeUnit : TimeUnit)
  (g : list (string * list AdData)) (row : AdData)
  : list (string * list AdData) :=
  match processedDate row with
  | None => g
  | Some date => groupPush (periodKeyOf timeUnit date) row g
  end.

Definition generateTrendData (data : list AdData) (timeUnit : TimeUnit)
  : list TrendData :=
  let dataWithProcessedDates := map ensureProcessedDate data in
  let groupedData := fold_left (groupStep timeUnit) dataWithProcessedDates [] in
  map (fun g => {| period := fst g; kpi := calculateKpiSummary (snd g) |})
    (sortBy (fun a b => comparePeriods timeUnit (fst a) (fst b)) groupedData).

Definition compareField (compareBy : CompareBy) (row : AdData) : string :=
  match compareBy with
  | ByAccountName => Account_name row
  | ByLanguage => Language row
  | ByCampaignType => Campaign_type row
  | ByDomainName => Domain_name row
  end.

(** [generateComparisonData].  The groups are listed in the order in which
    their names first occur in the data, the order in which the source
    enumerates the keys of [groupedData] when no name is an array index
    (JavaScript lists such keys first, in ascending order) and no name is
    an inherited property of an object such as [constructor] (on which
    the source throws); such names are outside the model. *)
Definition generateComparisonData (data : list AdData) (compareBy : CompareBy)
  : list ComparisonData :=
  let groupedData :=
    fold_left (fun g row => groupPush (compareField compareBy row) row g)
      data [] in
  map (fun g => {| name := fst g; cmpKpi := calculateKpiSummary (snd g) |})
    groupedData.

(** [normalizeDate] of [filterByDateRange]; [None] is the invalid date. *)
Definition normalizeDate (dateStr : string) (isEndDate : bool) : option Z :=
  let parts := map jsNumber (split "-" dateStr) in
  match nthNum parts 0, nthNum parts 1, nthNum parts 2 with
  | Some year, Some month, Some day =>
      let date := newDate year (month - 1) day in
      Some (if isEndDate then setHours date 23 59 59 999
            else setHours date 0 0 0 0)
  | _, _, _ => None
  end.

(** The bound of the range: [None] is [null], [Some None] is an invalid
    [Date] object (which is truthy). *)
Definition rangeBound (dateStr : string) (isEndDate : bool)
  : option (option Z) :=
  if nonEmpty dateStr then Some (normalizeDate dateStr isEndDate) else None.

(** [rowDate >= bound] and [rowDate <= bound]; false on the invalid date. *)
Definition dateGe (rowDate : Z) (bound : option Z) : bool :=
  match bound with Some b => b <=? rowDate | None => false end.
Definition dateLe (rowDate : Z) (bound : option Z) : bool :=
  match bound with Some b => rowDate <=? b | None => false end.

Definition inRange (startDate endDate : option (option Z)) (row : AdData)
  : bool :=
  match processedDate row with
  | None => false
  | Some rowDate =>
      match startDate, endDate with
      | Some s, Some e => dateGe rowDate s && dateLe rowDate e
      | Some s, None => dateGe rowDate s
      | None, Some e => dateLe rowDate e
      | None, None => true
      end
  end.

Definition filterByDateRange (data : list AdData) (dateRange : DateRange)
  : list AdData :=
  if negb (nonEmpty (startDate dateRange))
     && negb (nonEmpty (endDate dateRange))
  then data
  else
    let dataWithDates := map ensureProcessedDate data in
    let startDate := rangeBound (startDate dateRange) false in
    let endDate := rangeBound (endDate dateRange) true in
    filter (inRange startDate endDate) dataWithDates.

(** ** utils/fieldMapping.ts *)

(** The fields of [AdData] that the field maps assign. *)
Inductive AdField : Type :=
  | FCampaign | FDomainName | FAccountName | FLanguage | FCampaignType
  | FImpr | FClicks | FCost | FConversions | FRevenue | FStatus | FDate.

(** The field maps: [Some f] is the field name [f], [None] is [null]. *)
Definition googleAdsFieldMap : list (string * option AdField) :=
  [ ("Campaign Name", Some FCampaign);
    ("Domain", Some FDomainName);
    ("Account Name", Some FAccountName);
    ("Language", Some FLanguage);
    ("Channel Type", Some FCampaignType);
    ("Impressions", Some FImpr);
    ("Clicks", Some FClicks);
    ("Cost", Some FCost);
    ("Conversions", Some FConversions);
    ("Conv. Value", Some FRevenue);
    ("Status", Some FStatus);
    ("Date", Some FDate);
    ("CTR", None); ("CPC", None); ("CPA", None); ("Conv. Rate", None);
    ("ROAS", None); ("Profit", None); ("CLV", None) ]%string.

Definition microsoftAdsFieldMap : list (string * option AdField) :=
  [ ("Campaign", Some FCampaign);
    ("Campaign type", Some FCampaignType);
    ("Impressions", Some FImpr);
    ("Clicks", Some FClicks);
    ("Spend", Some FCost);
    ("Conversions", Some FConversions);
    ("Revenue", Some FRevenue);
    ("Campaign Status", Some FStatus);
    ("Date", Some FDate);
    ("Account", None);
    ("CTR", None); ("Average Cost-per-Click (CPC)", None);
    ("Cost per acquisition (CPA)", None); ("Conversion Rate", None);
    ("ROAS", None); ("Revenue Per Conversion", None) ]%string.

(** [obj[key]] on an object given by its entries; [None] is [undefined]. *)
Fixpoint lookup {A : Type} (key : string) (obj : list (string * A))
  : option A :=
  match obj with
  | [] => None
  | (k, v) :: obj' => if String.eqb k key then Some v else lookup key obj'
  end.

(** [fieldMap[key]] when it is truthy. *)
Definition mappedKeyOf (fieldMap : list (string * option AdField))
  (key : string) : option AdField :=
  match lookup key fieldMap with
  | Some (Some f) => Some f
  | _ => None
  end.

Definition fieldNameMap : list (string * string) :=
  [ ("campaign", "Campaign");
    ("campaign type", "Campaign type");
    ("campaign status", "Campaign Status");
    ("average cost-per-click (cpc)", "Average Cost-per-Click (CPC)");
    ("cost per acquisition (cpa)", "Cost per acquisition (CPA)");
    ("conversion rate", "Conversion Rate");
    ("revenue per conversion", "Revenue Per Conversion");
    ("impressions", "Impressions");
    ("clicks", "Clicks");
    ("spend", "Spend");
    ("conversions", "Conversions");
    ("revenue", "Revenue");
    ("ctr", "CTR");
    ("roas", "ROAS");
    ("account", "Account");
    ("date", "Date") ]%string.

Definition normalizeMicrosoftAdsFieldName (fieldName : string) : string :=
  let trimmed := trim fieldName in
  match lookup (toLowerCase trimmed) fieldNameMap with
  | Some normalizedName => normalizedName
  | None => trimmed
  end.

(** [s.split(sep)[0]]: the part of [s] before the first [sep]. *)
Definition beforeFirst (sep s : string) : string :=
  match indexOf sep s with
  | Some i => take i s
  | None => s
  end.

(** [s.split(sep)] has more than one part: [s.split(sep)[1]]. *)
Definition secondPart (sep s : string) : option string :=
  match indexOf sep s with
  | Some i => Some (beforeFirst sep (drop (i + String.length sep) s))
  | None => None
  end.

Definition isLower (c : ascii) : bool :=
  let n := N_of_ascii c in ((97 <=? n) && (n <=? 122))%N.

(** [s.match(/^CV\.([a-z]{2})$/)]: the captured group. *)
Definition matchCvCountry (s : string) : option string :=
  match s with
  | String c1 (String c2 (String c3 (String a (String b EmptyString)))) =>
      if Ascii.eqb c1 "C" && Ascii.eqb c2 "V" && Ascii.eqb c3 "."
         && isLower a && isLower b
      then Some (String a (String b EmptyString)) else None
  | _ => None
  end.

Definition extractDomainFromMicrosoftAccount (accountName : string) : string :=
  let accountWithoutCode := trim (beforeFirst " (" accountName) in
  if includes "CVwizard" accountWithoutCode then "CVwizard.com"%string
  else if includes "Jobseeker" accountWithoutCode then "Jobseeker.com"%string
  else match matchCvCountry accountWithoutCode with
       | Some _ => accountWithoutCode
       | None => accountWithoutCode
       end.

Definition extractLanguageFromMicrosoftAccount (accountName : string)
  : string :=
  let accountWithoutCode := trim (beforeFirst " (" accountName) in
  let fromDomain :=
    match matchCvCountry accountWithoutCode with
    | Some country => toUpperCase country
    | None => EmptyString
    end in
  if includes "CVwizard" accountWithoutCode
     || includes "Jobseeker" accountWithoutCode
  then match secondPart " - " accountWithoutCode with
       | Some part => trim part
       | None => fromDomain
       end
  else fromDomain.

Definition truncateMicrosoftAccountName (accountName : string) : string :=
  match indexOf " (" accountName with
  | Some openParenIndex => take openParenIndex accountName
  | None => accountName
  end.

(** [new Date(parseInt(year), parseInt(month) - 1, parseInt(day))], kept
    when it is valid and, with [validate], when it has the components it
    was made from. *)
Definition dateFromParts (validate : bool) (year month day : string)
  : option Z :=
  match parseInt year, parseInt month, parseInt day with
  | Some y, Some m, Some d =>
      let date := newDate y (m - 1) d in
      if validate then
        if (getFullYear date =? y) && (getMonth date =? m - 1)
           && (getDate date =? d)
        then Some date else None
      else Some date
  | _, _, _ => None
  end.

Definition digitsOfLength (lo hi : nat) (s : string) : bool :=
  allDigits s && (lo <=? String.length s)%nat && (String.length s <=? hi)%nat.

(** [s.match(re)] for the regular expressions made of three groups of
    digits with a separator: the groups when [s] matches. *)
Definition matchThree (sep : ascii) (l1 h1 l2 h2 l3 h3 : nat) (s : string)
  : option (string * string * string) :=
  match split sep s with
  | [a; b; c] =>
      if digitsOfLength l1 h1 a && digitsOfLength l2 h2 b
         && digitsOfLength l3 h3 c
      then Some (a, b, c) else None
  | _ => None
  end.

Definition parseDate (dateString : string) (dataSource : DataSourceType)
  : option Z :=
  if negb (nonEmpty dateString) then None
  else
    let trimmed := trim dateString in
    let bySource :=
      match dataSource with
      | GOOGLE_ADS =>
          match matchThree "-" 4 4 2 2 2 2 trimmed with
          | Some (year, month, day) => dateFromParts true year month day
          | None => None
          end
      | MICROSOFT_ADS =>
          match matchThree "-" 2 2 2 2 4 4 trimmed with
          | Some (day, month, year) => dateFromParts true year month day
          | None => None
          end
      | COMPETITOR_DATA_URL => None
      end in
    match bySource with
    | Some date => Some date
    | None =>
        let slash :=
          match matchThree "/" 4 4 1 2 1 2 trimmed with
          | Some (year, month, day) => dateFromParts false year month day
          | None => None
          end in
        match slash with
        | Some date => Some date
        | None =>
            let euroSlash :=
              match matchThree "/" 1 2 1 2 4 4 trimmed with
              | Some (day, month, year) => dateFromParts false year month day
              | None => None
              end in
            match euroSlash with
            | Some date => Some date
            | None => dateParse trimmed
            end
        end
    end.

Definition numInRange (lo hi : Z) (n : option Z) : bool :=
  match n with Some n => (lo <=? n) && (n <=? hi) | None => false end.

Definition parseEuropeanDate (dateStr : string) : string :=
  if negb (nonEmpty dateStr) then EmptyString
  else
    match split "-" dateStr with
    | [p0; p1; p2] =>
        if numInRange 1 31 (parseInt p0)
        then (p2 ++ "-" ++ p1 ++ "-" ++ p0)%string
        else dateStr
    | _ => dateStr
    end.

Definition formatDateYYYYMMDD (date : Z) : string :=
  dayKey (getFullYear date) (getMonth date + 1) (getDate date).

(** [mappedRow[field] = value]. *)
Definition setField (f : AdField) (v : string) (r : AdData) : AdData :=
  {| Campaign := match f with FCampaign => v | _ => Campaign r end;
     Domain_name := match f with FDomainName => v | _ => Domain_name r end;
     Account_name := match f with FAccountName => v | _ => Account_name r end;
     Language := match f with FLanguage => v | _ => Language r end;
     Campaign_type :=
       match f with FCampaignType => v | _ => Campaign_type r end;
     Status := match f with FStatus => v | _ => Status r end;
     Date := match f with FDate => v | _ => Date r end;
     processedDate := processedDate r;
     Impr := match f with FImpr => v | _ => Impr r end;
     Clicks := match f with FClicks => v | _ => Clicks r end;
     Cost := match f with FCost => v | _ => Cost r end;
     Conversions := match f with FConversions => v | _ => Conversions r end;
     Revenue := match f with FRevenue => v | _ => Revenue r end;
     Profit := Profit r;
     CLV := CLV r;
     Click_share := Click_share r;
     Search_impr_share := Search_impr_share r;
     Impr_abs_top := Impr_abs_top r;
     Impr_top := Impr_top r;
     CTR := CTR r; CPC := CPC r; CPA := CPA r;
     Conv_rate := Conv_rate r; ROAS := ROAS r |}.

Definition setProfit (v : string) (r : AdData) : AdData :=
  {| Campaign := Campaign r; Domain_name := Domain_name r;
     Account_name := Account_name r; Language := Language r;
     Campaign_type := Campaign_type r; Status := Status r; Date := Date r;
     processedDate := processedDate r;
     Impr := Impr r; Clicks := Clicks r; Cost := Cost r;
     Conversions := Conversions r; Revenue := Revenue r;
     Profit := v;
     CLV := CLV r; Click_share := Click_share r;
     Search_impr_share := Search_impr_share r;
     Impr_abs_top := Impr_abs_top r; Impr_top := Impr_top r;
     CTR := CTR r; CPC := CPC r; CPA := CPA r;
     Conv_rate := Conv_rate r; ROAS := ROAS r |}.

Definition setProcessedDate (d : option Z) (r : AdData) : AdData :=
  {| Campaign := Campaign r; Domain_name := Domain_name r;
     Account_name := Account_name r; Language := Language r;
     Campaign_type := Campaign_type r; Status := Status r; Date := Date r;
     processedDate := d;
     Impr := Impr r; Clicks := Clicks r; Cost := Cost r;
     Conversions := Conversions r; Revenue := Revenue r;
     Profit := Profit r;
     CLV := CLV r; Click_share := Click_share r;
     Search_impr_share := Search_impr_share r;
     Impr_abs_top := Impr_abs_top r; Impr_top := Impr_top r;
     CTR := CTR r; CPC := CPC r; CPA := CPA r;
     Conv_rate := Conv_rate r; ROAS := ROAS r |}.

(** The initial [mappedRow] of [mapGoogleSheetRow]. *)
Definition emptyMappedRow : AdData :=
  {| Campaign := ""; Domain_name := ""; Account_name := ""; Language := "";
     Campaign_type := ""; Status := ""; Date := ""; processedDate := None;
     Impr := ""; Clicks := ""; Cost := ""; Conversions := ""; Revenue := "";
     Profit := ""; CLV := "";
     Click_share := "0%"; Search_impr_share := "0%";
     Impr_abs_top := "0%"; Impr_top := "0%";
     CTR := None; CPC := None; CPA := None; Conv_rate := None;
     ROAS := None |}%string.

(** [profit = (revenue - cost).toString()]. *)
Definition profitOf (r : AdData) : string :=
  numToString (parseNumericValue (Revenue r) - parseNumericValue (Cost r))%Q.

(** [mapGoogleSheetRow].  A raw row is the list of its entries in the
    order of [Object.keys]. *)
Definition mapGoogleSheetRow (row : list (string * string))
  (dataSource : DataSourceType) : AdData :=
  let mappedRow := emptyMappedRow in
  let mappedRow :=
    match dataSource with
    | GOOGLE_ADS =>
        let mappedRow :=
          fold_left (fun m kv =>
            match mappedKeyOf googleAdsFieldMap (fst kv) with
            | Some mappedKey => setField mappedKey (snd kv) m
            | None => m
            end) row mappedRow in
        if negb (nonEmpty (Profit mappedRow))
           && nonEmpty (Revenue mappedRow) && nonEmpty (Cost mappedRow)
        then setProfit (profitOf mappedRow) mappedRow else mappedRow
    | MICROSOFT_ADS =>
        let mappedRow :=
          fold_left (fun m kv =>
            let normalizedKey := normalizeMicrosoftAdsFieldName (fst kv) in
            match mappedKeyOf microsoftAdsFieldMap normalizedKey with
            | Some mappedKey => setField mappedKey (snd kv) m
            | None => m
            end) row mappedRow in
        let mappedRow :=
          match lookup "Account" row with
          | Some account =>
              if nonEmpty account then
                setField FLanguage (extractLanguageFromMicrosoftAccount account)
                  (setField FAccountName (truncateMicrosoftAccountName account)
                     (setField FDomainName
                        (extractDomainFromMicrosoftAccount account) mappedRow))
              else mappedRow
          | None => mappedRow
          end in
        if nonEmpty (Revenue mappedRow) && nonEmpty (Cost mappedRow)
        then setProfit (profitOf mappedRow) mappedRow else mappedRow
    | COMPETITOR_DATA_URL => mappedRow
    end in
  let mappedRow :=
    match dataSource with
    | MICROSOFT_ADS =>
        if nonEmpty (Date mappedRow)
        then setField FDate (parseEuropeanDate (Date mappedRow)) mappedRow
        else mappedRow
    | _ => mappedRow
    end in
  let processedDate := parseDate (Date mappedRow) dataSource in
  setProcessedDate processedDate mappedRow.

(** The [map] callback of [processGoogleSheetData]. *)
Definition processRow (dataSource : DataSourceType)
  (row : list (string * string)) : AdData :=
  let mappedRow := mapGoogleSheetRow row dataSource in
  if nonEmpty (Date mappedRow) then
    let mappedRow :=
      match dataSource with
      | MICROSOFT_ADS =>
          setField FDate (parseEuropeanDate (Date mappedRow)) mappedRow
      | _ => mappedRow
      end in
    match parseDate (Date mappedRow) dataSource with
    | Some processedDate => setProcessedDate (Some processedDate) mappedRow
    | None => mappedRow
    end
  else mappedRow.

(** The [filter] callback of [processGoogleSheetData]:
    [row.Campaign && row.Date]. *)
Definition validRow (row : AdData) : bool :=
  nonEmpty (Campaign row) && nonEmpty (Date row).

Definition processGoogleSheetData (rows : list (list (string * string)))
  (dataSource : DataSourceType) : list AdData :=
  filter validRow (map (processRow dataSource) rows).

(** ** components/dashboard/TrendsDashboard.tsx *)

(** [keyof Omit<TrendData, 'period'>]. *)
Inductive MetricType : Type :=
  | Mimpressions | Mclicks | Mcost | Mconversions | Mrevenue | Mprofit
  | Mctr | Mcpc | Mcpa | MconvRate | Mroas | Mclv.

(** [item[metric]]. *)
Definition metricOf (metric : MetricType) (item : TrendData) : Q :=
  match metric with
  | Mimpressions => impressions (kpi item)
  | Mclicks => clicks (kpi item)
  | Mcost => cost (kpi item)
  | Mconversions => conversions (kpi item)
  | Mrevenue => revenue (kpi item)
  | Mprofit => profit (kpi item)
  | Mctr => ctr (kpi item)
  | Mcpc => cpc (kpi item)
  | Mcpa => cpa (kpi item)
  | MconvRate => convRate (kpi item)
  | Mroas => roas (kpi item)
  | Mclv => clv (kpi item)
  end.

(** [Number(x) || 0]. *)
Definition orZero (x : Q) : Q := if Qeq_bool x 0 then 0%Q else x.

(** The comparison row built for each period. *)
Record ComparisonRow : Type := mkComparisonRow {
  rowPeriod : string;
  current : Q;
  previous : option Q;
  change : option Q;
  previousYear : option Q;
  yearOverYearChange : option Q
}.

(** [getLastISOWeekOfYear]. *)
Definition getLastISOWeekOfYear (y : Z) : Z :=
  let lastDay := newDate y 11 31 in
  let isoWeek := isoWeekOf lastDay in
  if y <? year isoWeek then
    let dec24 := newDate y 11 24 in
    week (isoWeekOf dec24)
  else week isoWeek.

(** [parseInt(s, 10)]. *)
Definition parseInt10 (s : string) : option Z :=
  let unsigned (s' : string) :=
    if startsWithDigit s' then Some (parseDigits s' 0) else None in
  match trimStart s with
  | String "-" s' => option_map (fun n => - Z.of_N n) (unsigned s')
  | String "+" s' => option_map Z.of_N (unsigned s')
  | s' => option_map Z.of_N (unsigned s')
  end.

(** [a <= b] and [a > b] on numbers that may be NaN. *)
Definition numLe (a b : option Z) : bool :=
  match a, b with Some a, Some b => a <=? b | _, _ => false end.
Definition numGt (a b : option Z) : bool :=
  match a, b with Some a, Some b => b <? a | _, _ => false end.
Definition numEq (a b : option Z) : bool :=
  match a, b with Some a, Some b => a =? b | _, _ => false end.

(** The memo [filteredTrendData]. *)
Definition filteredTrendData (trendData : list TrendData)
  (dateRange : DateRange) : list TrendData :=
  if negb (nonEmpty (endDate dateRange)) then trendData
  else
    let endDateYear := option_map getFullYear (dateParse (endDate dateRange)) in
    filter (fun item =>
      let periodParts := split "-" (period item) in
      let periodYear := parseInt10 (nthStr periodParts 0) in
      numLe periodYear endDateYear) trendData.

Definition calculateChange (current previous : Q) : Q :=
  if Qeq_bool previous 0 then 0%Q
  else (((current - previous) / previous) * 100)%Q.

(** [sortPeriodsOldestToNewest] on the period keys.  In the quarter case
    a key without a second segment, on which the source would throw, is
    read with an empty second segment. *)
Definition sortPeriodsOldestToNewest (timeUnit : TimeUnit) (a b : string)
  : Z :=
  match timeUnit with
  | Day_ => localeCompare a b
  | Week | Month =>
      let aParts := split "-" a in
      let bParts := split "-" b in
      if negb (String.eqb (nthStr aParts 0) (nthStr bParts 0))
      then cmpResult (numSub (parseInt (nthStr aParts 0))
                        (parseInt (nthStr bParts 0)))
      else cmpResult (numSub (parseInt (nthStr aParts 1))
                        (parseInt (nthStr bParts 1)))
  | Quarter =>
      let aParts := split "-" a in
      let bParts := split "-" b in
      if negb (String.eqb (nthStr aParts 0) (nthStr bParts 0))
      then cmpResult (numSub (parseInt (nthStr aParts 0))
                        (parseInt (nthStr bParts 0)))
      else cmpResult (numSub (parseInt (dropFirst (nthStr aParts 1)))
                        (parseInt (dropFirst (nthStr bParts 1))))
  | Year => cmpResult (numSub (parseInt a) (parseInt b))
  end.

Definition sortPeriodsNewestToOldest (timeUnit : TimeUnit) (a b : string)
  : Z :=
  match timeUnit with
  | Day_ => localeCompare b a
  | Week | Month =>
      let aParts := split "-" a in
      let bParts := split "-" b in
      if negb (String.eqb (nthStr aParts 0) (nthStr bParts 0))
      then cmpResult (numSub (parseInt (nthStr bParts 0))
                        (parseInt (nthStr aParts 0)))
      else cmpResult (numSub (parseInt (nthStr bParts 1))
                        (parseInt (nthStr aParts 1)))
  | Quarter =>
      let aParts := split "-" a in
      let bParts := split "-" b in
      if negb (String.eqb (nthStr aParts 0) (nthStr bParts 0))
      then cmpResult (numSub (parseInt (nthStr bParts 0))
                        (parseInt (nthStr aParts 0)))
      else cmpResult (numSub (parseInt (dropFirst (nthStr bParts 1)))
                        (parseInt (dropFirst (nthStr aParts 1))))
  | Year => cmpResult (numSub (parseInt b) (parseInt a))
  end.

(** The year and the sub-period of a period key, as the loop of
    [generateComparisonTable] reads them. *)
Definition currentYearOf (period : string) : option Z :=
  parseInt (nthStr (split "-" period) 0).

Definition currentSubPeriodOf (period : string) : string :=
  let currentPeriodParts := split "-" period in
  if (1 <? List.length currentPeriodParts)%nat
  then nthStr currentPeriodParts 1 else EmptyString.

(** The key of a date in the format [YYYY-MM-DD]; on the invalid date all
    three components are NaN. *)
Definition dayKeyOfDate (date : option Z) : string :=
  match date with
  | Some d => dayKey (getFullYear d) (getMonth d + 1) (getDate d)
  | None => "NaN-NaN-NaN"%string
  end.

(** [getLastISOWeekOfYear] on a year that may be NaN: on NaN the dates are
    invalid and the week is NaN. *)
Definition lastWeekOfYear (y : option Z) : option Z :=
  option_map getLastISOWeekOfYear y.

(** [previousPeriodKey] as the loop of [generateComparisonTable] computes
    it from the key of the current period. *)
Definition previousPeriodKey (timeUnit : TimeUnit) (period : string)
  : string :=
  let currentYear := currentYearOf period in
  let currentSubPeriod := currentSubPeriodOf period in
  match timeUnit with
  | Day_ =>
      let currentDate := dateParse period in
      let previousDate :=
        option_map (fun d => setDate d (getDate d - 1)) currentDate in
      dayKeyOfDate previousDate
  | Week =>
      let currentWeek := parseInt currentSubPeriod in
      if numGt currentWeek (Some 1) then
        (showNum currentYear ++ "-"
           ++ showNum (numSub currentWeek (Some 1)))%string
      else
        let lastWeekOfPrevYear :=
          lastWeekOfYear (numSub currentYear (Some 1)) in
        (showNum (numSub currentYear (Some 1)) ++ "-"
           ++ showNum lastWeekOfPrevYear)%string
  | Month =>
      let currentMonth := parseInt currentSubPeriod in
      if numGt currentMonth (Some 1) then
        (showNum currentYear ++ "-"
           ++ showNum (numSub currentMonth (Some 1)))%string
      else (showNum (numSub currentYear (Some 1)) ++ "-12")%string
  | Quarter =>
      if String.prefix "Q" currentSubPeriod then
        let currentQuarter := parseInt (dropFirst currentSubPeriod) in
        if numGt currentQuarter (Some 1) then
          (showNum currentYear ++ "-Q"
             ++ showNum (numSub currentQuarter (Some 1)))%string
        else (showNum (numSub currentYear (Some 1)) ++ "-Q4")%string
      else EmptyString
  | Year => showNum (numSub currentYear (Some 1))
  end.

(** [list.find(item => item.period === key)]. *)
Definition findPeriod (key : string) (l : list TrendData) : option TrendData :=
  find (fun item => String.eqb (period item) key) l.

(** The week of a key as the fallback sort reads it:
    [parseInt(item.period.split('-')[1])]. *)
Definition weekOfKey (period : string) : option Z :=
  match nth_error (split "-" period) 1 with
  | Some w => parseInt w
  | None => None
  end.

(** The fallback for week 1: the week of the previous year with the
    highest number that the complete series has. *)
Definition lastWeekFallback (currentYear : option Z)
  (completeTrendData : list TrendData) : option TrendData :=
  let prevYearWeeks :=
    filter (fun item =>
      String.prefix (showNum (numSub currentYear (Some 1)) ++ "-")%string
        (period item)) completeTrendData in
  hd_error
    (sortBy (fun a b =>
       cmpResult (numSub (weekOfKey (period b)) (weekOfKey (period a))))
       prevYearWeeks).

(** The previous period of the period at index [i]. *)
Definition resolvePreviousPeriod (timeUnit : TimeUnit)
  (sortedTrendData completeTrendData : list TrendData) (i : nat)
  (currentPeriod : TrendData) : option TrendData :=
  let currentYear := currentYearOf (period currentPeriod) in
  let currentSubPeriod := currentSubPeriodOf (period currentPeriod) in
  let previousPeriodKey := previousPeriodKey timeUnit (period currentPeriod) in
  let previousPeriod :=
    if (0 <? i)%nat then nth_error sortedTrendData (i - 1) else None in
  let mismatch :=
    match previousPeriod with
    | None => true
    | Some p => negb (String.eqb (period p) previousPeriodKey)
    end in
  if mismatch then
    match findPeriod previousPeriodKey completeTrendData with
    | Some foundPrevPeriod => Some foundPrevPeriod
    | None =>
        match timeUnit with
        | Week =>
            let currentWeek := parseInt currentSubPeriod in
            if numEq currentWeek (Some 1) then
              let lastWeekOfPrevYear :=
                lastWeekOfYear (numSub currentYear (Some 1)) in
              let exactWeekKey :=
                (showNum (numSub currentYear (Some 1)) ++ "-"
                   ++ showNum lastWeekOfPrevYear)%string in
              match findPeriod exactWeekKey completeTrendData with
              | Some exactWeek => Some exactWeek
              | None =>
                  match lastWeekFallback currentYear completeTrendData with
                  | Some w => Some w
                  | None => previousPeriod
                  end
              end
            else previousPeriod
        | _ => previousPeriod
        end
    end
  else previousPeriod.

(** The key of the same period of the previous year. *)
Definition previousYearPeriodKey (timeUnit : TimeUnit) (period : string)
  : option string :=
  match timeUnit with
  | Day_ =>
      let currentDate := dateParse period in
      let previousYearDate :=
        option_map (fun d => setFullYear d (getFullYear d - 1)) currentDate in
      Some (dayKeyOfDate previousYearDate)
  | Week | Month | Quarter =>
      Some (showNum (numSub (currentYearOf period) (Some 1)) ++ "-"
              ++ currentSubPeriodOf period)%string
  | Year => None
  end.

Definition resolvePreviousYearPeriod (timeUnit : TimeUnit)
  (sortedTrendData completeTrendData : list TrendData)
  (currentPeriod : TrendData) : option TrendData :=
  match previousYearPeriodKey timeUnit (period currentPeriod) with
  | None => None
  | Some key =>
      match findPeriod key sortedTrendData with
      | Some p => Some p
      | None =>
          if (0 <? List.length completeTrendData)%nat
          then findPeriod key completeTrendData else None
      end
  end.

(** The body of the loop of [generateComparisonTable]. *)
Definition comparisonRow (timeUnit : TimeUnit) (metric : MetricType)
  (sortedTrendData completeTrendData : list TrendData) (i : nat)
  (currentPeriod : TrendData) : ComparisonRow :=
  let previousPeriod :=
    resolvePreviousPeriod timeUnit sortedTrendData completeTrendData i
      currentPeriod in
  let previousYearPeriod :=
    resolvePreviousYearPeriod timeUnit sortedTrendData completeTrendData
      currentPeriod in
  let cur := orZero (metricOf metric currentPeriod) in
  {| rowPeriod := period currentPeriod;
     current := cur;
     previous := option_map (fun p => orZero (metricOf metric p))
                   previousPeriod;
     change := option_map (fun p =>
                 calculateChange cur (orZero (metricOf metric p)))
                 previousPeriod;
     previousYear := option_map (fun p => orZero (metricOf metric p))
                       previousYearPeriod;
     yearOverYearChange :=
       option_map (fun p => calculateChange cur (orZero (metricOf metric p)))
         previousYearPeriod |}.

(** The rows in the order of the loop, for the periods from index [i]. *)
Fixpoint comparisonRowsFrom (timeUnit : TimeUnit) (metric : MetricType)
  (sortedTrendData completeTrendData : list TrendData) (i : nat)
  (rest : list TrendData) : list ComparisonRow :=
  match rest with
  | [] => []
  | currentPeriod :: rest' =>
      comparisonRow timeUnit metric sortedTrendData completeTrendData i
        currentPeriod
      :: comparisonRowsFrom timeUnit metric sortedTrendData completeTrendData
           (S i) rest'
  end.

Definition sortedTrendDataOf (timeUnit : TimeUnit)
  (filteredTrendData : list TrendData) : list TrendData :=
  sortBy (fun a b => sortPeriodsOldestToNewest timeUnit (period a) (period b))
    filteredTrendData.

Definition generateComparisonTable (timeUnit : TimeUnit) (metric : MetricType)
  (filteredTrendData completeTrendData : list TrendData)
  : list ComparisonRow :=
  if (List.length filteredTrendData <? 2)%nat then []
  else
    let sortedTrendData := sortedTrendDataOf timeUnit filteredTrendData in
    let comparisons :=
      comparisonRowsFrom timeUnit metric sortedTrendData completeTrendData
        0 sortedTrendData in
    sortBy (fun a b =>
      sortPeriodsNewestToOldest timeUnit (rowPeriod a) (rowPeriod b))
      comparisons.

(** ** utils/dataProcessor.ts: percentages and opportunities *)

(** [value.replace(/%/g, '')]. *)
Fixpoint removePercent (s : string) : string :=
  match s with
  | EmptyString => EmptyString
  | String c s' =>
      if Ascii.eqb c "%" then removePercent s'
      else String c (removePercent s')
  end.

Definition parsePercentage (value : string) : Q :=
  if negb (nonEmpty value) || String.eqb value "--" then 0%Q
  else
    match parseFloat (removePercent value) with
    | Some numValue => (numValue / 100)%Q
    | None => 0%Q
    end.

(** [row.CPA || 0] and [row.ROAS || 0] on a metric that may be absent. *)
Definition metricOrZero (x : option Q) : Q :=
  match x with Some v => orZero v | None => 0%Q end.

(** The comparator [(a, b) => a - b], by its sign. *)
Definition subSign (a b : Q) : Z :=
  match (a ?= b)%Q with Lt => -1 | Eq => 0 | Gt => 1 end.

(** [cpaThreshold]: [Math.floor(n * 0.25)] is the quotient of [n] by 4. *)
Definition cpaThreshold (values : list Q) : Q :=
  let sortedCpas := sortBy subSign values in
  let lowerQuartileIndex := (List.length sortedCpas / 4)%nat in
  match nth_error sortedCpas lowerQuartileIndex with
  | Some v => orZero v
  | None => 0%Q
  end.

Record Opportunities : Type := mkOpportunities {
  highRoas : list AdData;
  lowCpa : list AdData;
  highClickShare : list AdData;
  potentialScaling : list AdData
}.

Definition identifyOpportunities (data : list AdData) : Opportunities :=
  let processedData := calculateMetrics data in
  let roasThreshold := 3%Q in
  let clickShareThreshold := (3 # 10)%Q in
  let cpaValues :=
    filter (fun cpa => Qgtb cpa 0)
      (map (fun row => metricOrZero (CPA row)) processedData) in
  let lowerCpaThreshold := cpaThreshold cpaValues in
  {| highRoas :=
       filter (fun row => Qgtb (metricOrZero (ROAS row)) roasThreshold)
         processedData;
     lowCpa :=
       filter (fun row =>
         Qgtb (metricOrZero (CPA row)) 0
         && Qgtb lowerCpaThreshold (metricOrZero (CPA row))) processedData;
     highClickShare :=
       filter (fun row =>
         Qgtb (parsePercentage (Click_share row)) clickShareThreshold)
         processedData;
     potentialScaling :=
       filter (fun row =>
         Qgtb (metricOrZero (ROAS row)) roasThreshold
         && Qgtb (1 # 4) (parsePercentage (Click_share row))
         && Qgtb (parsePercentage (Click_share row)) 0) processedData |}.

(** ** context/DataContext.tsx *)

(** The values that the processing effect of [DataProvider] stores. *)
Record DerivedData : Type := mkDerivedData {
  derivedCompleteTrendData : list TrendData;
  derivedProcessedData : list AdData;
  derivedKpiSummary : KpiSummary;
  derivedTrendData : list TrendData;
  derivedComparisonData : list ComparisonData;
  derivedOpportunities : Opportunities
}.

(** The effect that processes the data when the raw data, the filters,
    the time unit, the comparison dimension or the date range change;
    [None] when the effect returns without storing anything.  An
    exception on the way, which the effect catches and reports, is not
    modelled. *)
Definition processDataEffect (rawData : list AdData)
  (selectedFilters : FilterOptions) (timeUnit : TimeUnit)
  (compareBy : CompareBy) (dateRange : DateRange) : option DerivedData :=
  if (List.length rawData =? 0)%nat then None
  else
    let calculatedData := calculateMetrics rawData in
    let filteredData := filterData calculatedData selectedFilters in
    let allTrends := generateTrendData filteredData timeUnit in
    let filteredData := filterByDateRange filteredData dateRange in
    let summary := calculateKpiSummary filteredData in
    let trends := generateTrendData filteredData timeUnit in
    let comparisons := generateComparisonData filteredData compareBy in
    let detected := identifyOpportunities filteredData in
    Some {| derivedCompleteTrendData := allTrends;
            derivedProcessedData := filteredData;
            derivedKpiSummary := summary;
            derivedTrendData := trends;
            derivedComparisonData := comparisons;
            derivedOpportunities := detected |}.

End Pipeline.

(** ** components/filters/FilterPanel.tsx *)

Inductive FilterType : Type :=
  FTaccounts | FTlanguages | FTcampaignTypes | FTdomains.

(** [filters[filterType]]. *)
Definition filterList (filterType : FilterType) (filters : FilterOptions)
  : list string :=
  match filterType with
  | FTaccounts => accounts filters
  | FTlanguages => languages filters
  | FTcampaignTypes => campaignTypes filters
  | FTdomains => domains filters
  end.

(** [{ ...filters, [filterType]: values }]. *)
Definition setFilterList (filterType : FilterType) (values : list string)
  (filters : FilterOptions) : FilterOptions :=
  {| accounts :=
       match filterType with FTaccounts => values | _ => accounts filters end;
     languages :=
       match filterType with FTlanguages => values | _ => languages filters end;
     campaignTypes :=
       match filterType with
       | FTcampaignTypes => values
       | _ => campaignTypes filters
       end;
     domains :=
       match filterType with FTdomains => values | _ => domains filters end |}.

(** The selection that [handleFilterChange] stores. *)
Definition handleFilterChange (selectedFilters : FilterOptions)
  (filterType : FilterType) (value : string) (isChecked : bool)
  : FilterOptions :=
  setFilterList filterType
    (if isChecked then filterList filterType selectedFilters ++ [value]
     else filter (fun item => negb (String.eqb item value))
            (filterList filterType selectedFilters))
    selectedFilters.

(** The selection that [handleBulkSelection] stores. *)
Definition handleBulkSelection (filterOptions selectedFilters : FilterOptions)
  (filterType : FilterType) (selectAll : bool) : FilterOptions :=
  setFilterList filterType
    (if selectAll then filterList filterType filterOptions else [])
    selectedFilters.

(** ** utils/googleSheetsApi.ts *)

(** [lines.join(sep)]. *)
Definition join (sep : string) (lines : list string) : string :=
  String.concat sep lines.

(** The text that [fetchGoogleSheetData] returns for the response text
    [csvText]: for Microsoft Ads the second line takes the place of the
    first two. *)
Definition fetchGoogleSheetData_text (csvText : string)
  (dataSource : DataSourceType) : string :=
  match dataSource with
  | MICROSOFT_ADS =>
      let lines := split "010" csvText in
      match lines with
      | _ :: headerRow :: rest =>
          join (String "010" EmptyString) (headerRow :: rest)
      | _ => csvText
      end
  | _ => csvText
  end.

(** ** Instances of the host functions

    Simple instances, used to run the definitions on concrete inputs.
    [isoDateParse] reads the date-only ISO format [YYYY-MM-DD] for a host
    at UTC, with the year taken as written, and gives the invalid date
    on every other string; it is stricter than some hosts, which read a
    day that the month does not have (30 February) as a day of the next
    month; the examples apply it to existing dates and to strings that
    are not dates.
    [integerParseFloat] reads an optionally signed sequence of decimal
    digits, and [integerToString] prints the integer part of a value. *)

Definition isoDateParse (s : string) : option Z :=
  match matchThree "-" 4 4 2 2 2 2 s with
  | Some (year, month, day) =>
      match parseInt year, parseInt month, parseInt day with
      | Some y, Some m, Some d =>
          let date := civil y m d 0 in
          if (getFullYear date =? y) && (getMonth date =? m - 1)
             && (getDate date =? d)
          then Some date else None
      | _, _, _ => None
      end
  | None => None
  end.

Definition integerParseFloat (s : string) : option Q :=
  option_map inject_Z (parseInt10 s).

Definition integerToString (q : Q) : string :=
  showZ (Qnum q / Zpos (Qden q)).

(** ** Specification vocabulary *)

(** The sum of a list of metric values. *)
Definition Qsum (l : list Q) : Q := fold_right Qplus 0%Q l.

(** The sum over the records of the counter held in the field [field]. *)
Definition counterSum (parseFloat : string -> option Q)
  (field : AdData -> string) (data : list AdData) : Q :=
  Qsum (map (fun r => parseNumericValue parseFloat (field r)) data).

(** [r] is the rate [n / d], with the value 0 when the denominator is 0. *)
Definition isRate (n d r : Q) : Prop :=
  ((0 < d)%Q -> r = (n / d)%Q) /\ ((d == 0)%Q -> r = 0%Q).

(** The day number of the Thursday of the week from Monday to Sunday
    that holds the day [K]. *)
Definition isoThursday (K : Z) : Z :=
  K + (4 - (if WeekDay K =? 0 then 7 else WeekDay K)).

(** The number of weeks of a year in the ISO 8601 calendar: 53 when
    1 January is a Thursday, or a Wednesday in a leap year, and 52
    otherwise. *)
Definition isoWeeksInYear (y : Z) : Z :=
  if (WeekDay (DayFromYear y) =? 4)
     || (isLeap y && (WeekDay (DayFromYear y) =? 3))
  then 53 else 52.

(** The record is a week of the year before the year of the key [p]: its
    key starts with that year and a hyphen. *)
Definition inPreviousYear (p : string) (item : TrendData) : bool :=
  String.prefix (showNum (numSub (currentYearOf p) (Some 1)) ++ "-")%string
    (period item).

(** ** Example data *)

Definition kpiWithRevenue (r : Q) : KpiSummary :=
  {| impressions := 0; clicks := 0; cost := 0; conversions := 0;
     revenue := r; profit := 0; ctr := 0; cpc := 0; cpa := 0;
     convRate := 0; roas := 0; clv := 0 |}%Q.

Definition trendPoint (p : string) (r : Q) : TrendData :=
  {| period := p; kpi := kpiWithRevenue r |}.

(** A row with the given counters and date. *)
Definition adRow (impr clicks cost conversions revenue date : string)
  : AdData :=
  {| Campaign := "campaign"; Domain_name := "example.com";
     Account_name := "account"; Language := "EN";
     Campaign_type := "Search"; Status := "Enabled"; Date := date;
     processedDate := isoDateParse date;
     Impr := impr; Clicks := clicks; Cost := cost;
     Conversions := conversions; Revenue := revenue;
     Profit := ""; CLV := "";
     Click_share := "0%"; Search_impr_share := "0%";
     Impr_abs_top := "0%"; Impr_top := "0%";
     CTR := None; CPC := None; CPA := None; Conv_rate := None;
     ROAS := None |}%string.

(** The two records of the end-to-end scenario of the specification. *)
Definition marchRecords : list AdData :=
  [ adRow "200" "20" "100" "5" "150" "2024-03-01";
    adRow "100" "10" "50" "0" "0" "2024-03-02" ].

(** A record dated 2 March 2024 at 23:59:59.999, and a record whose
    date string does not parse. *)
Definition lateRow : AdData :=
  setProcessedDate (Some (civil 2024 3 2 86399999))
    (adRow "100" "10" "50" "0" "0" "2024-03-02").

Definition undatedRow : AdData :=
  adRow "40" "4" "7" "1" "9" "garbage".

(** A raw Google Ads row whose date cell is not a date. *)
Definition garbageDateRow : list (string * string) :=
  [ ("Date", "garbage"); ("Account Name", "Acme"); ("Language", "EN");
    ("Domain", "acme.test"); ("Campaign Name", "Brand");
    ("Status", "Enabled"); ("Channel Type", "Search");
    ("Impressions", "40"); ("Clicks", "4"); ("Cost", "7");
    ("Conversions", "1"); ("Conv. Value", "9") ]%string.

(** A monthly series with a gap: January and March 2024, no February. *)
Definition gapSeries : list TrendData :=
  [ trendPoint "2024-1" 100; trendPoint "2024-3" 120 ]%Q.

(** A monthly series without a gap. *)
Definition monthSeries : list TrendData :=
  [ trendPoint "2024-1" 100; trendPoint "2024-2" 0;
    trendPoint "2024-3" 120 ]%Q.

(** A weekly series: the date filter keeps the first weeks of 2024, the
    complete series also has week 50 of 2023 (and no week 52). *)
Definition weekSeriesFiltered : list TrendData :=
  [ trendPoint "2024-1" 50; trendPoint "2024-2" 60 ]%Q.

Definition weekSeriesComplete : list TrendData :=
  [ trendPoint "2023-50" 40; trendPoint "2024-1" 50;
    trendPoint "2024-2" 60 ]%Q.

(** A complete weekly series with two weeks of 2023, neither of them
    the last week 52. *)
Definition weekSeriesTwo : list TrendData :=
  [ trendPoint "2023-10" 30; trendPoint "2023-50" 40;
    trendPoint "2024-1" 50; trendPoint "2024-2" 60 ]%Q.

(** A date-filtered monthly series whose predecessor is only in the
    complete series. *)
Definition springFiltered : list TrendData :=
  [ trendPoint "2024-3" 120; trendPoint "2024-4" 90 ]%Q.

(** ** Vocabulary of the further properties *)

(** The value of a row in the category of a filter list. *)
Definition categoryOf (filterType : FilterType) (row : AdData) : string :=
  match filterType with
  | FTaccounts => Account_name row
  | FTlanguages => Language row
  | FTcampaignTypes => Campaign_type row
  | FTdomains => Domain_name row
  end.

(** The test of [filterData] on one category. *)
Definition categoryMatch (filters : FilterOptions) (row : AdData)
  (filterType : FilterType) : bool :=
  (List.length (filterList filterType filters) =? 0)%nat
  || listIncludes (filterList filterType filters) (categoryOf filterType row).

(** The row has a date and the date falls in the period [key]. *)
Definition inPeriod (timeUnit : TimeUnit) (key : string) (row : AdData)
  : bool :=
  match processedDate row with
  | Some date => String.eqb (periodKeyOf timeUnit date) key
  | None => false
  end.

(** The rows of the period [key], with their dates, in the order of the
    data. *)
Definition rowsOfPeriod (dateParse : string -> option Z)
  (timeUnit : TimeUnit) (key : string) (data : list AdData) : list AdData :=
  filter (inPeriod timeUnit key) (map (ensureProcessedDate dateParse) data).

(** [Some l] when [l] has an element. *)
Definition someIfNonEmpty {A : Type} (l : list A) : option (list A) :=
  match l with [] => None | _ => Some l end.

(** The year and the number within the year that make the key of a date
    at the granularities [Week] and [Month]. *)
Definition keyParts (timeUnit : TimeUnit) (date : Z) : Z * Z :=
  match timeUnit with
  | Week => (year (isoWeekOf date), week (isoWeekOf date))
  | _ => (getFullYear date, getMonth date + 1)
  end.

(** The key [year-number] of a week or a month. *)
Definition keyOfParts (p : Z * Z) : string := monthKey (fst p) (snd p).

(** Earlier year, or the same year and a smaller number. *)
Definition lexLt (a b : Z * Z) : Prop :=
  fst a < fst b \/ (fst a = fst b /\ snd a < snd b).

(** No character of the string is [c]. *)
Fixpoint noChar (c : ascii) (s : string) : bool :=
  match s with
  | EmptyString => true
  | String x s' => negb (Ascii.eqb x c) && noChar c s'
  end.

(** No character of the string is white space. *)
Fixpoint noWhite (s : string) : bool :=
  match s with
  | EmptyString => true
  | String x s' => negb (isWhite x) && noWhite s'
  end.

(** The value of a string of decimal digits. *)
Definition digitsValue (s : string) : Z := Z.of_N (parseDigits s 0).

(** [mappedRow[field]] for the fields that the field maps assign. *)
Definition getField (f : AdField) (r : AdData) : string :=
  match f with
  | FCampaign => Campaign r
  | FDomainName => Domain_name r
  | FAccountName => Account_name r
  | FLanguage => Language r
  | FCampaignType => Campaign_type r
  | FImpr => Impr r
  | FClicks => Clicks r
  | FCost => Cost r
  | FConversions => Conversions r
  | FRevenue => Revenue r
  | FStatus => Status r
  | FDate => Date r
  end.

(** The column of the Google Ads sheet that [googleAdsFieldMap] assigns
    to a field (lemma [mappedKeyOf_google]). *)
Definition googleColumnOf (f : AdField) : string :=
  match f with
  | FCampaign => "Campaign Name"
  | FDomainName => "Domain"
  | FAccountName => "Account Name"
  | FLanguage => "Language"
  | FCampaignType => "Channel Type"
  | FImpr => "Impressions"
  | FClicks => "Clicks"
  | FCost => "Cost"
  | FConversions => "Conversions"
  | FRevenue => "Conv. Value"
  | FStatus => "Status"
  | FDate => "Date"
  end.

(** The step of the loop of [mapGoogleSheetRow] over the keys of a
    Google Ads row. *)
Definition googleStep (m : AdData) (kv : string * string) : AdData :=
  match mappedKeyOf googleAdsFieldMap (fst kv) with
  | Some mappedKey => setField mappedKey (snd kv) m
  | None => m
  end.

(** No category is selected. *)
Definition noFilters : FilterOptions :=
  {| accounts := []; languages := []; campaignTypes := []; domains := [] |}.

(** A monthly series with the same month of two years. *)
Definition yearSeries : list TrendData :=
  [ trendPoint "2023-3" 80; trendPoint "2024-3" 120 ]%Q.

(** The records of March 2024 and one record of November 2023. *)
Definition winterRecords : list AdData :=
  marchRecords ++ [ adRow "10" "1" "2" "1" "3" "2023-11-05" ].

(* ================================================================== *)
(** * Properties *)

(** ** Calendar arithmetic *)

Lemma div_step (k c y : Z) :
  1 < k ->
  (y + 1 - (c * k + 1)) / k =
  (y - (c * k + 1)) / k + (if y mod k =? 0 then 1 else 0).
Proof.
  intros Hk.
  destruct (y mod k =? 0) eqn:E; rewrite ?Z.eqb_eq, ?Z.eqb_neq in E.
  - assert (Hy : y = k * (y / k)).
    { pose proof (Z.div_mod y k ltac:(lia)). lia. }
    set (q := y / k) in *.
    replace (y + 1 - (c * k + 1)) with ((q - c) * k) by lia.
    rewrite Z.div_mul by lia.
    replace (y - (c * k + 1)) with ((q - c - 1) * k + (k - 1)) by lia.
    rewrite Z.div_add_l by lia.
    rewrite (Z.div_small (k - 1) k) by lia. lia.
  - pose proof (Z.div_mod y k ltac:(lia)) as Hy.
    pose proof (Z.mod_pos_bound y k ltac:(lia)) as Hb.
    set (q := y / k) in *. set (r := y mod k) in *.
    replace (y + 1 - (c * k + 1)) with ((q - c) * k + r) by lia.
    replace (y - (c * k + 1)) with ((q - c) * k + (r - 1)) by lia.
    rewrite !Z.div_add_l by lia.
    rewrite (Z.div_small r k), (Z.div_small (r - 1) k) by lia. lia.
Qed.

Lemma DayFromYear_succ (y : Z) :
  DayFromYear (y + 1) = DayFromYear y + DaysInYear y.
Proof.
  unfold DayFromYear, DaysInYear, isLeap.
  pose proof (div_step 4 492 y ltac:(lia)) as H4.
  pose proof (div_step 100 19 y ltac:(lia)) as H100.
  pose proof (div_step 400 4 y ltac:(lia)) as H400.
  change (492 * 4 + 1) with 1969 in H4.
  change (19 * 100 + 1) with 1901 in H100.
  change (4 * 400 + 1) with 1601 in H400.
  rewrite H4, H100, H400.
  assert (D1 : y mod 100 = 0 -> y mod 4 = 0).
  { intros E. Z.div_mod_to_equations. lia. }
  assert (D2 : y mod 400 = 0 -> y mod 100 = 0).
  { intros E. Z.div_mod_to_equations. lia. }
  destruct (y mod 4 =? 0) eqn:E4; destruct (y mod 100 =? 0) eqn:E100;
    destruct (y mod 400 =? 0) eqn:E400; cbn [andb orb negb];
    rewrite ?Z.eqb_eq, ?Z.eqb_neq in *; lia.
Qed.

Lemma DaysInYear_bounds (y : Z) : 365 <= DaysInYear y <= 366.
Proof. unfold DaysInYear; destruct (isLeap y); lia. Qed.

Lemma DayFromYear_lt (y : Z) : DayFromYear y < DayFromYear (y + 1).
Proof. rewrite DayFromYear_succ. pose proof (DaysInYear_bounds y). lia. Qed.

Lemma DayFromYear_mono (a b : Z) : a <= b -> DayFromYear a <= DayFromYear b.
Proof.
  intros H. unfold DayFromYear. Z.div_mod_to_equations. lia.
Qed.

Lemma YearFromDay_spec (d : Z) :
  DayFromYear (YearFromDay d) <= d < DayFromYear (YearFromDay d + 1).
Proof.
  unfold YearFromDay.
  set (y := 1970 + 400 * d / 146097).
  assert (Hlo : DayFromYear (y - 1) <= d).
  { unfold DayFromYear, y. Z.div_mod_to_equations. lia. }
  assert (Hhi : d < DayFromYear (y + 2)).
  { unfold DayFromYear, y. Z.div_mod_to_equations. lia. }
  destruct (d <? DayFromYear y) eqn:E1.
  - apply Z.ltb_lt in E1. replace (y - 1 + 1) with y by lia. lia.
  - apply Z.ltb_ge in E1.
    destruct (DayFromYear (y + 1) <=? d) eqn:E2.
    + apply Z.leb_le in E2. replace (y + 1 + 1) with (y + 2) by lia. lia.
    + apply Z.leb_gt in E2. lia.
Qed.

Lemma YearFromDay_unique (d y : Z) :
  DayFromYear y <= d < DayFromYear (y + 1) -> YearFromDay d = y.
Proof.
  intros [Hlo Hhi]. pose proof (YearFromDay_spec d) as [Slo Shi].
  destruct (Z.lt_trichotomy (YearFromDay d) y) as [L|[E|G]]; [|exact E|].
  - pose proof (DayFromYear_mono (YearFromDay d + 1) y ltac:(lia)). lia.
  - pose proof (DayFromYear_mono (y + 1) (YearFromDay d) ltac:(lia)). lia.
Qed.

Lemma YearFromDay_le (d y : Z) : d < DayFromYear (y + 1) -> YearFromDay d <= y.
Proof.
  intros H. pose proof (YearFromDay_spec d) as [Slo _].
  destruct (Z.le_gt_cases (YearFromDay d) y) as [L|G]; [exact L|].
  pose proof (DayFromYear_mono (y + 1) (YearFromDay d) ltac:(lia)). lia.
Qed.

Lemma DayWithinYear_bounds (d : Z) :
  0 <= DayWithinYear d < 365 + InLeapYear d.
Proof.
  unfold DayWithinYear, InLeapYear.
  pose proof (YearFromDay_spec d) as [Slo Shi].
  rewrite DayFromYear_succ in Shi. unfold DaysInYear in Shi.
  destruct (isLeap (YearFromDay d)); lia.
Qed.

Lemma MonthFromDay_bounds (d : Z) : 0 <= MonthFromDay d <= 11.
Proof.
  unfold MonthFromDay.
  repeat match goal with |- context [if ?c then _ else _] => destruct c end;
    lia.
Qed.

Lemma MakeDay_roundtrip (d k : Z) :
  MakeDay (YearFromDay d) (MonthFromDay d) (DateFromDay d + k) = d + k.
Proof.
  pose proof (MonthFromDay_bounds d) as Hm.
  unfold MakeDay.
  rewrite (Z.div_small (MonthFromDay d) 12), (Z.mod_small (MonthFromDay d) 12)
    by lia.
  rewrite Z.add_0_r.
  unfold DateFromDay, DayWithinYear, InLeapYear. lia.
Qed.

Lemma Day_MakeDate (day time : Z) :
  0 <= time < msPerDay -> Day (MakeDate day time) = day.
Proof.
  intros H. unfold Day, MakeDate.
  rewrite Z.div_add_l by (unfold msPerDay; lia).
  rewrite Z.div_small by exact H. lia.
Qed.

Lemma TimeWithinDay_bounds (t : Z) : 0 <= TimeWithinDay t < msPerDay.
Proof. unfold TimeWithinDay. apply Z.mod_pos_bound. reflexivity. Qed.

Lemma Day_TimeWithinDay (t : Z) : t = Day t * msPerDay + TimeWithinDay t.
Proof.
  unfold Day, TimeWithinDay.
  pose proof (Z.div_mod t msPerDay ltac:(unfold msPerDay; lia)). lia.
Qed.

Lemma setDate_shift (t k : Z) :
  setDate t (getDate t + k) = t + k * msPerDay.
Proof.
  unfold setDate, getFullYear, getMonth, getDate.
  rewrite MakeDay_roundtrip. unfold MakeDate.
  pose proof (Day_TimeWithinDay t). lia.
Qed.

Lemma Day_shift (t k : Z) : Day (t + k * msPerDay) = Day t + k.
Proof.
  unfold Day. rewrite Z.div_add by (unfold msPerDay; lia). reflexivity.
Qed.

Lemma TimeWithinDay_shift (t k : Z) :
  TimeWithinDay (t + k * msPerDay) = TimeWithinDay t.
Proof. unfold TimeWithinDay. apply Z.mod_add. unfold msPerDay; lia. Qed.

(** ** getISOWeek *)

Lemma isoDayOfWeek_bounds (t : Z) : 1 <= isoDayOfWeek t <= 7.
Proof.
  unfold isoDayOfWeek, getDay, WeekDay.
  pose proof (Z.mod_pos_bound (Day t + 4) 7 ltac:(lia)).
  destruct (_ =? 0) eqn:E; rewrite ?Z.eqb_neq in E; lia.
Qed.

Lemma setDate_thursday (t : Z) :
  setDate t (getDate t + (4 - isoDayOfWeek t)) = thursdayOf t.
Proof. unfold thursdayOf. apply setDate_shift. Qed.

Lemma newDate_jan1 (y : Z) :
  newDate y 0 1 = DayFromYear (MakeFullYear y) * msPerDay.
Proof.
  unfold newDate, MakeDate, MakeDay.
  change (0 / 12) with 0. change (0 mod 12) with 0.
  rewrite !Z.add_0_r. ring.
Qed.

Lemma newDate_dec31 (y : Z) :
  newDate y 11 31 =
  (DayFromYear (MakeFullYear y) + DaysInYear (MakeFullYear y) - 1) * msPerDay.
Proof.
  unfold newDate, MakeDate, MakeDay, DaysInYear.
  change (11 / 12) with 0. change (11 mod 12) with 11.
  rewrite !Z.add_0_r. cbn [daysBeforeMonth].
  destruct (isLeap (MakeFullYear y)); ring.
Qed.

Lemma ceilDiv_spec (a b : Z) :
  0 < b -> (ceilDiv a b - 1) * b < a <= ceilDiv a b * b.
Proof.
  intros Hb. unfold ceilDiv.
  pose proof (Z.div_mod (- a) b ltac:(lia)) as E.
  pose proof (Z.mod_pos_bound (- a) b Hb) as B.
  set (q := - a / b) in *. set (r := (- a) mod b) in *. nia.
Qed.

Lemma weekIndex_midnight (a b : Z) :
  weekIndex (a * msPerDay) (b * msPerDay) = ceilDiv (a - b + 1) 7.
Proof.
  unfold weekIndex, ceilDiv.
  replace (- (a * msPerDay - b * msPerDay + msPerDay))
    with ((- (a - b + 1)) * msPerDay) by ring.
  rewrite Z.div_mul_cancel_r by (unfold msPerDay; lia). reflexivity.
Qed.

Lemma weekIndex_range (a b r : Z) :
  0 <= r < msPerDay -> 0 <= a - b <= 365 ->
  1 <= weekIndex (a * msPerDay + r) (b * msPerDay) <= 53.
Proof.
  unfold weekIndex. intros Hr Hd.
  pose proof (ceilDiv_spec (a * msPerDay + r - b * msPerDay + msPerDay)
                (7 * msPerDay) ltac:(reflexivity)) as H1.
  unfold msPerDay in *. lia.
Qed.

Lemma weekIndex_negative (a b r : Z) :
  0 <= r < msPerDay -> a - b < -8 ->
  weekIndex (a * msPerDay + r) (b * msPerDay) < 0.
Proof.
  unfold weekIndex. intros Hr Hd.
  pose proof (ceilDiv_spec (a * msPerDay + r - b * msPerDay + msPerDay)
                (7 * msPerDay) ltac:(reflexivity)) as H1.
  unfold msPerDay in *. lia.
Qed.

Lemma weekIndex_dec31 (y : Z) :
  weekIndex (newDate y 11 31) (newDate y 0 1) = 53.
Proof.
  rewrite newDate_jan1, newDate_dec31, weekIndex_midnight.
  unfold DaysInYear. destruct (isLeap (MakeFullYear y)).
  - replace (_ - _ + 1) with 366 by lia. reflexivity.
  - replace (_ - _ + 1) with 365 by lia. reflexivity.
Qed.

Lemma MonthFromDay_lt3 (d : Z) :
  MonthFromDay d < 3 -> DayWithinYear d < 90 + InLeapYear d.
Proof.
  unfold MonthFromDay.
  assert (0 <= InLeapYear d <= 1)
    by (unfold InLeapYear; destruct (isLeap _); lia).
  repeat match goal with
         | |- context [if ?a <? ?b then _ else _] =>
             destruct (Z.ltb_spec a b)
         end; lia.
Qed.

Lemma thursday_year_first_quarter (t : Z) :
  getMonth t < 3 -> getFullYear (thursdayOf t) <= getFullYear t.
Proof.
  intros Hm. unfold getFullYear, getMonth in *.
  unfold thursdayOf. rewrite Day_shift.
  pose proof (isoDayOfWeek_bounds t) as Hd.
  apply MonthFromDay_lt3 in Hm.
  apply YearFromDay_le. rewrite DayFromYear_succ.
  unfold DayWithinYear, InLeapYear, DaysInYear in *.
  destruct (isLeap (YearFromDay (Day t))); lia.
Qed.

(** The week index of a time [T] counted from 1 January of its year: in
    range when the year is not one of the two-digit years 0..99, negative
    otherwise. *)
Lemma year_weekIndex (T : Z) :
  if (0 <=? getFullYear T) && (getFullYear T <=? 99)
  then weekIndex T (newDate (getFullYear T) 0 1) < 0
  else 1 <= weekIndex T (newDate (getFullYear T) 0 1) <= 53.
Proof.
  rewrite newDate_jan1.
  replace (weekIndex T) with (weekIndex (Day T * msPerDay + TimeWithinDay T))
    by (f_equal; symmetry; apply Day_TimeWithinDay).
  pose proof (TimeWithinDay_bounds T) as Hr.
  unfold getFullYear.
  pose proof (YearFromDay_spec (Day T)) as [Slo Shi].
  generalize dependent (TimeWithinDay T). intros r Hr.
  generalize dependent (Day T). intros d Slo Shi.
  generalize dependent (YearFromDay d). intros Y Slo Shi.
  unfold MakeFullYear.
  destruct ((0 <=? Y) && (Y <=? 99)) eqn:E.
  - apply andb_prop in E as [E1 E2].
    apply Z.leb_le in E1, E2.
    apply weekIndex_negative; [exact Hr|].
    pose proof (DayFromYear_mono (Y + 1) 100 ltac:(lia)) as M1.
    pose proof (DayFromYear_mono 1900 (1900 + Y) ltac:(lia)) as M2.
    change (DayFromYear 100) with (-683003) in M1.
    change (DayFromYear 1900) with (-25567) in M2. lia.
  - apply weekIndex_range; [exact Hr|].
    rewrite DayFromYear_succ in Shi.
    pose proof (DaysInYear_bounds Y). lia.
Qed.

(** [getISOWeek] always returns: the result is the year of the Thursday of
    the date's week together with the week index counted from 1 January
    of that year; the adjustments for week 53, week 0 and the first
    quarter are never taken. *)
Lemma getISOWeek_body_eq (self : Z -> option IsoWeek) (t : Z) :
  getISOWeek_body self t =
  Some (mkIsoWeek (getFullYear (thursdayOf t))
          (weekIndex (thursdayOf t)
             (newDate (getFullYear (thursdayOf t)) 0 1))).
Proof.
  pose proof (thursday_year_first_quarter t) as HQ.
  unfold getISOWeek_body. cbv zeta.
  rewrite !setDate_thursday.
  generalize dependent (thursdayOf t). intros T HQ.
  rewrite weekIndex_dec31. change (53 <? 53) with false.
  rewrite andb_false_r.
  pose proof (year_weekIndex T) as HW.
  generalize dependent (weekIndex T (newDate (getFullYear T) 0 1)).
  intros W HW.
  assert (HW0 : (W =? 0) = false).
  { apply Z.eqb_neq. destruct (_ && _) in HW; lia. }
  rewrite HW0.
  destruct (getMonth t <? 3) eqn:Em; [|reflexivity].
  apply Z.ltb_lt in Em. apply HQ in Em.
  assert (Hy : (getFullYear t <? getFullYear T) = false)
    by (apply Z.ltb_ge; exact Em).
  rewrite Hy. reflexivity.
Qed.

Lemma getISOWeek_returns (t : Z) :
  getISOWeek t =
  Some (mkIsoWeek (getFullYear (thursdayOf t))
          (weekIndex (thursdayOf t)
             (newDate (getFullYear (thursdayOf t)) 0 1))).
Proof. unfold getISOWeek. cbn [getISOWeek_fuel]. apply getISOWeek_body_eq. Qed.

Lemma weekIndex_eq (a b r n : Z) :
  0 <= r < msPerDay -> 7 * (n - 1) < a - b + 1 < 7 * n ->
  weekIndex (a * msPerDay + r) (b * msPerDay) = n.
Proof.
  unfold weekIndex. intros Hr Hn.
  pose proof (ceilDiv_spec (a * msPerDay + r - b * msPerDay + msPerDay)
                (7 * msPerDay) ltac:(reflexivity)) as H1.
  unfold msPerDay in *. lia.
Qed.

(** [getISOWeek] on day number [K] at time [ms] of the day. *)
Lemma getISOWeek_at (K ms Y n : Z) :
  0 <= ms < msPerDay ->
  YearFromDay (K + (4 - (if WeekDay K =? 0 then 7 else WeekDay K))) = Y ->
  MakeFullYear Y = Y ->
  7 * (n - 1) <
    K + (4 - (if WeekDay K =? 0 then 7 else WeekDay K)) - DayFromYear Y + 1
    < 7 * n ->
  getISOWeek (MakeDate K ms) = Some (mkIsoWeek Y n).
Proof.
  intros Hms HY HF Hn.
  rewrite getISOWeek_returns.
  assert (HD : Day (MakeDate K ms) = K) by (apply Day_MakeDate; exact Hms).
  assert (HT : thursdayOf (MakeDate K ms) =
               (K + (4 - (if WeekDay K =? 0 then 7 else WeekDay K)))
               * msPerDay + ms).
  { unfold thursdayOf, isoDayOfWeek, getDay. rewrite HD.
    unfold MakeDate. ring. }
  assert (HYr : getFullYear (thursdayOf (MakeDate K ms)) = Y).
  { unfold getFullYear. rewrite HT.
    fold (MakeDate (K + (4 - (if WeekDay K =? 0 then 7 else WeekDay K))) ms).
    rewrite Day_MakeDate by exact Hms. exact HY. }
  rewrite HYr, newDate_jan1, HF, HT.
  rewrite (weekIndex_eq _ _ _ n) by assumption. reflexivity.
Qed.

(** Outside the two-digit years 0..99 the week number of [getISOWeek] lies
    between 1 and 53. *)
Lemma getISOWeek_week_range (t : Z) :
  ~ (0 <= getFullYear (thursdayOf t) <= 99) ->
  exists r, getISOWeek t = Some r /\ 1 <= week r <= 53.
Proof.
  intros HY. rewrite getISOWeek_returns. eexists. split; [reflexivity|].
  cbn [week].
  pose proof (year_weekIndex (thursdayOf t)) as HW.
  destruct ((0 <=? getFullYear (thursdayOf t))
            && (getFullYear (thursdayOf t) <=? 99)) eqn:E; [|exact HW].
  apply andb_prop in E as [E1 E2]. apply Z.leb_le in E1, E2. lia.
Qed.

(** For a date in January, February or March the ISO year of [getISOWeek]
    is never greater than the calendar year. *)
Lemma getISOWeek_first_quarter (t : Z) :
  getMonth t < 3 ->
  exists r, getISOWeek t = Some r /\ year r <= getFullYear t.
Proof.
  intros Hm. rewrite getISOWeek_returns. eexists. split; [reflexivity|].
  cbn [year]. apply thursday_year_first_quarter. exact Hm.
Qed.

(** In the two-digit years the week number is negative. *)
Lemma getISOWeek_two_digit_year (t : Z) :
  0 <= getFullYear (thursdayOf t) <= 99 ->
  exists r, getISOWeek t = Some r /\ week r < 0.
Proof.
  intros HY. rewrite getISOWeek_returns. eexists. split; [reflexivity|].
  cbn [week].
  pose proof (year_weekIndex (thursdayOf t)) as HW.
  destruct ((0 <=? getFullYear (thursdayOf t))
            && (getFullYear (thursdayOf t) <=? 99)) eqn:E; [exact HW|].
  apply andb_false_iff in E as [E|E];
    [apply Z.leb_gt in E|apply Z.leb_gt in E]; lia.
Qed.

(** C4: [getISOWeek] maps 1 January 2024 to week 1 of 2024, 31 December
    2023 to week 52 of 2023 and 1 January 2023 to week 52 of 2022, at
    every time [ms] of the day. *)
Theorem getISOWeek_known_dates (ms : Z) :
  0 <= ms < msPerDay ->
  getISOWeek (civil 2024 1 1 ms) = Some (mkIsoWeek 2024 1) /\
  getISOWeek (civil 2023 12 31 ms) = Some (mkIsoWeek 2023 52) /\
  getISOWeek (civil 2023 1 1 ms) = Some (mkIsoWeek 2022 52).
Proof.
  intros Hms. unfold civil.
  change (MakeDay 2024 (1 - 1) 1) with 19723.
  change (MakeDay 2023 (12 - 1) 31) with 19722.
  change (MakeDay 2023 (1 - 1) 1) with 19358.
  repeat split; apply getISOWeek_at; try exact Hms;
    try (vm_compute; reflexivity); vm_compute; split; reflexivity.
Qed.

Lemma getISOWeek_known_dates_witness :
  0 <= 0 < msPerDay /\
  getISOWeek (civil 2024 1 1 0) = Some (mkIsoWeek 2024 1) /\
  getISOWeek (civil 2023 12 31 0) = Some (mkIsoWeek 2023 52) /\
  getISOWeek (civil 2023 1 1 0) = Some (mkIsoWeek 2022 52).
Proof.
  split; [unfold msPerDay; lia|].
  apply (getISOWeek_known_dates 0). unfold msPerDay; lia.
Defined.

(** C3 at 15 June of the year 50, a valid calendar date.  [parseDate]
    returns this date for the string 0050-06-15 (through the host parser,
    after its own check has rejected the date it built).  [getISOWeek]
    returns the week number -99113 for it, because the first day of the
    year is built with [new Date(50, 0, 1)], which denotes 1 January
    1950; the bucket key of the record is 50--99113. *)
Theorem getISOWeek_year_50 :
  parseDate isoDateParse "0050-06-15" GOOGLE_ADS = Some (civil 50 6 15 0) /\
  getFullYear (civil 50 6 15 0) = 50 /\
  getMonth (civil 50 6 15 0) = 5 /\
  getDate (civil 50 6 15 0) = 15 /\
  newDate 50 0 1 = civil 1950 1 1 0 /\
  getISOWeek (civil 50 6 15 0) = Some (mkIsoWeek 50 (-99113)) /\
  periodKeyOf Week (civil 50 6 15 0) = "50--99113"%string.
Proof. vm_compute. repeat split; reflexivity. Qed.

Lemma isoWeekOf_eq (t : Z) :
  isoWeekOf t =
  mkIsoWeek (getFullYear (thursdayOf t))
    (weekIndex (thursdayOf t) (newDate (getFullYear (thursdayOf t)) 0 1)).
Proof. unfold isoWeekOf. rewrite getISOWeek_returns. reflexivity. Qed.

Lemma MakeFullYear_id (y : Z) : ~ (0 <= y <= 99) -> MakeFullYear y = y.
Proof.
  intros H. unfold MakeFullYear.
  destruct (0 <=? y) eqn:E1; [|reflexivity].
  destruct (y <=? 99) eqn:E2; [|reflexivity].
  apply Z.leb_le in E1, E2. lia.
Qed.

(** The ISO week of midnight of day [K], when the Thursday of its week
    lies in the year [Y] (not a two-digit year). *)
Lemma isoWeekOf_midnight (K Y : Z) :
  let K' := K + (4 - (if WeekDay K =? 0 then 7 else WeekDay K)) in
  DayFromYear Y <= K' < DayFromYear (Y + 1) -> ~ (0 <= Y <= 99) ->
  isoWeekOf (K * msPerDay) = mkIsoWeek Y (ceilDiv (K' - DayFromYear Y + 1) 7).
Proof.
  intros K' HK HY. rewrite isoWeekOf_eq.
  assert (HD : Day (K * msPerDay) = K)
    by (unfold Day; apply Z.div_mul; unfold msPerDay; lia).
  assert (HT : thursdayOf (K * msPerDay) = K' * msPerDay).
  { unfold thursdayOf, isoDayOfWeek, getDay. rewrite HD. subst K'. ring. }
  rewrite HT. unfold getFullYear.
  assert (HD' : Day (K' * msPerDay) = K')
    by (unfold Day; apply Z.div_mul; unfold msPerDay; lia).
  rewrite HD', (YearFromDay_unique K' Y HK).
  rewrite newDate_jan1, (MakeFullYear_id Y HY), weekIndex_midnight.
  reflexivity.
Qed.

Lemma ceilDiv7_52 (x : Z) : 358 <= x <= 364 -> ceilDiv x 7 = 52.
Proof.
  intros H. pose proof (ceilDiv_spec x 7 ltac:(lia)). lia.
Qed.

Lemma ceilDiv7_53 (x : Z) : 365 <= x <= 371 -> ceilDiv x 7 = 53.
Proof.
  intros H. pose proof (ceilDiv_spec x 7 ltac:(lia)). lia.
Qed.

(** [getLastISOWeekOfYear] gives 52 or 53 (outside the two-digit years). *)
Lemma getLastISOWeekOfYear_range (y : Z) :
  ~ (0 <= y <= 99) -> ~ (0 <= y + 1 <= 99) ->
  getLastISOWeekOfYear y = 52 \/ getLastISOWeekOfYear y = 53.
Proof.
  intros Hy Hy1. unfold getLastISOWeekOfYear. cbv zeta.
  rewrite newDate_dec31, (MakeFullYear_id y Hy).
  pose proof (DayFromYear_succ y) as Hs.
  pose proof (DaysInYear_bounds y) as Hb.
  pose proof (DayFromYear_succ (y + 1)) as Hs1.
  pose proof (DaysInYear_bounds (y + 1)) as Hb1.
  set (K := DayFromYear y + DaysInYear y - 1) in *.
  assert (Hw : 1 <= (if WeekDay K =? 0 then 7 else WeekDay K) <= 7).
  { unfold WeekDay. pose proof (Z.mod_pos_bound (K + 4) 7 ltac:(lia)).
    destruct (_ =? 0) eqn:E; rewrite ?Z.eqb_neq in E; lia. }
  destruct (Z.le_gt_cases (if WeekDay K =? 0 then 7 else WeekDay K) 3)
    as [Hlow|Hhigh].
  - (* the Thursday of the last day's week is in the next year *)
    rewrite (isoWeekOf_midnight K (y + 1)); [|subst K; lia|exact Hy1].
    cbn [year week].
    assert (Hlt : (y <? y + 1) = true) by (apply Z.ltb_lt; lia).
    rewrite Hlt.
    assert (E24 : newDate y 11 24 = (K - 7) * msPerDay).
    { unfold newDate, MakeDate, MakeDay. rewrite (MakeFullYear_id y Hy).
      change (11 / 12) with 0. change (11 mod 12) with 11.
      rewrite !Z.add_0_r. cbn [daysBeforeMonth]. subst K.
      unfold DaysInYear. destruct (isLeap y); ring. }
    rewrite E24.
    assert (Ew : WeekDay (K - 7) = WeekDay K).
    { unfold WeekDay. replace (K - 7 + 4) with (K + 4 + (-1) * 7) by lia.
      apply Z.mod_add. lia. }
    rewrite (isoWeekOf_midnight (K - 7) y); [| |exact Hy].
    + cbn [week]. left. rewrite Ew. apply ceilDiv7_52. subst K. lia.
    + rewrite Ew. subst K. lia.
  - (* the Thursday is in the year itself *)
    rewrite (isoWeekOf_midnight K y); [|subst K; lia|exact Hy].
    cbn [year week].
    rewrite Z.ltb_irrefl.
    destruct (Z.le_gt_cases
                (K + (4 - (if WeekDay K =? 0 then 7 else WeekDay K))
                 - DayFromYear y + 1) 364) as [H364|H365].
    + left. apply ceilDiv7_52. subst K. lia.
    + right. apply ceilDiv7_53. subst K. lia.
Qed.

(** ** Decimal strings *)

Lemma isDigit_facts (c : ascii) :
  isDigit c = true ->
  isWhite c = false /\ Ascii.eqb c "-" = false /\ Ascii.eqb c "+" = false /\
  Ascii.eqb c "x" = false /\ Ascii.eqb c "X" = false /\
  Ascii.eqb c "Q" = false /\ Ascii.eqb c "/" = false.
Proof.
  destruct c as [[] [] [] [] [] [] [] []]; vm_compute;
    intros H; try discriminate H; repeat split; reflexivity.
Qed.

Lemma parseUnsigned_digits (s : string) :
  allDigits s = true -> s <> EmptyString ->
  parseUnsigned s = Some (parseDigits s 0).
Proof.
  intros Hall Hne. destruct s as [|c s']; [congruence|].
  assert (Hc : isDigit c = true)
    by (simpl in Hall; apply andb_prop in Hall; tauto).
  assert (Hgen : (if startsWithDigit (String c s')
                  then Some (parseDigits (String c s') 0) else None)
                 = Some (parseDigits (String c s') 0))
    by (simpl; rewrite Hc; reflexivity).
  destruct s' as [|x s''].
  - unfold parseUnsigned.
    destruct c as [[] [] [] [] [] [] [] []]; exact Hgen.
  - assert (Hx : isDigit x = true).
    { simpl in Hall. apply andb_prop in Hall as [_ Hall].
      apply andb_prop in Hall. tauto. }
    destruct (isDigit_facts x Hx) as (_ & _ & _ & Ex & EX & _).
    unfold parseUnsigned.
    destruct c as [[] [] [] [] [] [] [] []]; try exact Hgen.
    rewrite Ex, EX. reflexivity.
Qed.

Lemma parseInt_digits (s : string) :
  allDigits s = true -> s <> EmptyString ->
  parseInt s = Some (Z.of_N (parseDigits s 0)).
Proof.
  intros Hall Hne.
  pose proof (parseUnsigned_digits s Hall Hne) as HU.
  destruct s as [|c s']; [congruence|].
  assert (Hc : isDigit c = true)
    by (simpl in Hall; apply andb_prop in Hall; tauto).
  destruct (isDigit_facts c Hc) as (Ew & Em & Ep & _).
  unfold parseInt. cbn [trimStart]. rewrite Ew.
  assert (Hgen : option_map Z.of_N (parseUnsigned (String c s'))
                 = Some (Z.of_N (parseDigits (String c s') 0)))
    by (rewrite HU; reflexivity).
  destruct c as [[] [] [] [] [] [] [] []]; try exact Hgen;
    discriminate.
Qed.

Lemma allDigits_string_of_uint (d : Decimal.uint) :
  allDigits (NilEmpty.string_of_uint d) = true.
Proof. induction d; simpl; auto. Qed.

Lemma parseDigits_uint_acc (d : Decimal.uint) (p : positive) :
  parseDigits (NilEmpty.string_of_uint d) (Npos p) = Npos (Pos.of_uint_acc d p).
Proof.
  revert p. induction d; intros p; cbn [NilEmpty.string_of_uint parseDigits
    Pos.of_uint_acc]; try reflexivity;
    change (isDigit _) with true; cbv iota;
    match goal with
    | |- parseDigits _ ?a = _ =>
        match type of IHd with
        | forall q, _ = Npos (Pos.of_uint_acc d q) =>
            match goal with
            | |- _ = Npos (Pos.of_uint_acc d ?q) =>
                replace a with (Npos q); [apply IHd|]
            end
        end
    end; unfold digitVal; cbn [N_of_ascii N_of_digits]; lia.
Qed.

Lemma parseDigits_uint (d : Decimal.uint) :
  parseDigits (NilEmpty.string_of_uint d) 0 = Pos.of_uint d.
Proof.
  induction d; cbn [NilEmpty.string_of_uint parseDigits Pos.of_uint];
    try reflexivity;
    change (isDigit _) with true; cbv iota.
  - exact IHd.
  - apply (parseDigits_uint_acc d 1).
  - apply (parseDigits_uint_acc d 2).
  - apply (parseDigits_uint_acc d 3).
  - apply (parseDigits_uint_acc d 4).
  - apply (parseDigits_uint_acc d 5).
  - apply (parseDigits_uint_acc d 6).
  - apply (parseDigits_uint_acc d 7).
  - apply (parseDigits_uint_acc d 8).
  - apply (parseDigits_uint_acc d 9).
Qed.

Lemma allDigits_showN (n : N) : allDigits (showN n) = true.
Proof. apply allDigits_string_of_uint. Qed.

Lemma showN_nonempty (n : N) : showN n <> EmptyString.
Proof.
  unfold showN. destruct n as [|p]; [discriminate|].
  cbn [N.to_uint].
  pose proof (DecimalPos.Unsigned.to_uint_nonnil p) as H.
  destruct (Pos.to_uint p); try congruence; discriminate.
Qed.

Lemma parseDigits_showN (n : N) : parseDigits (showN n) 0 = n.
Proof.
  unfold showN. rewrite parseDigits_uint.
  apply DecimalN.Unsigned.of_to.
Qed.

(** [parseInt] reads back the decimal representation of a natural
    number. *)
Lemma parseInt_showN (n : N) : parseInt (showN n) = Some (Z.of_N n).
Proof.
  rewrite parseInt_digits
    by (apply allDigits_showN || apply showN_nonempty).
  rewrite parseDigits_showN. reflexivity.
Qed.

Lemma showZ_nonneg (z : Z) : 0 <= z -> showZ z = showN (Z.to_N z).
Proof.
  intros H. unfold showZ.
  destruct (z <? 0) eqn:E; [apply Z.ltb_lt in E; lia|reflexivity].
Qed.

Lemma parseInt_showZ (z : Z) : 0 <= z -> parseInt (showZ z) = Some z.
Proof.
  intros H. rewrite showZ_nonneg by exact H. rewrite parseInt_showN.
  rewrite Z2N.id by exact H. reflexivity.
Qed.

Lemma allDigits_showZ (z : Z) : 0 <= z -> allDigits (showZ z) = true.
Proof. intros H. rewrite showZ_nonneg by exact H. apply allDigits_showN. Qed.

Lemma split_digits_sep (sep : ascii) (s rest : string) :
  allDigits s = true -> isDigit sep = false ->
  split sep (s ++ String sep rest) = s :: split sep rest.
Proof.
  intros Hall Hsep. induction s as [|c s IH]; cbn [append split].
  - rewrite Ascii.eqb_refl. reflexivity.
  - simpl in Hall. apply andb_prop in Hall as [Hc Hall].
    destruct (Ascii.eqb c sep) eqn:E.
    + apply Ascii.eqb_eq in E. congruence.
    + rewrite (IH Hall). reflexivity.
Qed.

Lemma split_digits (sep : ascii) (s : string) :
  allDigits s = true -> isDigit sep = false -> split sep s = [s].
Proof.
  intros Hall Hsep. induction s as [|c s IH]; cbn [split].
  - reflexivity.
  - simpl in Hall. apply andb_prop in Hall as [Hc Hall].
    destruct (Ascii.eqb c sep) eqn:E.
    + apply Ascii.eqb_eq in E. congruence.
    + rewrite (IH Hall). reflexivity.
Qed.

(** ** Period keys *)

Lemma isDigit_dash : isDigit "-" = false.
Proof. reflexivity. Qed.

Lemma split_key2 (a b : string) :
  allDigits a = true -> allDigits b = true ->
  split "-" (a ++ "-" ++ b) = [a; b].
Proof.
  intros Ha Hb. change ("-" ++ b)%string with (String "-" b).
  rewrite split_digits_sep by (assumption || reflexivity).
  rewrite split_digits by (assumption || reflexivity). reflexivity.
Qed.

Lemma split_keyQ (a b : string) :
  allDigits a = true -> allDigits b = true ->
  split "-" (a ++ "-Q" ++ b) = [a; String "Q" b].
Proof.
  intros Ha Hb. change ("-Q" ++ b)%string with (String "-" (String "Q" b)).
  rewrite split_digits_sep by (assumption || reflexivity).
  cbn [split]. change (Ascii.eqb "Q" "-") with false. cbv iota.
  rewrite split_digits by (assumption || reflexivity). reflexivity.
Qed.

Lemma currentYearOf_key2 (y n : Z) :
  0 <= y -> 0 <= n -> currentYearOf (showZ y ++ "-" ++ showZ n) = Some y.
Proof.
  intros Hy Hn. unfold currentYearOf.
  rewrite split_key2 by (apply allDigits_showZ; assumption).
  cbn [nthStr nth]. apply parseInt_showZ. exact Hy.
Qed.

Lemma currentSubPeriodOf_key2 (y n : Z) :
  0 <= y -> 0 <= n ->
  currentSubPeriodOf (showZ y ++ "-" ++ showZ n) = showZ n.
Proof.
  intros Hy Hn. unfold currentSubPeriodOf.
  rewrite split_key2 by (apply allDigits_showZ; assumption).
  reflexivity.
Qed.

Lemma currentYearOf_keyQ (y n : Z) :
  0 <= y -> 0 <= n -> currentYearOf (showZ y ++ "-Q" ++ showZ n) = Some y.
Proof.
  intros Hy Hn. unfold currentYearOf.
  rewrite split_keyQ by (apply allDigits_showZ; assumption).
  cbn [nthStr nth]. apply parseInt_showZ. exact Hy.
Qed.

Lemma currentSubPeriodOf_keyQ (y n : Z) :
  0 <= y -> 0 <= n ->
  currentSubPeriodOf (showZ y ++ "-Q" ++ showZ n) = String "Q" (showZ n).
Proof.
  intros Hy Hn. unfold currentSubPeriodOf.
  rewrite split_keyQ by (apply allDigits_showZ; assumption).
  reflexivity.
Qed.

Lemma prefix_Q (s : string) : String.prefix "Q" (String "Q" s) = true.
Proof. destruct s; reflexivity. Qed.

Section PeriodKeys.

Variable dateParse : string -> option Z.

Lemma previousPeriodKey_week (y n : Z) :
  0 <= y -> 0 <= n ->
  previousPeriodKey dateParse Week (weekKey y n) =
  if 1 <? n then weekKey y (n - 1)
  else weekKey (y - 1) (getLastISOWeekOfYear (y - 1)).
Proof.
  intros Hy Hn. unfold previousPeriodKey, weekKey. cbv zeta.
  rewrite currentYearOf_key2, currentSubPeriodOf_key2 by assumption.
  rewrite parseInt_showZ by assumption.
  cbn [numGt numSub lastWeekOfYear option_map showNum].
  destruct (1 <? n); reflexivity.
Qed.

Lemma previousPeriodKey_month (y n : Z) :
  0 <= y -> 0 <= n ->
  previousPeriodKey dateParse Month (monthKey y n) =
  if 1 <? n then monthKey y (n - 1) else monthKey (y - 1) 12.
Proof.
  intros Hy Hn. unfold previousPeriodKey, monthKey. cbv zeta.
  rewrite currentYearOf_key2, currentSubPeriodOf_key2 by assumption.
  rewrite parseInt_showZ by assumption.
  cbn [numGt numSub showNum].
  destruct (1 <? n); reflexivity.
Qed.

Lemma previousPeriodKey_quarter (y n : Z) :
  0 <= y -> 0 <= n ->
  previousPeriodKey dateParse Quarter (quarterKey y n) =
  if 1 <? n then quarterKey y (n - 1) else quarterKey (y - 1) 4.
Proof.
  intros Hy Hn. unfold previousPeriodKey, quarterKey. cbv zeta.
  rewrite currentYearOf_keyQ, currentSubPeriodOf_keyQ by assumption.
  rewrite prefix_Q. cbn [dropFirst].
  rewrite parseInt_showZ by assumption.
  cbn [numGt numSub showNum].
  destruct (1 <? n); reflexivity.
Qed.

Lemma previousPeriodKey_year (y : Z) :
  0 <= y ->
  previousPeriodKey dateParse Year (yearKey y) = yearKey (y - 1).
Proof.
  intros Hy. unfold previousPeriodKey, currentYearOf, yearKey.
  rewrite split_digits by (reflexivity || (apply allDigits_showZ; assumption)).
  cbn [nthStr nth]. rewrite parseInt_showZ by assumption. reflexivity.
Qed.

(** The predecessor key on the keys that [generateTrendData] formats.
    For a week key it is (year, week - 1) when week > 1 and (year - 1,
    [getLastISOWeekOfYear] of year - 1) when week = 1; for a month key
    (year, month - 1) or (year - 1, 12); for a quarter key
    (year, Q(n - 1)) or (year - 1, Q4); for a year key year - 1.  The
    key 2024-1 resolves to 2023-52 and 2024-Q1 to 2023-Q4.  (That
    [getLastISOWeekOfYear] is the number of ISO weeks of the year outside
    the two-digit years is lemma [getLastISOWeekOfYear_iso].) *)
Lemma previousPeriodKey_spec (y n : Z) :
  0 <= y -> 1 <= n ->
  previousPeriodKey dateParse Week (weekKey y n) =
    (if 1 <? n then weekKey y (n - 1)
     else weekKey (y - 1) (getLastISOWeekOfYear (y - 1))) /\
  previousPeriodKey dateParse Month (monthKey y n) =
    (if 1 <? n then monthKey y (n - 1) else monthKey (y - 1) 12) /\
  previousPeriodKey dateParse Quarter (quarterKey y n) =
    (if 1 <? n then quarterKey y (n - 1) else quarterKey (y - 1) 4) /\
  previousPeriodKey dateParse Year (yearKey y) = yearKey (y - 1) /\
  (101 <= y ->
   getLastISOWeekOfYear (y - 1) = 52 \/ getLastISOWeekOfYear (y - 1) = 53) /\
  previousPeriodKey dateParse Week "2024-1" = "2023-52"%string /\
  getLastISOWeekOfYear 2023 = 52 /\
  previousPeriodKey dateParse Quarter "2024-Q1" = "2023-Q4"%string.
Proof.
  intros Hy Hn.
  split; [apply previousPeriodKey_week; lia|].
  split; [apply previousPeriodKey_month; lia|].
  split; [apply previousPeriodKey_quarter; lia|].
  split; [apply previousPeriodKey_year; lia|].
  split; [intros H; apply getLastISOWeekOfYear_range; lia|].
  repeat split.
Qed.

End PeriodKeys.

Lemma previousPeriodKey_spec_witness :
  0 <= 2024 /\ 1 <= 1 /\
  previousPeriodKey isoDateParse Week (weekKey 2024 1) =
    weekKey 2023 (getLastISOWeekOfYear 2023) /\
  previousPeriodKey isoDateParse Quarter (quarterKey 2024 1) =
    quarterKey 2023 4.
Proof.
  split; [lia|]. split; [lia|].
  pose proof (previousPeriodKey_spec isoDateParse 2024 1
                ltac:(lia) ltac:(lia)) as (HW & _ & HQ & _).
  split; [exact HW|exact HQ].
Defined.

(** ** The last ISO week of a year *)

Lemma ceilDiv7_succ (x : Z) : ceilDiv (x + 1) 7 = x / 7 + 1.
Proof.
  pose proof (ceilDiv_spec (x + 1) 7 ltac:(lia)) as H.
  pose proof (Z.div_mod x 7 ltac:(lia)) as E.
  pose proof (Z.mod_pos_bound x 7 ltac:(lia)) as B.
  lia.
Qed.

Lemma isoThursday_spec (K : Z) :
  WeekDay (isoThursday K) = 4 /\ isoThursday K - 3 <= K <= isoThursday K + 3.
Proof.
  unfold isoThursday, WeekDay.
  pose proof (Z.div_mod (K + 4) 7 ltac:(lia)) as E.
  pose proof (Z.mod_pos_bound (K + 4) 7 ltac:(lia)) as B.
  destruct ((K + 4) mod 7 =? 0) eqn:E0;
    [apply Z.eqb_eq in E0 | apply Z.eqb_neq in E0];
    (split; [|lia]).
  - symmetry. apply Z.mod_unique with ((K + 4) / 7 - 1); lia.
  - symmetry. apply Z.mod_unique with ((K + 4) / 7); lia.
Qed.

Lemma isoThursday_unique (K T : Z) :
  WeekDay T = 4 -> T - 3 <= K <= T + 3 -> isoThursday K = T.
Proof.
  intros HT HK. destruct (isoThursday_spec K) as [H4 HB].
  unfold WeekDay in *.
  pose proof (Z.div_mod (T + 4) 7 ltac:(lia)) as E1.
  pose proof (Z.div_mod (isoThursday K + 4) 7 ltac:(lia)) as E2.
  lia.
Qed.

Lemma isoWeekOf_day (K : Z) :
  ~ (0 <= YearFromDay (isoThursday K) <= 99) ->
  isoWeekOf (MakeDate K 0)
  = mkIsoWeek (YearFromDay (isoThursday K))
      ((isoThursday K - DayFromYear (YearFromDay (isoThursday K))) / 7 + 1).
Proof.
  intros HY. unfold MakeDate. rewrite Z.add_0_r.
  rewrite (isoWeekOf_midnight K (YearFromDay (isoThursday K)));
    [|apply YearFromDay_spec | exact HY].
  fold (isoThursday K).
  replace (isoThursday K - DayFromYear (YearFromDay (isoThursday K)) + 1)
    with ((isoThursday K - DayFromYear (YearFromDay (isoThursday K))) + 1)
    by ring.
  rewrite ceilDiv7_succ. reflexivity.
Qed.

Lemma getLastISOWeekOfYear_eq (y T : Z) :
  ~ (0 <= y <= 99) -> ~ (0 <= y + 1 <= 99) ->
  WeekDay T = 4 -> DayFromYear (y + 1) - 7 <= T < DayFromYear (y + 1) ->
  getLastISOWeekOfYear y = (T - DayFromYear y) / 7 + 1.
Proof.
  intros Hy Hy1 HT HB. unfold getLastISOWeekOfYear. cbv zeta.
  rewrite newDate_dec31, (MakeFullYear_id y Hy).
  pose proof (DayFromYear_succ y) as Hs.
  pose proof (DaysInYear_bounds y) as Hb.
  pose proof (DayFromYear_succ (y + 1)) as Hs1.
  pose proof (DaysInYear_bounds (y + 1)) as Hb1.
  set (K := DayFromYear y + DaysInYear y - 1) in *.
  destruct (isoThursday_spec K) as [H4 HK].
  assert (E24 : newDate y 11 24 = MakeDate (K - 7) 0).
  { unfold newDate, MakeDate, MakeDay. rewrite (MakeFullYear_id y Hy).
    change (11 / 12) with 0. change (11 mod 12) with 11.
    rewrite !Z.add_0_r. cbn [daysBeforeMonth]. subst K.
    unfold DaysInYear. destruct (isLeap y); ring. }
  assert (EK : K * msPerDay = MakeDate K 0) by (unfold MakeDate; ring).
  rewrite EK, E24.
  destruct (Z.le_gt_cases (isoThursday K) K) as [Hin|Hout].
  - (* the Thursday of the week of 31 December is in the year *)
    assert (ET : isoThursday K = T).
    { apply isoThursday_unique; [exact HT|].
      unfold WeekDay in *.
      pose proof (Z.div_mod (T + 4) 7 ltac:(lia)) as E1.
      pose proof (Z.div_mod (isoThursday K + 4) 7 ltac:(lia)) as E2.
      lia. }
    assert (EY : YearFromDay (isoThursday K) = y)
      by (apply YearFromDay_unique; lia).
    rewrite isoWeekOf_day by (rewrite EY; exact Hy).
    rewrite EY. cbn [year week]. rewrite Z.ltb_irrefl, ET. reflexivity.
  - (* it is in the next year: the week of 24 December is taken *)
    assert (EY : YearFromDay (isoThursday K) = y + 1)
      by (apply YearFromDay_unique; lia).
    rewrite isoWeekOf_day by (rewrite EY; exact Hy1).
    rewrite EY. cbn [year].
    assert (Hlt : (y <? y + 1) = true) by (apply Z.ltb_lt; lia).
    rewrite Hlt.
    assert (ET : isoThursday (K - 7) = T).
    { apply isoThursday_unique; [exact HT|].
      unfold WeekDay in *.
      pose proof (Z.div_mod (T + 4) 7 ltac:(lia)) as E1.
      pose proof (Z.div_mod (isoThursday K + 4) 7 ltac:(lia)) as E2.
      lia. }
    assert (EY' : YearFromDay (isoThursday (K - 7)) = y)
      by (rewrite ET; apply YearFromDay_unique; lia).
    rewrite isoWeekOf_day by (rewrite EY'; exact Hy).
    rewrite EY', ET. reflexivity.
Qed.

(** Outside the two-digit years [getLastISOWeekOfYear] is the number of
    weeks of the year in the ISO 8601 calendar. *)
Lemma getLastISOWeekOfYear_iso (y : Z) :
  ~ (0 <= y <= 99) -> ~ (0 <= y + 1 <= 99) ->
  getLastISOWeekOfYear y = isoWeeksInYear y.
Proof.
  intros Hy Hy1.
  pose proof (DayFromYear_succ y) as Hs.
  destruct (isoThursday_spec (DayFromYear (y + 1) - 4)) as [H4 HB].
  set (T := isoThursday (DayFromYear (y + 1) - 4)) in *.
  rewrite (getLastISOWeekOfYear_eq y T Hy Hy1 H4) by lia.
  unfold isoWeeksInYear.
  unfold WeekDay in *.
  pose proof (Z.div_mod (T + 4) 7 ltac:(lia)) as E1.
  pose proof (Z.div_mod (DayFromYear y + 4) 7 ltac:(lia)) as E2.
  pose proof (Z.mod_pos_bound (DayFromYear y + 4) 7 ltac:(lia)) as B2.
  pose proof (Z.div_mod (T - DayFromYear y) 7 ltac:(lia)) as E3.
  pose proof (Z.mod_pos_bound (T - DayFromYear y) 7 ltac:(lia)) as B3.
  unfold DaysInYear in Hs.
  destruct (isLeap y); cbn [andb];
    destruct ((DayFromYear y + 4) mod 7 =? 4) eqn:A;
    destruct ((DayFromYear y + 4) mod 7 =? 3) eqn:B;
    rewrite ?Z.eqb_eq, ?Z.eqb_neq in *; cbn [orb]; lia.
Qed.

(** The predecessor of week 1 of a year from 101 on is the last week of
    the year before, numbered by its count of ISO weeks. *)
Lemma previousPeriodKey_week1_iso (dateParse : string -> option Z) (y : Z) :
  101 <= y ->
  previousPeriodKey dateParse Week (weekKey y 1)
  = weekKey (y - 1) (isoWeeksInYear (y - 1)).
Proof.
  intros Hy.
  rewrite (previousPeriodKey_week dateParse y 1) by lia.
  change (1 <? 1) with false. cbv iota.
  rewrite getLastISOWeekOfYear_iso by lia. reflexivity.
Qed.

(** C5, on the key of week 1 of the year 100.  A record dated 0100-01-04
    is accepted by [parseDate] and falls in the bucket 100-1.  The
    predecessor key of 100-1 is 99-51: for the year 99
    [getLastISOWeekOfYear] builds its dates with the constructor that
    reads 99 as 1999, finds 31 December in a later year than 99 and
    answers with the week 51 of 24 December, where the year 99 has 53 ISO
    weeks. *)
Theorem previousPeriodKey_week1_year_100 :
  parseDate isoDateParse "0100-01-04" GOOGLE_ADS = Some (civil 100 1 4 0) /\
  periodKeyOf Week (civil 100 1 4 0) = "100-1"%string /\
  previousPeriodKey isoDateParse Week "100-1" = "99-51"%string /\
  getLastISOWeekOfYear 99 = 51 /\
  isoWeeksInYear 99 = 53.
Proof. vm_compute. repeat split; reflexivity. Qed.

(** ** Sorting *)

Lemma insertBy_In {A : Type} (cmp : A -> A -> Z) (x y : A) (l : list A) :
  In y (insertBy cmp x l) <-> y = x \/ In y l.
Proof.
  induction l as [|z l IH]; cbn [insertBy].
  - simpl. intuition congruence.
  - destruct (cmp x z <=? 0); simpl in *; intuition congruence.
Qed.

Lemma sortBy_In {A : Type} (cmp : A -> A -> Z) (y : A) (l : list A) :
  In y (sortBy cmp l) <-> In y l.
Proof.
  unfold sortBy. induction l as [|x l IH]; cbn [fold_right].
  - reflexivity.
  - rewrite insertBy_In. simpl. intuition congruence.
Qed.

Lemma insertBy_length {A : Type} (cmp : A -> A -> Z) (x : A) (l : list A) :
  List.length (insertBy cmp x l) = S (List.length l).
Proof.
  induction l as [|z l IH]; cbn [insertBy]; [reflexivity|].
  destruct (cmp x z <=? 0); simpl; congruence.
Qed.

Lemma sortBy_length {A : Type} (cmp : A -> A -> Z) (l : list A) :
  List.length (sortBy cmp l) = List.length l.
Proof.
  unfold sortBy. induction l as [|x l IH]; cbn [fold_right]; [reflexivity|].
  rewrite insertBy_length. simpl. congruence.
Qed.

Lemma insertBy_StronglySorted {A : Type} (cmp : A -> A -> Z)
  (P : A -> Prop) (x : A) (l : list A) :
  (forall a b, P a -> P b -> cmp a b <= 0 \/ cmp b a <= 0) ->
  (forall a b c, P a -> P b -> P c ->
                 cmp a b <= 0 -> cmp b c <= 0 -> cmp a c <= 0) ->
  P x -> Forall P l ->
  StronglySorted (fun a b => cmp a b <= 0) l ->
  StronglySorted (fun a b => cmp a b <= 0) (insertBy cmp x l).
Proof.
  intros Htot Htr Px Pl Hs.
  induction l as [|y l IH]; cbn [insertBy].
  - repeat constructor.
  - inversion Pl as [|? ? Py Pl']; subst.
    inversion Hs as [|? ? Hs' Hy]; subst.
    destruct (cmp x y <=? 0) eqn:E.
    + apply Z.leb_le in E. constructor; [exact Hs|].
      constructor; [exact E|].
      rewrite Forall_forall in *. intros z Hz.
      apply (Htr x y z); auto.
    + apply Z.leb_gt in E. constructor; [apply IH; assumption|].
      rewrite Forall_forall in *. intros z Hz.
      apply insertBy_In in Hz as [-> | Hz]; [|auto].
      destruct (Htot x y Px Py); lia.
Qed.

Lemma sortBy_StronglySorted {A : Type} (cmp : A -> A -> Z)
  (P : A -> Prop) (l : list A) :
  (forall a b, P a -> P b -> cmp a b <= 0 \/ cmp b a <= 0) ->
  (forall a b c, P a -> P b -> P c ->
                 cmp a b <= 0 -> cmp b c <= 0 -> cmp a c <= 0) ->
  Forall P l ->
  StronglySorted (fun a b => cmp a b <= 0) (sortBy cmp l).
Proof.
  intros Htot Htr Pl. unfold sortBy.
  induction Pl as [|x l Px Pl IH]; cbn [fold_right]; [constructor|].
  apply (insertBy_StronglySorted cmp P); try assumption.
  rewrite Forall_forall in *. intros z Hz.
  apply (proj1 (sortBy_In cmp z l)) in Hz. auto.
Qed.

(** ** Period comparison *)

Lemma findPeriod_Some (key : string) (l : list TrendData) (f : TrendData) :
  findPeriod key l = Some f -> In f l /\ period f = key.
Proof.
  unfold findPeriod. intros H. apply find_some in H as [Hin He].
  split; [exact Hin|]. apply String.eqb_eq. exact He.
Qed.

Lemma findPeriod_None (key : string) (l : list TrendData) :
  findPeriod key l = None -> forall f, In f l -> period f <> key.
Proof.
  unfold findPeriod. intros H f Hin He.
  pose proof (find_none _ _ H f Hin) as Hf. cbv beta in Hf.
  apply String.eqb_eq in He. congruence.
Qed.

(** The week-1 fallback takes the record of the previous year whose week
    number is the highest. *)
Lemma lastWeekFallback_highest (p : string) (complete : list TrendData)
  (w : TrendData) (nw : Z) :
  In w complete -> inPreviousYear p w = true ->
  weekOfKey (period w) = Some nw ->
  (forall x, In x complete -> inPreviousYear p x = true ->
     x = w \/ exists nx, weekOfKey (period x) = Some nx /\ nx < nw) ->
  lastWeekFallback (currentYearOf p) complete = Some w.
Proof.
  intros Hin Hpre Hw Hmax. unfold lastWeekFallback. cbv zeta.
  fold (inPreviousYear p).
  set (l := filter (inPreviousYear p) complete).
  set (cmp := fun a b : TrendData =>
                cmpResult (numSub (weekOfKey (period b))
                             (weekOfKey (period a)))).
  assert (Hl : forall x, In x l ->
             x = w \/ exists nx, weekOfKey (period x) = Some nx /\ nx < nw).
  { intros x Hx. apply filter_In in Hx as [Hx Hp]. apply Hmax; assumption. }
  assert (Hwl : In w l) by (apply filter_In; split; assumption).
  assert (Hs : StronglySorted (fun a b => cmp a b <= 0) (sortBy cmp l)).
  { apply (sortBy_StronglySorted cmp
             (fun x => exists n, weekOfKey (period x) = Some n)).
    - intros a b (na & Ea) (nb & Eb). unfold cmp. rewrite Ea, Eb.
      cbn [numSub cmpResult]. lia.
    - intros a b c (na & Ea) (nb & Eb) (nc & Ec). unfold cmp.
      rewrite Ea, Eb, Ec. cbn [numSub cmpResult]. lia.
    - apply Forall_forall. intros x Hx.
      destruct (Hl x Hx) as [-> | (nx & Ex & _)]; eauto. }
  assert (Hws : In w (sortBy cmp l)) by (apply sortBy_In; exact Hwl).
  destruct (sortBy cmp l) as [|h t] eqn:E; [destruct Hws|].
  cbn [hd_error]. f_equal.
  assert (Hh : In h l) by (apply (sortBy_In cmp); rewrite E; left; reflexivity).
  destruct (Hl h Hh) as [-> | (nh & Eh & Hlt)]; [reflexivity|].
  destruct Hws as [-> | Hwt]; [reflexivity|]. exfalso.
  inversion Hs as [|? ? _ Hall]; subst.
  rewrite Forall_forall in Hall. specialize (Hall w Hwt).
  unfold cmp in Hall. rewrite Hw, Eh in Hall. cbn [numSub cmpResult] in Hall.
  lia.
Qed.

(** Without a week of the previous year the fallback finds nothing. *)
Lemma lastWeekFallback_None (p : string) (complete : list TrendData) :
  (forall x, In x complete -> inPreviousYear p x = false) ->
  lastWeekFallback (currentYearOf p) complete = None.
Proof.
  intros H. unfold lastWeekFallback. cbv zeta. fold (inPreviousYear p).
  assert (E : filter (inPreviousYear p) complete = []).
  { induction complete as [|x l IH]; [reflexivity|]. cbn [filter].
    rewrite (H x) by (left; reflexivity). apply IH.
    intros y Hy. apply H. right. exact Hy. }
  rewrite E. reflexivity.
Qed.

Section Comparison.

Variable dateParse : string -> option Z.

Lemma comparisonRowsFrom_In (tu : TimeUnit) (metric : MetricType)
  (sorted complete rest : list TrendData) (i : nat) (row : ComparisonRow) :
  In row (comparisonRowsFrom dateParse tu metric sorted complete i rest) <->
  exists k cur,
    nth_error rest k = Some cur /\
    row = comparisonRow dateParse tu metric sorted complete (i + k) cur.
Proof.
  revert i. induction rest as [|c rest IH]; intros i; cbn [comparisonRowsFrom].
  - split; [intros []|]. intros (k & cur & Hk & _). destruct k; discriminate.
  - cbn [In]. rewrite IH. split.
    + intros [E|(k & cur & Hk & E)].
      * exists 0%nat, c. rewrite Nat.add_0_r. split; [reflexivity|congruence].
      * exists (S k), cur. split; [exact Hk|].
        rewrite E. f_equal. lia.
    + intros (k & cur & Hk & E). destruct k as [|k].
      * left. cbn in Hk. inversion Hk; subst c.
        rewrite Nat.add_0_r in E. congruence.
      * right. exists k, cur. split; [exact Hk|].
        rewrite E. f_equal. lia.
Qed.

(** The rows of the table are the rows the loop builds for the periods of
    the sorted series. *)
Lemma generateComparisonTable_rows (tu : TimeUnit) (metric : MetricType)
  (filtered complete : list TrendData) (row : ComparisonRow) :
  (2 <= List.length filtered)%nat ->
  (In row (generateComparisonTable dateParse tu metric filtered complete) <->
   exists i cur,
     nth_error (sortedTrendDataOf tu filtered) i = Some cur /\
     row = comparisonRow dateParse tu metric
             (sortedTrendDataOf tu filtered) complete i cur).
Proof.
  intros Hlen. unfold generateComparisonTable.
  destruct (List.length filtered <? 2)%nat eqn:E;
    [apply Nat.ltb_lt in E; lia|].
  cbv zeta. rewrite sortBy_In, comparisonRowsFrom_In. reflexivity.
Qed.

Lemma previousPeriodKey_week1 (p : string) :
  numEq (parseInt (currentSubPeriodOf p)) (Some 1) = true ->
  previousPeriodKey dateParse Week p =
  (showNum (numSub (currentYearOf p) (Some 1)) ++ "-"
     ++ showNum (lastWeekOfYear (numSub (currentYearOf p) (Some 1))))%string.
Proof.
  intros H. unfold previousPeriodKey. cbv zeta.
  destruct (parseInt (currentSubPeriodOf p)) as [w|]; [|discriminate].
  cbn [numEq] in H. apply Z.eqb_eq in H. subst w. reflexivity.
Qed.

(** The remaining case of the lookup: when the predecessor key is in
    neither series and the fallback for week 1 does not apply, the bucket
    [adjacent] of the filtered series is kept although its key differs. *)
Lemma resolvePreviousPeriod_kept_adjacent (tu : TimeUnit)
  (sorted complete : list TrendData) (i : nat) (cur p : TrendData) :
  (if (0 <? i)%nat then nth_error sorted (i - 1) else None) = Some p ->
  period p <> previousPeriodKey dateParse tu (period cur) ->
  findPeriod (previousPeriodKey dateParse tu (period cur)) complete = None ->
  tu <> Week
  \/ numEq (parseInt (currentSubPeriodOf (period cur))) (Some 1) = false
  \/ lastWeekFallback (currentYearOf (period cur)) complete = None ->
  resolvePreviousPeriod dateParse tu sorted complete i cur = Some p.
Proof.
  intros Hadj Hne Hnone Hcase. unfold resolvePreviousPeriod. cbv zeta.
  rewrite Hadj. apply String.eqb_neq in Hne. rewrite Hne. cbn [negb].
  rewrite Hnone.
  destruct tu; try reflexivity.
  destruct (numEq (parseInt (currentSubPeriodOf (period cur))) (Some 1))
    eqn:E1; [|reflexivity].
  rewrite <- (previousPeriodKey_week1 _ E1), Hnone.
  destruct Hcase as [H|[H|H]]; [congruence|congruence|].
  rewrite H. reflexivity.
Qed.

(** The lookup resolves no record exactly when no bucket precedes the
    current one in the filtered series, the complete series has no record
    with the predecessor key and the fallback for week 1 finds nothing. *)
Lemma resolvePreviousPeriod_None_iff (tu : TimeUnit)
  (sorted complete : list TrendData) (i : nat) (cur : TrendData) :
  resolvePreviousPeriod dateParse tu sorted complete i cur = None <->
  (if (0 <? i)%nat then nth_error sorted (i - 1) else None) = None /\
  findPeriod (previousPeriodKey dateParse tu (period cur)) complete = None /\
  (tu = Week ->
   numEq (parseInt (currentSubPeriodOf (period cur))) (Some 1) = true ->
   lastWeekFallback (currentYearOf (period cur)) complete = None).
Proof.
  unfold resolvePreviousPeriod. cbv zeta.
  destruct (if (0 <? i)%nat then nth_error sorted (i - 1) else None)
    as [p|] eqn:Hadj.
  - split; [|intros [H _]; discriminate H].
    destruct (negb (String.eqb (period p)
                      (previousPeriodKey dateParse tu (period cur))));
      [|discriminate].
    destruct (findPeriod _ complete); [discriminate|].
    destruct tu; try discriminate.
    destruct (numEq _ _); [|discriminate].
    destruct (findPeriod _ complete); [discriminate|].
    destruct (lastWeekFallback _ complete); discriminate.
  - destruct (findPeriod (previousPeriodKey dateParse tu (period cur))
                complete) as [f|] eqn:Hf.
    + split; [discriminate|]. intros (_ & H & _). discriminate H.
    + destruct tu;
        try (split; [intros _; repeat split; intros; discriminate
                    |reflexivity]).
      destruct (numEq (parseInt (currentSubPeriodOf (period cur))) (Some 1))
        eqn:E1.
      * rewrite <- (previousPeriodKey_week1 _ E1), Hf.
        destruct (lastWeekFallback _ complete) as [w|].
        -- split; [discriminate|]. intros (_ & _ & H).
           specialize (H eq_refl eq_refl). discriminate H.
        -- split; [|reflexivity]. intros _. repeat split.
      * split; [|reflexivity]. intros _. repeat split.
        intros _ H. discriminate H.
Qed.

(** The three tiers of the lookup of the previous period. *)
Lemma resolvePreviousPeriod_adjacent (tu : TimeUnit)
  (sorted complete : list TrendData) (i : nat) (cur p : TrendData) :
  (if (0 <? i)%nat then nth_error sorted (i - 1) else None) = Some p ->
  period p = previousPeriodKey dateParse tu (period cur) ->
  resolvePreviousPeriod dateParse tu sorted complete i cur = Some p.
Proof.
  intros Hadj Hk. unfold resolvePreviousPeriod. cbv zeta.
  rewrite Hadj. apply String.eqb_eq in Hk. rewrite Hk. reflexivity.
Qed.

Lemma resolvePreviousPeriod_complete (tu : TimeUnit)
  (sorted complete : list TrendData) (i : nat) (cur f : TrendData) :
  (forall p, (if (0 <? i)%nat then nth_error sorted (i - 1) else None)
             = Some p ->
             period p <> previousPeriodKey dateParse tu (period cur)) ->
  findPeriod (previousPeriodKey dateParse tu (period cur)) complete = Some f ->
  resolvePreviousPeriod dateParse tu sorted complete i cur = Some f.
Proof.
  intros Hadj Hf. unfold resolvePreviousPeriod. cbv zeta.
  destruct (if (0 <? i)%nat then nth_error sorted (i - 1) else None) as [p|].
  - specialize (Hadj p eq_refl). apply String.eqb_neq in Hadj.
    rewrite Hadj. cbn [negb]. rewrite Hf. reflexivity.
  - rewrite Hf. reflexivity.
Qed.

Lemma resolvePreviousPeriod_fallback (tu : TimeUnit)
  (sorted complete : list TrendData) (i : nat) (cur w : TrendData) :
  (forall p, (if (0 <? i)%nat then nth_error sorted (i - 1) else None)
             = Some p ->
             period p <> previousPeriodKey dateParse tu (period cur)) ->
  findPeriod (previousPeriodKey dateParse tu (period cur)) complete = None ->
  tu = Week -> parseInt (currentSubPeriodOf (period cur)) = Some 1 ->
  lastWeekFallback (currentYearOf (period cur)) complete = Some w ->
  resolvePreviousPeriod dateParse tu sorted complete i cur = Some w.
Proof.
  intros Hadj Hnone Htu Hw1 Hfb. subst tu.
  assert (E1 : numEq (parseInt (currentSubPeriodOf (period cur))) (Some 1)
               = true) by (rewrite Hw1; reflexivity).
  pose proof (previousPeriodKey_week1 _ E1) as Hkey.
  unfold resolvePreviousPeriod. cbv zeta.
  rewrite E1, <- Hkey, Hnone, Hfb.
  destruct (if (0 <? i)%nat then nth_error sorted (i - 1) else None) as [p|];
    [|reflexivity].
  specialize (Hadj p eq_refl). apply String.eqb_neq in Hadj.
  rewrite Hadj. reflexivity.
Qed.

(** The year-over-year lookup resolves no record exactly when neither
    series has a record with the year-over-year key. *)
Lemma resolvePreviousYearPeriod_None_iff (tu : TimeUnit)
  (sorted complete : list TrendData) (cur : TrendData) :
  resolvePreviousYearPeriod dateParse tu sorted complete cur = None <->
  (forall k, previousYearPeriodKey dateParse tu (period cur) = Some k ->
     findPeriod k sorted = None /\ findPeriod k complete = None).
Proof.
  unfold resolvePreviousYearPeriod.
  destruct (previousYearPeriodKey dateParse tu (period cur)) as [k|].
  - destruct (findPeriod k sorted) as [f|] eqn:Ef.
    + split; [discriminate|]. intros H. destruct (H k eq_refl). congruence.
    + destruct complete as [|c l].
      * cbn. split; [|reflexivity]. intros _ k' E. inversion E; subst k'.
        split; [exact Ef|reflexivity].
      * cbn [List.length Nat.ltb Nat.leb]. split.
        -- intros H k' E. inversion E; subst k'. split; assumption.
        -- intros H. apply (H k eq_refl).
  - split; [|reflexivity]. intros _ k E. discriminate E.
Qed.

Lemma resolvePreviousYearPeriod_sorted (tu : TimeUnit)
  (sorted complete : list TrendData) (cur f : TrendData) (k : string) :
  previousYearPeriodKey dateParse tu (period cur) = Some k ->
  findPeriod k sorted = Some f ->
  resolvePreviousYearPeriod dateParse tu sorted complete cur = Some f.
Proof.
  intros Hk Hf. unfold resolvePreviousYearPeriod. rewrite Hk, Hf. reflexivity.
Qed.

Lemma resolvePreviousYearPeriod_complete (tu : TimeUnit)
  (sorted complete : list TrendData) (cur f : TrendData) (k : string) :
  previousYearPeriodKey dateParse tu (period cur) = Some k ->
  findPeriod k sorted = None -> findPeriod k complete = Some f ->
  resolvePreviousYearPeriod dateParse tu sorted complete cur = Some f.
Proof.
  intros Hk Hs Hf. unfold resolvePreviousYearPeriod. rewrite Hk, Hs.
  destruct complete as [|c l]; [discriminate Hf|]. exact Hf.
Qed.

(** C1, as the code has it.  Let [key] be the predecessor key of the
    current bucket and [adjacent] the bucket just before it in the sorted
    date-filtered series.  The previous-period value of the row is the
    value of [adjacent] when [adjacent] has the key [key]; otherwise it is
    the value of the first record of the complete series whose key is
    [key], when there is one; otherwise, for week granularity and current
    week 1, it is the value of the week of the previous year with the
    highest number in the complete series, a record whose key differs
    from [key]. *)
Theorem previous_period_lookup (tu : TimeUnit) (metric : MetricType)
  (filtered complete : list TrendData) (i : nat) (cur : TrendData) :
  (2 <= List.length filtered)%nat ->
  nth_error (sortedTrendDataOf tu filtered) i = Some cur ->
  let sorted := sortedTrendDataOf tu filtered in
  let key := previousPeriodKey dateParse tu (period cur) in
  let adjacent := if (0 <? i)%nat then nth_error sorted (i - 1) else None in
  let row := comparisonRow dateParse tu metric sorted complete i cur in
  In row (generateComparisonTable dateParse tu metric filtered complete) /\
  (forall p, adjacent = Some p -> period p = key ->
     previous row = Some (orZero (metricOf metric p))) /\
  (forall f, (forall p, adjacent = Some p -> period p <> key) ->
     findPeriod key complete = Some f ->
     period f = key /\ previous row = Some (orZero (metricOf metric f))) /\
  (forall w nw, (forall p, adjacent = Some p -> period p <> key) ->
     findPeriod key complete = None ->
     tu = Week -> parseInt (currentSubPeriodOf (period cur)) = Some 1 ->
     In w complete -> inPreviousYear (period cur) w = true ->
     weekOfKey (period w) = Some nw ->
     (forall x, In x complete -> inPreviousYear (period cur) x = true ->
        x = w \/ exists nx, weekOfKey (period x) = Some nx /\ nx < nw) ->
     period w <> key /\ previous row = Some (orZero (metricOf metric w))).
Proof.
  intros Hlen Hi sorted key adjacent row.
  split.
  { apply generateComparisonTable_rows; [exact Hlen|].
    exists i, cur. split; [exact Hi|reflexivity]. }
  subst row. unfold comparisonRow. cbn [previous].
  split; [|split].
  - intros p Hp Hk.
    rewrite (resolvePreviousPeriod_adjacent tu sorted complete i cur p Hp Hk).
    reflexivity.
  - intros f Hadj Hf.
    split; [apply (findPeriod_Some _ _ _ Hf)|].
    rewrite (resolvePreviousPeriod_complete tu sorted complete i cur f Hadj Hf).
    reflexivity.
  - intros w nw Hadj Hnone Htu Hw1 Hin Hpre Hw Hmax.
    split; [apply (findPeriod_None _ _ Hnone w Hin)|].
    rewrite (resolvePreviousPeriod_fallback tu sorted complete i cur w
               Hadj Hnone Htu Hw1
               (lastWeekFallback_highest _ _ w nw Hin Hpre Hw Hmax)).
    reflexivity.
Qed.

(** C8, as the code has it.  Every row of the table belongs to a bucket
    [cur] of the sorted date-filtered series.  Its change is computed
    from its previous-period value [p]: it is 0 when [p] is 0,
    (current - p) / p * 100 otherwise, and null exactly when the row has
    no previous-period value; the same holds of the year-over-year change
    and the previous-year value.  The row has a previous-period value,
    and so a change, when the adjacent bucket has the predecessor key,
    when the complete series has a record with that key, and, for week
    granularity and week 1, when the complete series has a week of the
    previous year, whose highest week then gives the value.  It has none
    when the bucket is the first of the series and these lookups find
    nothing.  The year-over-year change is null exactly when neither
    series has a record with the year-over-year key. *)
Theorem comparisonRow_change (tu : TimeUnit) (metric : MetricType)
  (filtered complete : list TrendData) (row : ComparisonRow) :
  In row (generateComparisonTable dateParse tu metric filtered complete) ->
  let sorted := sortedTrendDataOf tu filtered in
  let pct := fun p : Q =>
    if Qeq_bool p 0 then 0%Q else (((current row - p) / p) * 100)%Q in
  change row = option_map pct (previous row) /\
  yearOverYearChange row = option_map pct (previousYear row) /\
  exists i cur,
    let key := previousPeriodKey dateParse tu (period cur) in
    let adjacent := if (0 <? i)%nat then nth_error sorted (i - 1) else None in
    nth_error sorted i = Some cur /\
    rowPeriod row = period cur /\
    current row = orZero (metricOf metric cur) /\
    (forall p, adjacent = Some p -> period p = key ->
       change row = Some (pct (orZero (metricOf metric p)))) /\
    (forall f, (forall p, adjacent = Some p -> period p <> key) ->
       findPeriod key complete = Some f ->
       change row = Some (pct (orZero (metricOf metric f)))) /\
    (forall w nw, (forall p, adjacent = Some p -> period p <> key) ->
       findPeriod key complete = None ->
       tu = Week -> parseInt (currentSubPeriodOf (period cur)) = Some 1 ->
       In w complete -> inPreviousYear (period cur) w = true ->
       weekOfKey (period w) = Some nw ->
       (forall x, In x complete -> inPreviousYear (period cur) x = true ->
          x = w \/ exists nx, weekOfKey (period x) = Some nx /\ nx < nw) ->
       change row = Some (pct (orZero (metricOf metric w)))) /\
    (adjacent = None -> findPeriod key complete = None ->
     (tu = Week -> parseInt (currentSubPeriodOf (period cur)) = Some 1 ->
      forall x, In x complete -> inPreviousYear (period cur) x = false) ->
     previous row = None /\ change row = None) /\
    (forall k f, previousYearPeriodKey dateParse tu (period cur) = Some k ->
       findPeriod k sorted = Some f ->
       yearOverYearChange row = Some (pct (orZero (metricOf metric f)))) /\
    (forall k f, previousYearPeriodKey dateParse tu (period cur) = Some k ->
       findPeriod k sorted = None -> findPeriod k complete = Some f ->
       yearOverYearChange row = Some (pct (orZero (metricOf metric f)))) /\
    (yearOverYearChange row = None <->
     forall k, previousYearPeriodKey dateParse tu (period cur) = Some k ->
       findPeriod k sorted = None /\ findPeriod k complete = None).
Proof.
  intros Hin sorted pct.
  assert (Hlen : (2 <= List.length filtered)%nat).
  { unfold generateComparisonTable in Hin.
    destruct (List.length filtered <? 2)%nat eqn:E; [destruct Hin|].
    apply Nat.ltb_ge in E. exact E. }
  apply (generateComparisonTable_rows tu metric filtered complete row Hlen)
    in Hin as (i & cur & Hi & ->).
  fold sorted in Hi |- *.
  assert (Hform : forall o : option TrendData,
            option_map (fun p => calculateChange
                                   (orZero (metricOf metric cur))
                                   (orZero (metricOf metric p))) o
            = option_map
                (fun p : Q =>
                   if Qeq_bool p 0 then 0%Q
                   else (((orZero (metricOf metric cur) - p) / p) * 100)%Q)
                (option_map (fun p => orZero (metricOf metric p)) o)).
  { intros [p|]; reflexivity. }
  subst pct. unfold comparisonRow.
  cbn [previous change previousYear yearOverYearChange current rowPeriod].
  split; [apply Hform|]. split; [apply Hform|].
  exists i, cur. cbv zeta.
  split; [exact Hi|]. split; [reflexivity|]. split; [reflexivity|].
  split; [|split; [|split; [|split; [|split; [|split]]]]].
  - intros p Hp Hk.
    rewrite (resolvePreviousPeriod_adjacent tu sorted complete i cur p Hp Hk).
    reflexivity.
  - intros f Hadj Hf.
    rewrite (resolvePreviousPeriod_complete tu sorted complete i cur f Hadj Hf).
    reflexivity.
  - intros w nw Hadj Hnone Htu Hw1 Hw Hpre Hn Hmax.
    rewrite (resolvePreviousPeriod_fallback tu sorted complete i cur w
               Hadj Hnone Htu Hw1
               (lastWeekFallback_highest _ _ w nw Hw Hpre Hn Hmax)).
    reflexivity.
  - intros Hadj Hnone Hfb.
    assert (E : resolvePreviousPeriod dateParse tu sorted complete i cur
                = None).
    { apply resolvePreviousPeriod_None_iff.
      split; [exact Hadj|]. split; [exact Hnone|].
      intros Htu Hw1. apply lastWeekFallback_None.
      apply Hfb; [exact Htu|].
      destruct (parseInt (currentSubPeriodOf (period cur))) as [n|];
        [|discriminate Hw1].
      cbn [numEq] in Hw1. apply Z.eqb_eq in Hw1. congruence. }
    rewrite E. split; reflexivity.
  - intros k f Hk Hf.
    rewrite (resolvePreviousYearPeriod_sorted tu sorted complete cur f k Hk Hf).
    reflexivity.
  - intros k f Hk Hs Hf.
    rewrite (resolvePreviousYearPeriod_complete tu sorted complete cur f k
               Hk Hs Hf).
    reflexivity.
  - rewrite <- resolvePreviousYearPeriod_None_iff.
    destruct (resolvePreviousYearPeriod dateParse tu sorted complete cur);
      cbn [option_map]; split; intros H; try reflexivity; discriminate H.
Qed.

End Comparison.

Lemma previous_period_lookup_witness :
  (2 <= List.length weekSeriesFiltered)%nat /\
  nth_error (sortedTrendDataOf Week weekSeriesFiltered) 0
    = Some (trendPoint "2024-1" 50) /\
  findPeriod (previousPeriodKey isoDateParse Week "2024-1") weekSeriesTwo
    = None /\
  previous (comparisonRow isoDateParse Week Mrevenue
              (sortedTrendDataOf Week weekSeriesFiltered) weekSeriesTwo 0
              (trendPoint "2024-1" 50))
    = Some (orZero (metricOf Mrevenue (trendPoint "2023-50" 40))).
Proof.
  assert (H1 : (2 <= List.length weekSeriesFiltered)%nat) by (simpl; lia).
  assert (H2 : nth_error (sortedTrendDataOf Week weekSeriesFiltered) 0
               = Some (trendPoint "2024-1" 50)) by reflexivity.
  assert (H3 : findPeriod (previousPeriodKey isoDateParse Week "2024-1")
                 weekSeriesTwo = None) by (vm_compute; reflexivity).
  split; [exact H1|]. split; [exact H2|]. split; [exact H3|].
  pose proof (previous_period_lookup isoDateParse Week Mrevenue
                weekSeriesFiltered weekSeriesTwo 0 (trendPoint "2024-1" 50)
                H1 H2) as (_ & _ & _ & Hfallback).
  refine (proj2 (Hfallback (trendPoint "2023-50" 40) 50 _ H3 eq_refl _ _ _ _ _)).
  - intros p Hp. discriminate Hp.
  - vm_compute. reflexivity.
  - right. left. reflexivity.
  - vm_compute. reflexivity.
  - vm_compute. reflexivity.
  - intros x [<-|[<-|[<-|[<-|[]]]]] Hpre.
    + right. exists 10. split; [vm_compute; reflexivity|lia].
    + left. reflexivity.
    + vm_compute in Hpre. discriminate Hpre.
    + vm_compute in Hpre. discriminate Hpre.
Defined.

(** C1, counterexample: the predecessor key of 2024-1 is 2023-52, the
    complete series has no bucket with that key, and the previous-period
    value of 2024-1 is the value 40 of the bucket 2023-50, a bucket whose
    key differs from the predecessor key. *)
Lemma previous_period_week_fallback :
  previousPeriodKey isoDateParse Week "2024-1" = "2023-52"%string /\
  findPeriod "2023-52" weekSeriesComplete = None /\
  map (fun r => (rowPeriod r, previous r))
    (generateComparisonTable isoDateParse Week Mrevenue
       weekSeriesFiltered weekSeriesComplete)
  = [ ("2024-2"%string, Some 50%Q); ("2024-1"%string, Some 40%Q) ].
Proof. vm_compute. repeat split; reflexivity. Qed.

(** The case that the three tiers leave open, on an example: in the
    series January 2024, March 2024 the predecessor key of March is
    2024-2, no bucket has that key, and the row of March keeps the value
    100 of the adjacent bucket January. *)
Lemma previous_period_from_other_bucket :
  previousPeriodKey isoDateParse Month "2024-3" = "2024-2"%string /\
  findPeriod "2024-2" gapSeries = None /\
  map (fun r => (rowPeriod r, previous r))
    (generateComparisonTable isoDateParse Month Mrevenue gapSeries gapSeries)
  = [ ("2024-3"%string, Some 100%Q); ("2024-1"%string, None) ].
Proof. vm_compute. repeat split; reflexivity. Qed.

Lemma comparisonRow_change_witness :
  In (comparisonRow isoDateParse Month Mrevenue
        (sortedTrendDataOf Month monthSeries) monthSeries 2
        (trendPoint "2024-3" 120))
    (generateComparisonTable isoDateParse Month Mrevenue
       monthSeries monthSeries) /\
  previous (comparisonRow isoDateParse Month Mrevenue
              (sortedTrendDataOf Month monthSeries) monthSeries 2
              (trendPoint "2024-3" 120)) = Some 0%Q /\
  change (comparisonRow isoDateParse Month Mrevenue
            (sortedTrendDataOf Month monthSeries) monthSeries 2
            (trendPoint "2024-3" 120)) = Some 0%Q.
Proof.
  assert (Hin : In (comparisonRow isoDateParse Month Mrevenue
                      (sortedTrendDataOf Month monthSeries) monthSeries 2
                      (trendPoint "2024-3" 120))
                  (generateComparisonTable isoDateParse Month Mrevenue
                     monthSeries monthSeries))
    by (vm_compute; left; reflexivity).
  assert (Hp : previous (comparisonRow isoDateParse Month Mrevenue
                 (sortedTrendDataOf Month monthSeries) monthSeries 2
                 (trendPoint "2024-3" 120)) = Some 0%Q) by reflexivity.
  split; [exact Hin|]. split; [exact Hp|].
  pose proof (comparisonRow_change isoDateParse Month Mrevenue
                monthSeries monthSeries _ Hin) as (Hc & _).
  rewrite Hc, Hp. reflexivity.
Defined.

(** C8, counterexample: in the weekly series the predecessor key of
    2024-1 is 2023-52 and neither the date-filtered nor the complete
    series has a record with that key, yet the change of the row 2024-1
    is not null: it is 25, computed against the bucket 2023-50. *)
Lemma change_without_predecessor_record :
  previousPeriodKey isoDateParse Week "2024-1" = "2023-52"%string /\
  findPeriod "2023-52" weekSeriesFiltered = None /\
  findPeriod "2023-52" weekSeriesComplete = None /\
  map (fun r => (rowPeriod r, option_map Qred (change r)))
    (generateComparisonTable isoDateParse Week Mrevenue
       weekSeriesFiltered weekSeriesComplete)
  = [ ("2024-2"%string, Some 20%Q); ("2024-1"%string, Some 25%Q) ].
Proof. vm_compute. repeat split; reflexivity. Qed.

(** ** Metrics *)

Lemma ratioOrZero_isRate (n d : Q) : isRate n d (ratioOrZero n d).
Proof.
  unfold isRate, ratioOrZero, Qgtb. split; intros H.
  - destruct (Qle_bool d 0) eqn:E; [|reflexivity].
    apply Qle_bool_iff in E. exfalso. apply (Qlt_not_le _ _ H E).
  - destruct (Qle_bool d 0) eqn:E; [reflexivity|].
    assert (Hle : (d <= 0)%Q) by (rewrite H; apply Qle_refl).
    apply Qle_bool_iff in Hle. congruence.
Qed.

Section Metrics.

Variable parseFloat : string -> option Q.
Variable numToString : Q -> string.

(** C7: the derived metrics of every record.  Each rate is its numerator
    divided by its denominator when the denominator is positive and 0
    when the denominator is 0; the profit is revenue - cost.  ([Profit]
    and [CLV] are stored as the strings of their values.) *)
Theorem calculateMetrics_spec (data : list AdData) :
  Forall2 (fun row out =>
    let impressions := parseNumericValue parseFloat (Impr row) in
    let clicks := parseNumericValue parseFloat (Clicks row) in
    let cost := parseNumericValue parseFloat (Cost row) in
    let conversions := parseNumericValue parseFloat (Conversions row) in
    let revenue := parseNumericValue parseFloat (Revenue row) in
    (exists ctr, CTR out = Some ctr /\ isRate clicks impressions ctr) /\
    (exists cpc, CPC out = Some cpc /\ isRate cost clicks cpc) /\
    (exists cpa, CPA out = Some cpa /\ isRate cost conversions cpa) /\
    (exists convRate,
        Conv_rate out = Some convRate /\ isRate conversions clicks convRate) /\
    (exists roas, ROAS out = Some roas /\ isRate revenue cost roas) /\
    (exists clv,
        CLV out = numToString clv /\ isRate revenue conversions clv) /\
    Profit out = numToString (revenue - cost)%Q /\
    Impr out = Impr row /\ Clicks out = Clicks row /\ Cost out = Cost row /\
    Conversions out = Conversions row /\ Revenue out = Revenue row)
    data (calculateMetrics parseFloat numToString data).
Proof.
  unfold calculateMetrics.
  induction data as [|row data IH]; cbn [map]; constructor; [|exact IH].
  cbv zeta. unfold calculateMetricsRow.
  cbn [CTR CPC CPA Conv_rate ROAS CLV Profit Impr Clicks Cost Conversions
       Revenue].
  repeat split;
    try (eexists; split; [reflexivity|apply ratioOrZero_isRate]).
Qed.

Lemma counterSum_cons (field : AdData -> string) (row : AdData)
  (data : list AdData) :
  counterSum parseFloat field (row :: data) =
  (parseNumericValue parseFloat (field row)
   + counterSum parseFloat field data)%Q.
Proof. reflexivity. Qed.

(** The reducer adds the counters of the rows to the accumulator. *)
Lemma kpiStep_fold (data : list AdData) (acc : KpiSummary) :
  let s := fold_left (kpiStep parseFloat) data acc in
  (impressions s == impressions acc + counterSum parseFloat Impr data)%Q /\
  (clicks s == clicks acc + counterSum parseFloat Clicks data)%Q /\
  (cost s == cost acc + counterSum parseFloat Cost data)%Q /\
  (conversions s
   == conversions acc + counterSum parseFloat Conversions data)%Q /\
  (revenue s == revenue acc + counterSum parseFloat Revenue data)%Q.
Proof.
  revert acc. induction data as [|row data IH]; intros acc; cbv zeta.
  - cbn [fold_left]. unfold counterSum. cbn [map Qsum fold_right].
    repeat split; ring.
  - cbn [fold_left].
    destruct (IH (kpiStep parseFloat acc row)) as (H1 & H2 & H3 & H4 & H5).
    rewrite H1, H2, H3, H4, H5, !counterSum_cons.
    cbn [kpiStep impressions clicks cost conversions revenue].
    repeat split; ring.
Qed.

(** The KPI summary of a list of records: the five counters are the sums
    over the records and each rate is computed from the summed numerator
    and the summed denominator. *)
Lemma calculateKpiSummary_sums_rates (data : list AdData) :
  let s := calculateKpiSummary parseFloat data in
  (impressions s == counterSum parseFloat Impr data)%Q /\
  (clicks s == counterSum parseFloat Clicks data)%Q /\
  (cost s == counterSum parseFloat Cost data)%Q /\
  (conversions s == counterSum parseFloat Conversions data)%Q /\
  (revenue s == counterSum parseFloat Revenue data)%Q /\
  isRate (clicks s) (impressions s) (ctr s) /\
  isRate (cost s) (clicks s) (cpc s) /\
  isRate (cost s) (conversions s) (cpa s) /\
  isRate (conversions s) (clicks s) (convRate s) /\
  isRate (revenue s) (cost s) (roas s) /\
  isRate (revenue s) (conversions s) (clv s).
Proof.
  intros s. subst s. unfold calculateKpiSummary. cbv zeta.
  cbn [impressions clicks cost conversions revenue ctr cpc cpa convRate
       roas clv].
  destruct (kpiStep_fold data initialSummary) as (H1 & H2 & H3 & H4 & H5).
  cbv zeta in H1, H2, H3, H4, H5.
  cbn [initialSummary impressions clicks cost conversions revenue]
    in H1, H2, H3, H4, H5.
  rewrite Qplus_0_l in H1, H2, H3, H4, H5.
  split; [exact H1|]. split; [exact H2|]. split; [exact H3|].
  split; [exact H4|]. split; [exact H5|].
  repeat split; apply ratioOrZero_isRate.
Qed.

End Metrics.

(** C6: for every list of records the KPI summary holds the sums of the
    five raw counters, and each aggregate rate is the summed numerator
    divided by the summed denominator, 0 when the summed denominator is
    0.  It is not the average of the rates of the records: for the two
    records of the March scenario the summary ROAS is 1 and the mean of
    the two ROAS values is 3/4. *)
Theorem calculateKpiSummary_spec :
  (forall (parseFloat : string -> option Q) (data : list AdData),
     let s := calculateKpiSummary parseFloat data in
     (impressions s == counterSum parseFloat Impr data)%Q /\
     (clicks s == counterSum parseFloat Clicks data)%Q /\
     (cost s == counterSum parseFloat Cost data)%Q /\
     (conversions s == counterSum parseFloat Conversions data)%Q /\
     (revenue s == counterSum parseFloat Revenue data)%Q /\
     isRate (clicks s) (impressions s) (ctr s) /\
     isRate (cost s) (clicks s) (cpc s) /\
     isRate (cost s) (conversions s) (cpa s) /\
     isRate (conversions s) (clicks s) (convRate s) /\
     isRate (revenue s) (cost s) (roas s) /\
     isRate (revenue s) (conversions s) (clv s)) /\
  (exists r1 r2 : Q,
     map ROAS (calculateMetrics integerParseFloat integerToString marchRecords)
       = [Some r1; Some r2] /\
     (roas (calculateKpiSummary integerParseFloat marchRecords) == 1)%Q /\
     ((r1 + r2) / 2 == 3 # 4)%Q /\
     ~ (roas (calculateKpiSummary integerParseFloat marchRecords)
        == (r1 + r2) / 2)%Q).
Proof.
  split.
  - intros parseFloat data. apply calculateKpiSummary_sums_rates.
  - eexists. eexists. split; [vm_compute; reflexivity|].
    split; [vm_compute; reflexivity|].
    split; [vm_compute; reflexivity|].
    vm_compute. discriminate.
Qed.

Lemma calculateKpiSummary_spec_witness :
  (0 < cost (calculateKpiSummary integerParseFloat marchRecords))%Q /\
  roas (calculateKpiSummary integerParseFloat marchRecords)
  = (revenue (calculateKpiSummary integerParseFloat marchRecords)
     / cost (calculateKpiSummary integerParseFloat marchRecords))%Q.
Proof.
  assert (H : (0 < cost (calculateKpiSummary integerParseFloat
                          marchRecords))%Q) by (vm_compute; reflexivity).
  split; [exact H|].
  destruct calculateKpiSummary_spec as [Hgen _].
  destruct (Hgen integerParseFloat marchRecords)
    as (_ & _ & _ & _ & _ & _ & _ & _ & _ & [Hroas _] & _).
  exact (Hroas H).
Defined.

(** The end-to-end scenario of the specification: the summary of the two
    March records. *)
Lemma march_summary :
  let s := calculateKpiSummary integerParseFloat marchRecords in
  (cost s == 150)%Q /\ (revenue s == 150)%Q /\ (roas s == 1)%Q /\
  (cpa s == 30)%Q /\ (convRate s == 1 # 6)%Q /\ (ctr s == 1 # 10)%Q.
Proof. vm_compute. repeat split; reflexivity. Qed.

Lemma calculateMetrics_spec_witness :
  map CTR (calculateMetrics integerParseFloat integerToString marchRecords)
  = [Some (20 / 200)%Q; Some (10 / 100)%Q] /\
  map CPA (calculateMetrics integerParseFloat integerToString marchRecords)
  = [Some (100 / 5)%Q; Some 0%Q].
Proof.
  pose proof (calculateMetrics_spec integerParseFloat integerToString
                marchRecords) as H.
  unfold calculateMetrics, marchRecords in *. cbn [map] in *.
  apply Forall2_cons_iff in H as [H1 H].
  apply Forall2_cons_iff in H as [H2 _].
  cbv zeta in H1, H2.
  destruct H1 as ((c1 & Ec1 & [Hc1 _]) & _ & (a1 & Ea1 & [Ha1 _]) & _).
  destruct H2 as ((c2 & Ec2 & [Hc2 _]) & _ & (a2 & Ea2 & [_ Ha2]) & _).
  cbn [map]. rewrite Ec1, Ec2, Ea1, Ea2.
  rewrite (Hc1 ltac:(vm_compute; reflexivity)).
  rewrite (Hc2 ltac:(vm_compute; reflexivity)).
  rewrite (Ha1 ltac:(vm_compute; reflexivity)).
  rewrite (Ha2 ltac:(vm_compute; reflexivity)).
  split; reflexivity.
Defined.

(** ** Date range filter *)

Lemma trimEnd_digits (s : string) : allDigits s = true -> trimEnd s = s.
Proof.
  induction s as [|c s IH]; intros H; [reflexivity|].
  simpl in H. apply andb_prop in H as [Hc Hs].
  cbn [trimEnd]. rewrite (IH Hs).
  destruct s; [|reflexivity].
  destruct (isDigit_facts c Hc) as (Ew & _). rewrite Ew. reflexivity.
Qed.

Lemma trim_digits (s : string) : allDigits s = true -> trim s = s.
Proof.
  intros H. unfold trim.
  assert (Hs : trimStart s = s).
  { destruct s as [|c s]; [reflexivity|].
    simpl in H. apply andb_prop in H as [Hc _].
    destruct (isDigit_facts c Hc) as (Ew & _).
    cbn [trimStart]. rewrite Ew. reflexivity. }
  rewrite Hs. apply trimEnd_digits. exact H.
Qed.

Lemma jsNumber_digits (s : string) :
  allDigits s = true -> s <> EmptyString ->
  jsNumber s = Some (Z.of_N (parseDigits s 0)).
Proof.
  intros Hall Hne. unfold jsNumber. rewrite (trim_digits s Hall).
  destruct s as [|c s']; [congruence|].
  assert (Hc : isDigit c = true)
    by (simpl in Hall; apply andb_prop in Hall; tauto).
  assert (Hgen : (if allDigits (String c s')
                  then Some (Z.of_N (parseDigits (String c s') 0)) else None)
                 = Some (Z.of_N (parseDigits (String c s') 0)))
    by (rewrite Hall; reflexivity).
  destruct c as [[] [] [] [] [] [] [] []]; try exact Hgen; discriminate.
Qed.

Lemma padStart2_digits (s : string) :
  allDigits s = true -> s <> EmptyString ->
  allDigits (padStart2 s) = true /\ padStart2 s <> EmptyString /\
  parseDigits (padStart2 s) 0 = parseDigits s 0.
Proof.
  intros Hall Hne. unfold padStart2.
  destruct s as [|c [|c' s']]; [congruence| |].
  - cbn [String.length]. split; [exact Hall|]. split; [discriminate|].
    reflexivity.
  - cbn [String.length]. split; [exact Hall|]. split; [discriminate|].
    reflexivity.
Qed.

Lemma showZ_nonempty (z : Z) : showZ z <> EmptyString.
Proof.
  unfold showZ. destruct (z <? 0); [discriminate|apply showN_nonempty].
Qed.

Lemma jsNumber_showZ (z : Z) : 0 <= z -> jsNumber (showZ z) = Some z.
Proof.
  intros H. rewrite jsNumber_digits
    by (apply allDigits_showZ, H || apply showZ_nonempty).
  rewrite showZ_nonneg by exact H. rewrite parseDigits_showN.
  rewrite Z2N.id by exact H. reflexivity.
Qed.

Lemma jsNumber_pad2 (z : Z) :
  0 <= z -> jsNumber (padStart2 (showZ z)) = Some z.
Proof.
  intros H.
  destruct (padStart2_digits (showZ z) (allDigits_showZ z H)
              (showZ_nonempty z)) as (Ha & Hn & Hp).
  rewrite jsNumber_digits by assumption. rewrite Hp.
  rewrite showZ_nonneg by exact H. rewrite parseDigits_showN.
  rewrite Z2N.id by exact H. reflexivity.
Qed.

Lemma split_dayKey (y m d : Z) :
  0 <= y -> 0 <= m -> 0 <= d ->
  split "-" (dayKey y m d) =
  [showZ y; padStart2 (showZ m); padStart2 (showZ d)].
Proof.
  intros Hy Hm Hd. unfold dayKey.
  destruct (padStart2_digits (showZ m) (allDigits_showZ m Hm)
              (showZ_nonempty m)) as (Ham & _).
  destruct (padStart2_digits (showZ d) (allDigits_showZ d Hd)
              (showZ_nonempty d)) as (Had & _).
  change ("-" ++ padStart2 (showZ m) ++ "-" ++ padStart2 (showZ d))%string
    with (String "-" (padStart2 (showZ m) ++ String "-" (padStart2 (showZ d)))).
  rewrite split_digits_sep by (reflexivity || apply allDigits_showZ, Hy).
  rewrite split_digits_sep by (reflexivity || exact Ham).
  rewrite split_digits by (reflexivity || exact Had). reflexivity.
Qed.

Lemma normalizeDate_dayKey (y m d : Z) (isEndDate : bool) :
  0 <= y -> 0 <= m -> 0 <= d ->
  normalizeDate (dayKey y m d) isEndDate =
  Some (if isEndDate then setHours (newDate y (m - 1) d) 23 59 59 999
        else setHours (newDate y (m - 1) d) 0 0 0 0).
Proof.
  intros Hy Hm Hd. unfold normalizeDate.
  rewrite split_dayKey by assumption. cbn [map nthNum nth_error].
  rewrite jsNumber_showZ, !jsNumber_pad2 by assumption. reflexivity.
Qed.

Lemma nonEmpty_dayKey (y m d : Z) : 0 <= y -> nonEmpty (dayKey y m d) = true.
Proof.
  intros Hy. unfold dayKey.
  pose proof (showZ_nonempty y) as H.
  destruct (showZ y); [congruence|reflexivity].
Qed.

(** The bounds of a range given by two calendar dates: midnight of the
    start day and the last millisecond of the end day. *)
Lemma rangeBound_dayKey (y m d : Z) (isEndDate : bool) :
  100 <= y -> 1 <= m -> 1 <= d ->
  rangeBound (dayKey y m d) isEndDate =
  Some (Some (civil y m d (if isEndDate then msPerDay - 1 else 0))).
Proof.
  intros Hy Hm Hd. unfold rangeBound.
  rewrite nonEmpty_dayKey by lia.
  rewrite normalizeDate_dayKey by lia.
  assert (HF : MakeFullYear y = y).
  { unfold MakeFullYear. destruct (0 <=? y); [|reflexivity].
    destruct (y <=? 99) eqn:E; [apply Z.leb_le in E; lia|reflexivity]. }
  unfold setHours, newDate, civil. rewrite HF.
  rewrite Day_MakeDate by (unfold msPerDay; lia).
  destruct isEndDate; reflexivity.
Qed.

Section DateRangeFilter.

Variable dateParse : string -> option Z.

Lemma filterByDateRange_empty (data : list AdData) :
  filterByDateRange dateParse data (mkDateRange "" "") = data.
Proof. reflexivity. Qed.

Lemma filterByDateRange_bounded (data : list AdData) (range : DateRange) :
  nonEmpty (startDate range) = true \/ nonEmpty (endDate range) = true ->
  filterByDateRange dateParse data range =
  filter (inRange (rangeBound (startDate range) false)
            (rangeBound (endDate range) true))
    (map (ensureProcessedDate dateParse) data).
Proof.
  intros H. unfold filterByDateRange.
  destruct (nonEmpty (startDate range)); destruct (nonEmpty (endDate range));
    try reflexivity.
  destruct H; discriminate.
Qed.

(** A time of day [t] on day [K] lies between midnight of day [S] and the
    last millisecond of day [E] exactly when [S <= K <= E]. *)
Lemma inRange_days (row : AdData) (t S E : Z) :
  processedDate row = Some t ->
  inRange (Some (Some (MakeDate S 0))) (Some (Some (MakeDate E (msPerDay - 1))))
    row = (S <=? Day t) && (Day t <=? E).
Proof.
  intros Hp. unfold inRange. rewrite Hp. cbn [dateGe dateLe].
  pose proof (Day_TimeWithinDay t) as Ht.
  pose proof (TimeWithinDay_bounds t) as Hb.
  unfold MakeDate. f_equal.
  - destruct (S <=? Day t) eqn:E1.
    + apply Z.leb_le. apply Z.leb_le in E1. unfold msPerDay in *. nia.
    + apply Z.leb_gt. apply Z.leb_gt in E1. unfold msPerDay in *. nia.
  - destruct (Day t <=? E) eqn:E1.
    + apply Z.leb_le. apply Z.leb_le in E1. unfold msPerDay in *. nia.
    + apply Z.leb_gt. apply Z.leb_gt in E1. unfold msPerDay in *. nia.
Qed.

(** The filter is inclusive on both ends for the ranges whose years are
    written with three or four digits, 100 to 9999.  The start bound is
    midnight (00:00:00.000) of the start day and the end bound is the
    last millisecond (23:59:59.999) of the end day; a record dated on the
    start day or on the end day of a range is kept whatever its time of
    day; with both bounds empty the data passes through unchanged. *)
Lemma filterByDateRange_inclusive (data : list AdData) (row : AdData)
  (t sy sm sd ey em ed : Z) :
  100 <= sy <= 9999 -> 1 <= sm <= 12 -> 1 <= sd <= 31 ->
  100 <= ey <= 9999 -> 1 <= em <= 12 -> 1 <= ed <= 31 ->
  Day (civil sy sm sd 0) <= Day (civil ey em ed 0) ->
  In row data ->
  processedDate (ensureProcessedDate dateParse row) = Some t ->
  Day t = Day (civil sy sm sd 0) \/ Day t = Day (civil ey em ed 0) ->
  rangeBound (dayKey sy sm sd) false = Some (Some (civil sy sm sd 0)) /\
  rangeBound (dayKey ey em ed) true
    = Some (Some (civil ey em ed (msPerDay - 1))) /\
  In (ensureProcessedDate dateParse row)
    (filterByDateRange dateParse data
       (mkDateRange (dayKey sy sm sd) (dayKey ey em ed))) /\
  filterByDateRange dateParse data (mkDateRange "" "") = data.
Proof.
  intros Hsy Hsm Hsd Hey Hem Hed Hle Hin Hp Hday.
  pose proof (rangeBound_dayKey sy sm sd false
                ltac:(lia) ltac:(lia) ltac:(lia)) as Hs.
  pose proof (rangeBound_dayKey ey em ed true
                ltac:(lia) ltac:(lia) ltac:(lia)) as He.
  cbv iota in Hs, He.
  split; [exact Hs|]. split; [exact He|]. split; [|reflexivity].
  rewrite filterByDateRange_bounded
    by (left; cbn [startDate]; apply nonEmpty_dayKey; lia).
  cbn [startDate endDate]. rewrite Hs, He.
  apply filter_In. split; [apply in_map; exact Hin|].
  unfold civil in *.
  rewrite (inRange_days _ t _ _ Hp).
  rewrite !Day_MakeDate in Hle, Hday by (unfold msPerDay; lia).
  apply andb_true_intro. split; apply Z.leb_le; lia.
Qed.

(** The filter with only a start date or only an end date. *)
Lemma filterByDateRange_one_sided (data : list AdData) (row : AdData)
  (t y m d : Z) :
  100 <= y -> 1 <= m <= 12 -> 1 <= d <= 31 ->
  In row data ->
  processedDate (ensureProcessedDate dateParse row) = Some t ->
  Day t = Day (civil y m d 0) ->
  In (ensureProcessedDate dateParse row)
    (filterByDateRange dateParse data (mkDateRange (dayKey y m d) "")) /\
  In (ensureProcessedDate dateParse row)
    (filterByDateRange dateParse data (mkDateRange "" (dayKey y m d))).
Proof.
  intros Hy Hm Hd Hin Hp Hday.
  pose proof (rangeBound_dayKey y m d false Hy ltac:(lia) ltac:(lia)) as Hs.
  pose proof (rangeBound_dayKey y m d true Hy ltac:(lia) ltac:(lia)) as He.
  cbv iota in Hs, He.
  pose proof (Day_TimeWithinDay t) as Ht.
  pose proof (TimeWithinDay_bounds t) as Hb.
  unfold civil in *.
  rewrite Day_MakeDate in Hday by (unfold msPerDay; lia).
  split.
  - rewrite filterByDateRange_bounded
      by (left; cbn [startDate]; apply nonEmpty_dayKey; lia).
    cbn [startDate endDate]. rewrite Hs.
    apply filter_In. split; [apply in_map; exact Hin|].
    unfold inRange. rewrite Hp. cbn [rangeBound nonEmpty dateGe].
    apply Z.leb_le. unfold MakeDate, msPerDay in *. nia.
  - rewrite filterByDateRange_bounded
      by (right; cbn [endDate]; apply nonEmpty_dayKey; lia).
    cbn [startDate endDate]. rewrite He.
    apply filter_In. split; [apply in_map; exact Hin|].
    unfold inRange. rewrite Hp. cbn [rangeBound nonEmpty dateLe].
    apply Z.leb_le. unfold MakeDate, msPerDay in *. nia.
Qed.

(** C10: a record without [processedDate] whose [Date] string does not
    parse contributes nothing to the result of the filter as soon as one
    bound is non-empty (so the result is shorter than the data), and it
    passes through when both bounds are empty. *)
Theorem filterByDateRange_undated (l1 l2 : list AdData) (row : AdData)
  (range : DateRange) :
  processedDate row = None -> dateParse (Date row) = None ->
  (startDate range <> EmptyString \/ endDate range <> EmptyString ->
     filterByDateRange dateParse (l1 ++ row :: l2) range
       = filterByDateRange dateParse (l1 ++ l2) range /\
     (List.length (filterByDateRange dateParse (l1 ++ row :: l2) range)
      < List.length (l1 ++ row :: l2))%nat) /\
  (startDate range = EmptyString -> endDate range = EmptyString ->
     filterByDateRange dateParse (l1 ++ row :: l2) range = l1 ++ row :: l2).
Proof.
  intros Hp Hd. split.
  - intros Hne.
    assert (Hb : nonEmpty (startDate range) = true
                 \/ nonEmpty (endDate range) = true).
    { destruct Hne as [H|H]; [left|right];
        destruct (startDate range), (endDate range);
        try reflexivity; congruence. }
    rewrite !filterByDateRange_bounded by exact Hb.
    assert (He : ensureProcessedDate dateParse row = row)
      by (unfold ensureProcessedDate; rewrite Hp, Hd; reflexivity).
    assert (Hr : inRange (rangeBound (startDate range) false)
                   (rangeBound (endDate range) true) row = false)
      by (unfold inRange; rewrite Hp; reflexivity).
    assert (Heq : filter (inRange (rangeBound (startDate range) false)
                            (rangeBound (endDate range) true))
                    (map (ensureProcessedDate dateParse) (l1 ++ row :: l2))
                  = filter (inRange (rangeBound (startDate range) false)
                              (rangeBound (endDate range) true))
                      (map (ensureProcessedDate dateParse) (l1 ++ l2))).
    { rewrite !map_app, !filter_app. cbn [map filter].
      rewrite He, Hr. reflexivity. }
    split; [exact Heq|].
    rewrite Heq.
    eapply Nat.le_lt_trans; [apply filter_length_le|].
    rewrite length_map, !length_app. cbn [List.length]. lia.
  - intros Hs He. unfold filterByDateRange. rewrite Hs, He. reflexivity.
Qed.

End DateRangeFilter.

Lemma filterByDateRange_inclusive_witness :
  processedDate lateRow = Some (civil 2024 3 2 86399999) /\
  Day (civil 2024 3 2 86399999) = Day (civil 2024 3 2 0) /\
  In lateRow
    (filterByDateRange isoDateParse (marchRecords ++ [lateRow])
       (mkDateRange (dayKey 2024 3 1) (dayKey 2024 3 2))).
Proof.
  split; [reflexivity|]. split; [vm_compute; reflexivity|].
  assert (Hle : Day (civil 2024 3 1 0) <= Day (civil 2024 3 2 0))
    by (vm_compute; discriminate).
  assert (Hin : In lateRow (marchRecords ++ [lateRow]))
    by (apply in_or_app; right; left; reflexivity).
  assert (Hp : processedDate (ensureProcessedDate isoDateParse lateRow)
               = Some (civil 2024 3 2 86399999)) by reflexivity.
  assert (Hd : Day (civil 2024 3 2 86399999) = Day (civil 2024 3 1 0)
               \/ Day (civil 2024 3 2 86399999) = Day (civil 2024 3 2 0))
    by (right; vm_compute; reflexivity).
  pose proof (filterByDateRange_inclusive isoDateParse
                (marchRecords ++ [lateRow]) lateRow
                (civil 2024 3 2 86399999) 2024 3 1 2024 3 2
                ltac:(lia) ltac:(lia) ltac:(lia) ltac:(lia) ltac:(lia)
                ltac:(lia) Hle Hin Hp Hd) as (_ & _ & H & _).
  exact H.
Defined.

(** C9, on a record of the year 50.  A record dated 0050-06-15 has a
    parsed date, 15 June of the year 50.  The range from 0050-06-15 to
    0050-06-15 starts and ends on the day of the record, but its bounds
    are built with the constructor that reads the year 50 as 1950: they
    are the first and the last millisecond of 15 June 1950, and the
    filter drops the record. *)
Theorem filterByDateRange_year_50 :
  parseDate isoDateParse "0050-06-15" GOOGLE_ADS = Some (civil 50 6 15 0) /\
  processedDate (adRow "100" "10" "50" "0" "0" "0050-06-15")
    = Some (civil 50 6 15 0) /\
  rangeBound "0050-06-15" false = Some (Some (civil 1950 6 15 0)) /\
  rangeBound "0050-06-15" true
    = Some (Some (civil 1950 6 15 (msPerDay - 1))) /\
  filterByDateRange isoDateParse
    [adRow "100" "10" "50" "0" "0" "0050-06-15"]
    (mkDateRange "0050-06-15" "0050-06-15") = [].
Proof. vm_compute. repeat split; reflexivity. Qed.

Lemma filterByDateRange_undated_witness :
  processedDate undatedRow = None /\
  isoDateParse (Date undatedRow) = None /\
  filterByDateRange isoDateParse (marchRecords ++ undatedRow :: [lateRow])
    (mkDateRange "1000-01-01" "9999-12-31")
  = filterByDateRange isoDateParse (marchRecords ++ [lateRow])
      (mkDateRange "1000-01-01" "9999-12-31") /\
  filterByDateRange isoDateParse (marchRecords ++ undatedRow :: [lateRow])
    (mkDateRange "" "")
  = marchRecords ++ undatedRow :: [lateRow].
Proof.
  assert (H1 : processedDate undatedRow = None) by reflexivity.
  assert (H2 : isoDateParse (Date undatedRow) = None) by reflexivity.
  split; [exact H1|]. split; [exact H2|].
  split.
  - destruct (filterByDateRange_undated isoDateParse marchRecords [lateRow]
                undatedRow (mkDateRange "1000-01-01" "9999-12-31") H1 H2)
      as [Hset _].
    apply Hset. left. discriminate.
  - destruct (filterByDateRange_undated isoDateParse marchRecords [lateRow]
                undatedRow (mkDateRange "" "") H1 H2) as [_ Hempty].
    apply Hempty; reflexivity.
Defined.

(** ** Row acceptance *)

Lemma uniqAcc_In (x : string) (l seen : list string) :
  In x (uniqAcc seen l) <-> In x l /\ ~ In x seen.
Proof.
  revert seen. induction l as [|y l IH]; intros seen; cbn [uniqAcc].
  - simpl. tauto.
  - destruct (existsb (String.eqb y) seen) eqn:E.
    + rewrite IH. apply existsb_exists in E as (z & Hz & Ez).
      apply String.eqb_eq in Ez. subst z.
      simpl. split.
      * intros [H1 H2]. tauto.
      * intros [[H1|H1] H2]; [subst; contradiction|tauto].
    + assert (Hy : ~ In y seen).
      { intros Hin. rewrite <- Bool.not_true_iff_false in E. apply E.
        apply existsb_exists. exists y. split; [exact Hin|].
        apply String.eqb_refl. }
      cbn [In]. rewrite IH. cbn [In].
      destruct (string_dec y x) as [->|Hne]; [tauto|]. tauto.
Qed.

Lemma uniq_In (x : string) (l : list string) : In x (uniq l) <-> In x l.
Proof. unfold uniq. rewrite uniqAcc_In. simpl. tauto. Qed.

Lemma nonEmpty_true (s : string) : nonEmpty s = true <-> s <> EmptyString.
Proof. destruct s; simpl; split; congruence. Qed.

Lemma counterSum_insert (parseFloat : string -> option Q)
  (field : AdData -> string) (l1 l2 : list AdData) (r : AdData) :
  (counterSum parseFloat field (l1 ++ r :: l2)
   == counterSum parseFloat field (l1 ++ l2)
      + parseNumericValue parseFloat (field r))%Q.
Proof.
  unfold counterSum.
  induction l1 as [|a l1 IH]; cbn [app map Qsum fold_right].
  - fold (Qsum (map (fun r0 => parseNumericValue parseFloat (field r0)) l2)).
    ring.
  - fold (Qsum (map (fun r0 => parseNumericValue parseFloat (field r0))
                  (l1 ++ r :: l2))).
    fold (Qsum (map (fun r0 => parseNumericValue parseFloat (field r0))
                  (l1 ++ l2))).
    rewrite IH. ring.
Qed.

Section RowAcceptance.

Variable dateParse : string -> option Z.
Variable parseFloat : string -> option Q.
Variable numToString : Q -> string.

Lemma groupStep_undated (tu : TimeUnit) (l : list AdData)
  (g : list (string * list AdData)) (row : AdData) (l2 : list AdData) :
  processedDate row = None ->
  fold_left (groupStep tu) (l ++ row :: l2) g =
  fold_left (groupStep tu) (l ++ l2) g.
Proof.
  intros Hp. rewrite !fold_left_app. cbn [fold_left].
  unfold groupStep at 2. rewrite Hp. reflexivity.
Qed.

Lemma generateTrendData_undated (tu : TimeUnit) (l1 l2 : list AdData)
  (row : AdData) :
  processedDate row = None -> dateParse (Date row) = None ->
  generateTrendData dateParse parseFloat (l1 ++ row :: l2) tu =
  generateTrendData dateParse parseFloat (l1 ++ l2) tu.
Proof.
  intros Hp Hd. unfold generateTrendData. cbv zeta.
  rewrite !map_app. cbn [map].
  rewrite groupStep_undated; [reflexivity|].
  unfold ensureProcessedDate. rewrite Hp, Hd. exact Hp.
Qed.

(** C2, as the code has it.  A mapped row is retained in the processed
    dataset exactly when it has a non-empty campaign name and a non-empty
    date string.  A record without a parsed date whose date string does
    not parse is left out of every time-bucketed aggregation; it is still
    counted in the KPI summary of the data it belongs to and its
    dimension values are in the filter-option lists. *)
Theorem processGoogleSheetData_acceptance :
  (forall (rows : list (list (string * string))) (dataSource : DataSourceType)
          (r : AdData),
     In r (processGoogleSheetData dateParse parseFloat numToString rows
             dataSource) <->
     (exists row, In row rows /\
        r = processRow dateParse parseFloat numToString dataSource row) /\
     Campaign r <> EmptyString /\ Date r <> EmptyString) /\
  (forall (tu : TimeUnit) (l1 l2 : list AdData) (r : AdData),
     processedDate r = None -> dateParse (Date r) = None ->
     generateTrendData dateParse parseFloat (l1 ++ r :: l2) tu =
     generateTrendData dateParse parseFloat (l1 ++ l2) tu) /\
  (forall (data : list AdData) (r : AdData),
     In r data ->
     In (Account_name r) (accounts (extractFilterOptions data)) /\
     In (Language r) (languages (extractFilterOptions data)) /\
     In (Campaign_type r) (campaignTypes (extractFilterOptions data)) /\
     In (Domain_name r) (domains (extractFilterOptions data))) /\
  (forall (l1 l2 : list AdData) (r : AdData),
     let pv := parseNumericValue parseFloat in
     let s := calculateKpiSummary parseFloat (l1 ++ r :: l2) in
     let s' := calculateKpiSummary parseFloat (l1 ++ l2) in
     (impressions s == impressions s' + pv (Impr r))%Q /\
     (clicks s == clicks s' + pv (Clicks r))%Q /\
     (cost s == cost s' + pv (Cost r))%Q /\
     (conversions s == conversions s' + pv (Conversions r))%Q /\
     (revenue s == revenue s' + pv (Revenue r))%Q).
Proof.
  split; [|split; [|split]].
  - intros rows dataSource r. unfold processGoogleSheetData.
    rewrite filter_In, in_map_iff. unfold validRow.
    rewrite andb_true_iff, !nonEmpty_true.
    split.
    + intros [(row & E & Hin) H]. split; [|exact H].
      exists row. split; [exact Hin|congruence].
    + intros [(row & Hin & E) H]. split; [|exact H].
      exists row. split; [congruence|exact Hin].
  - intros tu l1 l2 r. apply generateTrendData_undated.
  - intros data r Hin. unfold extractFilterOptions.
    cbn [accounts languages campaignTypes domains].
    rewrite !uniq_In. repeat split; apply in_map; exact Hin.
  - intros l1 l2 r pv s s'. subst s s'.
    destruct (calculateKpiSummary_sums_rates parseFloat (l1 ++ r :: l2))
      as (E1 & E2 & E3 & E4 & E5 & _).
    destruct (calculateKpiSummary_sums_rates parseFloat (l1 ++ l2))
      as (F1 & F2 & F3 & F4 & F5 & _).
    rewrite E1, E2, E3, E4, E5, F1, F2, F3, F4, F5.
    repeat split; apply counterSum_insert.
Qed.

End RowAcceptance.

(** C2, counterexample: a Google Ads row with the campaign name Brand and
    the date cell garbage.  The date fails every parse strategy, the row
    is retained without a parsed date, its account is in the
    filter-option list and it is counted in the KPI summary. *)
Lemma unparsed_date_row_retained :
  parseDate isoDateParse "garbage" GOOGLE_ADS = None /\
  map (fun r => (Campaign r, Date r, processedDate r))
    (processGoogleSheetData isoDateParse integerParseFloat integerToString
       [garbageDateRow] GOOGLE_ADS)
  = [ ("Brand"%string, "garbage"%string, None) ] /\
  accounts (extractFilterOptions
    (processGoogleSheetData isoDateParse integerParseFloat integerToString
       [garbageDateRow] GOOGLE_ADS)) = [ "Acme"%string ] /\
  (impressions (calculateKpiSummary integerParseFloat
     (processGoogleSheetData isoDateParse integerParseFloat integerToString
        [garbageDateRow] GOOGLE_ADS)) == 40)%Q.
Proof. vm_compute. repeat split; reflexivity. Qed.

Lemma processGoogleSheetData_acceptance_witness :
  In (processRow isoDateParse integerParseFloat integerToString GOOGLE_ADS
        garbageDateRow)
    (processGoogleSheetData isoDateParse integerParseFloat integerToString
       [garbageDateRow] GOOGLE_ADS) /\
  generateTrendData isoDateParse integerParseFloat
    (marchRecords ++ undatedRow :: []) Month
  = generateTrendData isoDateParse integerParseFloat (marchRecords ++ []) Month.
Proof.
  destruct (processGoogleSheetData_acceptance isoDateParse integerParseFloat
              integerToString) as (Hacc & Htrend & _).
  split.
  - apply Hacc. split.
    + exists garbageDateRow. split; [left; reflexivity|reflexivity].
    + split; vm_compute; discriminate.
  - apply Htrend; reflexivity.
Defined.

(** * Further properties *)

(** ** Category filters *)

Lemma listIncludes_In (l : list string) (x : string) :
  listIncludes l x = true <-> In x l.
Proof.
  unfold listIncludes. rewrite existsb_exists. split.
  - intros (y & Hy & E). apply String.eqb_eq in E. subst. exact Hy.
  - intros H. exists x. split; [exact H | apply String.eqb_refl].
Qed.

Lemma length_eqb_0 {A : Type} (l : list A) :
  (List.length l =? 0)%nat = true <-> l = [].
Proof. destruct l; simpl; split; congruence. Qed.

Lemma filterData_eq (data : list AdData) (filters : FilterOptions) :
  filterData data filters =
  filter (fun row =>
    categoryMatch filters row FTaccounts
    && categoryMatch filters row FTlanguages
    && categoryMatch filters row FTcampaignTypes
    && categoryMatch filters row FTdomains) data.
Proof. reflexivity. Qed.

Lemma filter_filter_comm {A : Type} (p q : A -> bool) (l : list A) :
  filter p (filter q l) = filter q (filter p l).
Proof.
  induction l as [|x l IH]; [reflexivity|]. simpl.
  destruct (q x) eqn:Eq, (p x) eqn:Ep; simpl; rewrite ?Eq, ?Ep, IH;
    reflexivity.
Qed.

Lemma filter_map_comm {A B : Type} (p : B -> bool) (f : A -> B) (l : list A) :
  filter p (map f l) = map f (filter (fun x => p (f x)) l).
Proof.
  induction l as [|x l IH]; [reflexivity|]. simpl.
  destruct (p (f x)); simpl; rewrite IH; reflexivity.
Qed.

Section CategoryFilters.

Variable dateParse : string -> option Z.
Variable parseFloat : string -> option Q.
Variable numToString : Q -> string.

Lemma categoryOf_ensureProcessedDate (ft : FilterType) (row : AdData) :
  categoryOf ft (ensureProcessedDate dateParse row) = categoryOf ft row.
Proof.
  unfold ensureProcessedDate.
  destruct (processedDate row); [reflexivity|].
  destruct (dateParse (Date row)); [|reflexivity].
  destruct ft; reflexivity.
Qed.

Lemma categoryMatch_ensureProcessedDate (f : FilterOptions) (row : AdData)
  (ft : FilterType) :
  categoryMatch f (ensureProcessedDate dateParse row) ft
  = categoryMatch f row ft.
Proof.
  unfold categoryMatch. rewrite categoryOf_ensureProcessedDate.
  reflexivity.
Qed.

(** X1 (filterData, filterByDateRange): the category filter and the date
    range filter commute: filtering the rows of a date range by category
    gives the same list as taking the date range of the rows filtered by
    category. *)
Theorem filterData_filterByDateRange (data : list AdData)
  (filters : FilterOptions) (range : DateRange) :
  filterData (filterByDateRange dateParse data range) filters
  = filterByDateRange dateParse (filterData data filters) range.
Proof.
  unfold filterByDateRange.
  destruct (negb (nonEmpty (startDate range))
            && negb (nonEmpty (endDate range))); [reflexivity|].
  cbv zeta. rewrite !filterData_eq, filter_filter_comm.
  f_equal. rewrite filter_map_comm. f_equal.
  apply filter_ext. intros row.
  rewrite !categoryMatch_ensureProcessedDate. reflexivity.
Qed.

Lemma categoryOf_calculateMetricsRow (ft : FilterType) (row : AdData) :
  categoryOf ft (calculateMetricsRow parseFloat numToString row)
  = categoryOf ft row.
Proof. destruct ft; reflexivity. Qed.

Lemma filterList_extractFilterOptions (ft : FilterType) (data : list AdData) :
  filterList ft (extractFilterOptions data) = uniq (map (categoryOf ft) data).
Proof. destruct ft; reflexivity. Qed.

Lemma filterList_setFilterList (ft ft' : FilterType) (values : list string)
  (f : FilterOptions) :
  filterList ft' (setFilterList ft values f)
  = if match ft, ft' with
       | FTaccounts, FTaccounts | FTlanguages, FTlanguages
       | FTcampaignTypes, FTcampaignTypes | FTdomains, FTdomains => true
       | _, _ => false
       end
    then values else filterList ft' f.
Proof. destruct ft, ft'; reflexivity. Qed.

(** X2 (handleBulkSelection, extractFilterOptions, filterData): selecting
    every option of a category shows the same rows as selecting none of
    that category: with the options extracted from the raw data, the
    selection stored by "select all" and the one stored by "clear" give
    the same filtered list of the data with metrics. *)
Theorem select_all_is_no_filter (rawData : list AdData)
  (selectedFilters : FilterOptions) (filterType : FilterType) :
  filterData (calculateMetrics parseFloat numToString rawData)
    (handleBulkSelection (extractFilterOptions rawData) selectedFilters
       filterType true)
  = filterData (calculateMetrics parseFloat numToString rawData)
      (handleBulkSelection (extractFilterOptions rawData) selectedFilters
         filterType false).
Proof.
  rewrite !filterData_eq. apply filter_ext_in. intros row Hin.
  unfold calculateMetrics in Hin. apply in_map_iff in Hin as (r0 & <- & Hr0).
  assert (H : forall ft',
    categoryMatch (handleBulkSelection (extractFilterOptions rawData)
                     selectedFilters filterType true)
      (calculateMetricsRow parseFloat numToString r0) ft'
    = categoryMatch (handleBulkSelection (extractFilterOptions rawData)
                       selectedFilters filterType false)
        (calculateMetricsRow parseFloat numToString r0) ft').
  { intros ft'. unfold categoryMatch, handleBulkSelection.
    rewrite !filterList_setFilterList.
    destruct (match filterType, ft' with
              | FTaccounts, FTaccounts | FTlanguages, FTlanguages
              | FTcampaignTypes, FTcampaignTypes | FTdomains, FTdomains => true
              | _, _ => false
              end) eqn:E; [|reflexivity].
    assert (filterType = ft') as -> by (destruct filterType, ft'; congruence).
    rewrite filterList_extractFilterOptions, categoryOf_calculateMetricsRow.
    assert (Hi : listIncludes (uniq (map (categoryOf ft') rawData))
                   (categoryOf ft' r0) = true).
    { apply listIncludes_In, uniq_In, in_map. exact Hr0. }
    rewrite Hi, orb_true_r. reflexivity. }
  rewrite !H. reflexivity.
Qed.

End CategoryFilters.

Lemma uniqAcc_NoDup (l seen : list string) : NoDup (uniqAcc seen l).
Proof.
  revert seen. induction l as [|x l IH]; intros seen; cbn [uniqAcc].
  - constructor.
  - destruct (existsb (String.eqb x) seen); [apply IH|].
    constructor; [|apply IH].
    rewrite uniqAcc_In. simpl. tauto.
Qed.

(** X3 (extractFilterOptions): each list of filter options has no
    duplicates and holds exactly the values of its category that occur in
    the data. *)
Theorem extractFilterOptions_distinct_values (data : list AdData)
  (filterType : FilterType) :
  NoDup (filterList filterType (extractFilterOptions data)) /\
  forall value,
    In value (filterList filterType (extractFilterOptions data)) <->
    exists row, In row data /\ categoryOf filterType row = value.
Proof.
  rewrite filterList_extractFilterOptions. split.
  - apply uniqAcc_NoDup.
  - intros value. rewrite uniq_In, in_map_iff.
    split; intros (row & H1 & H2); exists row; tauto.
Qed.

(** ** Derived metrics and aggregates *)

Lemma fold_left_map {A B C : Type} (f : A -> B -> A) (g : C -> B)
  (l : list C) (a : A) :
  fold_left f (map g l) a = fold_left (fun acc x => f acc (g x)) l a.
Proof.
  revert a. induction l as [|x l IH]; intros a; simpl;
    [reflexivity | apply IH].
Qed.

Lemma fold_left_ext {A B : Type} (f g : A -> B -> A) (l : list B) (a : A) :
  (forall acc x, f acc x = g acc x) -> fold_left f l a = fold_left g l a.
Proof.
  intros H. revert a. induction l as [|x l IH]; intros a; simpl;
    [reflexivity | rewrite H; apply IH].
Qed.

Section Aggregates.

Variable dateParse : string -> option Z.
Variable parseFloat : string -> option Q.
Variable numToString : Q -> string.

Lemma calculateKpiSummary_map_calculateMetricsRow (data : list AdData) :
  calculateKpiSummary parseFloat
    (map (calculateMetricsRow parseFloat numToString) data)
  = calculateKpiSummary parseFloat data.
Proof.
  unfold calculateKpiSummary. rewrite fold_left_map.
  rewrite (fold_left_ext _ (kpiStep parseFloat)); [reflexivity|].
  intros acc x. reflexivity.
Qed.

(** X4 (calculateMetrics, calculateKpiSummary): computing the derived
    metrics twice gives the same rows as computing them once, and the KPI
    summary of the rows with metrics is the summary of the rows without
    them: the derived fields of a row never enter an aggregate. *)
Theorem calculateMetrics_idempotent (data : list AdData) :
  calculateMetrics parseFloat numToString
    (calculateMetrics parseFloat numToString data)
  = calculateMetrics parseFloat numToString data /\
  calculateKpiSummary parseFloat
    (calculateMetrics parseFloat numToString data)
  = calculateKpiSummary parseFloat data.
Proof.
  split.
  - unfold calculateMetrics. rewrite map_map. apply map_ext.
    intros row. reflexivity.
  - apply calculateKpiSummary_map_calculateMetricsRow.
Qed.

End Aggregates.

(** ** Grouping into periods *)

Lemma insertBy_Permutation {A : Type} (cmp : A -> A -> Z) (x : A)
  (l : list A) : Permutation (insertBy cmp x l) (x :: l).
Proof.
  induction l as [|y l IH]; cbn [insertBy]; [apply Permutation_refl|].
  destruct (cmp x y <=? 0); [apply Permutation_refl|].
  apply perm_trans with (y :: x :: l); [|apply perm_swap].
  apply perm_skip. exact IH.
Qed.

Lemma sortBy_Permutation {A : Type} (cmp : A -> A -> Z) (l : list A) :
  Permutation (sortBy cmp l) l.
Proof.
  unfold sortBy. induction l as [|x l IH]; cbn [fold_right];
    [apply Permutation_refl|].
  apply perm_trans with (x :: fold_right (insertBy cmp) [] l);
    [apply insertBy_Permutation | apply perm_skip; exact IH].
Qed.

Lemma lookup_In {A : Type} (k : string) (g : list (string * A)) (v : A) :
  lookup k g = Some v -> In (k, v) g.
Proof.
  induction g as [|[k' v'] g IH]; cbn [lookup]; [discriminate|].
  destruct (String.eqb k' k) eqn:E.
  - apply String.eqb_eq in E. intros [= <-]. subst. left. reflexivity.
  - intros H. right. apply IH, H.
Qed.

Lemma lookup_None {A : Type} (k : string) (g : list (string * A)) :
  lookup k g = None <-> ~ In k (map fst g).
Proof.
  induction g as [|[k' v'] g IH]; cbn [lookup map fst In]; [tauto|].
  destruct (String.eqb k' k) eqn:E.
  - apply String.eqb_eq in E. split; [discriminate | tauto].
  - apply String.eqb_neq in E. rewrite IH. tauto.
Qed.

Lemma In_lookup {A : Type} (k : string) (g : list (string * A)) (v : A) :
  NoDup (map fst g) -> In (k, v) g -> lookup k g = Some v.
Proof.
  induction g as [|[k' v'] g IH]; cbn [lookup map fst In]; [tauto|].
  intros Hnd [H | H].
  - injection H as -> ->. rewrite String.eqb_refl. reflexivity.
  - inversion Hnd as [|? ? Hn Hnd']; subst.
    destruct (String.eqb k' k) eqn:E.
    + apply String.eqb_eq in E. subst. exfalso. apply Hn.
      apply (in_map fst) in H. exact H.
    + apply IH; assumption.
Qed.

Lemma lookup_groupPush (key k : string) (row : AdData)
  (g : list (string * list AdData)) :
  lookup k (groupPush key row g) =
  if String.eqb key k
  then Some (match lookup key g with
             | Some rows => rows ++ [row]
             | None => [row]
             end)
  else lookup k g.
Proof.
  induction g as [|[k' rows] g IH]; cbn [groupPush lookup].
  - reflexivity.
  - destruct (String.eqb k' key) eqn:E; cbn [lookup].
    + apply String.eqb_eq in E. subst k'.
      destruct (String.eqb key k); reflexivity.
    + rewrite IH. destruct (String.eqb k' k) eqn:E2.
      * apply String.eqb_eq in E2. subst k'.
        rewrite String.eqb_sym, E. reflexivity.
      * reflexivity.
Qed.

Lemma groupPush_keys (key : string) (row : AdData)
  (g : list (string * list AdData)) :
  map fst (groupPush key row g) =
  if existsb (String.eqb key) (map fst g) then map fst g
  else map fst g ++ [key].
Proof.
  induction g as [|[k' rows] g IH]; cbn [groupPush map fst existsb app].
  - reflexivity.
  - rewrite (String.eqb_sym key k').
    destruct (String.eqb k' key); cbn [map fst orb]; [reflexivity|].
    rewrite IH. destruct (existsb (String.eqb key) (map fst g)); reflexivity.
Qed.

Lemma groupPush_NoDup (key : string) (row : AdData)
  (g : list (string * list AdData)) :
  NoDup (map fst g) -> NoDup (map fst (groupPush key row g)).
Proof.
  intros H. rewrite groupPush_keys.
  destruct (existsb (String.eqb key) (map fst g)) eqn:E; [exact H|].
  apply NoDup_app; [exact H | repeat constructor; simpl; tauto |].
  intros k Hk [-> | []].
  assert (existsb (String.eqb k) (map fst g) = true); [|congruence].
  apply existsb_exists. exists k. split; [exact Hk | apply String.eqb_refl].
Qed.

Section Grouping.

Variable dateParse : string -> option Z.
Variable parseFloat : string -> option Q.

Lemma groupStep_fold_NoDup (tu : TimeUnit) (rows : list AdData)
  (g : list (string * list AdData)) :
  NoDup (map fst g) -> NoDup (map fst (fold_left (groupStep tu) rows g)).
Proof.
  revert g. induction rows as [|row rows IH]; intros g H; cbn [fold_left];
    [exact H|].
  apply IH. unfold groupStep. destruct (processedDate row); [|exact H].
  apply groupPush_NoDup, H.
Qed.

Lemma groupStep_fold_lookup (tu : TimeUnit) (rows : list AdData)
  (key : string) :
  lookup key (fold_left (groupStep tu) rows [])
  = someIfNonEmpty (filter (inPeriod tu key) rows).
Proof.
  induction rows as [|row rows IH] using rev_ind; [reflexivity|].
  rewrite fold_left_app, filter_app. cbn [fold_left filter].
  unfold groupStep at 1. unfold inPeriod at 2.
  destruct (processedDate row) as [date|].
  - rewrite lookup_groupPush.
    destruct (String.eqb (periodKeyOf tu date) key) eqn:E.
    + apply String.eqb_eq in E. subst key. rewrite IH.
      destruct (filter (inPeriod tu (periodKeyOf tu date)) rows);
        reflexivity.
    + rewrite IH, List.app_nil_r. reflexivity.
  - rewrite IH, List.app_nil_r. reflexivity.
Qed.

Lemma someIfNonEmpty_Some {A : Type} (l l' : list A) :
  someIfNonEmpty l = Some l' -> l' = l /\ l <> [].
Proof.
  destruct l; simpl; [discriminate|]. intros [= <-]. split; congruence.
Qed.

Lemma generateTrendData_period_In (data : list AdData) (tu : TimeUnit)
  (key : string) :
  In key (map period (generateTrendData dateParse parseFloat data tu))
  <-> rowsOfPeriod dateParse tu key data <> [].
Proof.
  unfold generateTrendData, rowsOfPeriod. cbv zeta.
  set (rows := map (ensureProcessedDate dateParse) data).
  set (g := fold_left (groupStep tu) rows []).
  set (cmp := fun a b : string * list AdData =>
                comparePeriods tu (fst a) (fst b)).
  rewrite map_map. cbn [period].
  assert (Hp : Permutation (map fst (sortBy cmp g)) (map fst g))
    by (apply Permutation_map, sortBy_Permutation).
  rewrite (Permutation_in' (eq_refl key) Hp).
  pose proof (groupStep_fold_lookup tu rows key) as Hl. fold g in Hl.
  split.
  - intros Hin Hnil. rewrite Hnil in Hl. cbn in Hl.
    apply lookup_None in Hl. tauto.
  - intros Hne. destruct (lookup key g) eqn:E.
    + apply lookup_In in E. apply (in_map fst) in E. exact E.
    + exfalso. destruct (filter (inPeriod tu key) rows);
        [congruence | discriminate].
Qed.

(** X6 (generateTrendData): the periods of the trend data are pairwise
    distinct; a period occurs exactly when some row, once dated, has a
    date in it; and the KPIs of a period are the summary of exactly the
    dated rows of that period, in the order of the data. *)
Theorem generateTrendData_buckets (data : list AdData) (tu : TimeUnit) :
  let trend := generateTrendData dateParse parseFloat data tu in
  NoDup (map period trend) /\
  (forall key,
     In key (map period trend) <-> rowsOfPeriod dateParse tu key data <> []) /\
  (forall t, In t trend ->
     kpi t = calculateKpiSummary parseFloat
               (rowsOfPeriod dateParse tu (period t) data)).
Proof.
  cbv zeta. split; [|split; [apply generateTrendData_period_In|]].
  - unfold generateTrendData. cbv zeta. rewrite map_map. cbn [period].
    eapply Permutation_NoDup.
    + apply Permutation_sym, Permutation_map, sortBy_Permutation.
    + apply groupStep_fold_NoDup. constructor.
  - unfold generateTrendData, rowsOfPeriod. cbv zeta.
    intros t Hin. apply in_map_iff in Hin as ([k rs] & <- & Hin).
    cbn [period kpi fst snd]. apply sortBy_In in Hin.
    apply In_lookup in Hin; [|apply groupStep_fold_NoDup; constructor].
    rewrite groupStep_fold_lookup in Hin.
    apply someIfNonEmpty_Some in Hin as [-> _]. reflexivity.
Qed.

End Grouping.

(** ** The date range filter and the processing effect *)

Lemma map_fixed {A : Type} (f : A -> A) (l : list A) :
  (forall x, In x l -> f x = x) -> map f l = l.
Proof.
  intros H. induction l as [|x l IH]; [reflexivity|]. simpl.
  rewrite H by (left; reflexivity). f_equal. apply IH.
  intros y Hy. apply H. right. exact Hy.
Qed.

Section DateRangeComposition.

Variable dateParse : string -> option Z.
Variable parseFloat : string -> option Q.
Variable numToString : Q -> string.

Lemma ensureProcessedDate_idempotent (row : AdData) :
  ensureProcessedDate dateParse (ensureProcessedDate dateParse row)
  = ensureProcessedDate dateParse row.
Proof.
  assert (H : forall r, processedDate r <> None ->
                        ensureProcessedDate dateParse r = r).
  { intros r Hr. unfold ensureProcessedDate.
    destruct (processedDate r); [reflexivity | congruence]. }
  destruct (processedDate row) eqn:E.
  - rewrite !(H row) by congruence. reflexivity.
  - destruct (dateParse (Date row)) eqn:E2.
    + apply H. unfold ensureProcessedDate. rewrite E, E2. discriminate.
    + assert (Hr : ensureProcessedDate dateParse row = row)
        by (unfold ensureProcessedDate; rewrite E, E2; reflexivity).
      rewrite !Hr. reflexivity.
Qed.

Lemma map_ensureProcessedDate_filter (p : AdData -> bool)
  (data : list AdData) :
  map (ensureProcessedDate dateParse)
    (filter p (map (ensureProcessedDate dateParse) data))
  = filter p (map (ensureProcessedDate dateParse) data).
Proof.
  apply map_fixed. intros x Hx. apply filter_In in Hx as [Hx _].
  apply in_map_iff in Hx as (y & <- & _).
  apply ensureProcessedDate_idempotent.
Qed.

Lemma filterByDateRange_cases (data : list AdData) (range : DateRange) :
  (filterByDateRange dateParse data range = data /\
   startDate range = EmptyString /\ endDate range = EmptyString) \/
  filterByDateRange dateParse data range
  = filter (inRange (rangeBound (startDate range) false)
              (rangeBound (endDate range) true))
      (map (ensureProcessedDate dateParse) data).
Proof.
  unfold filterByDateRange.
  destruct (startDate range); [|right; reflexivity].
  destruct (endDate range); [left; auto | right; reflexivity].
Qed.

(** X8 (filterByDateRange, normalizeDate): a bound of the range that is
    not empty and has fewer than three parts between hyphens, so that its
    day is missing, makes the filter return no row at all, whether it is
    the start or the end of the range. *)
Theorem filterByDateRange_invalid_bound (data : list AdData)
  (bound other : string) :
  bound <> EmptyString -> (List.length (split "-" bound) < 3)%nat ->
  filterByDateRange dateParse data (mkDateRange bound other) = [] /\
  filterByDateRange dateParse data (mkDateRange other bound) = [].
Proof.
  intros Hne Hlen.
  assert (Hn : nthNum (map jsNumber (split "-" bound)) 2 = None).
  { unfold nthNum.
    rewrite (proj2 (nth_error_None (map jsNumber (split "-" bound)) 2))
      by (rewrite length_map; lia).
    reflexivity. }
  assert (Hb : forall isEnd, rangeBound bound isEnd = Some None).
  { intros isEnd. unfold rangeBound.
    destruct bound as [|c s]; [congruence|]. cbn [nonEmpty].
    unfold normalizeDate. cbv zeta. rewrite Hn.
    destruct (nthNum _ 0%nat); [|reflexivity].
    destruct (nthNum _ 1%nat); reflexivity. }
  assert (Hf : forall (p : AdData -> bool) (l : list AdData),
            (forall x, p x = false) -> filter p l = []).
  { intros p l Hp. induction l as [|x l IH]; [reflexivity|]. simpl.
    rewrite Hp. exact IH. }
  split.
  - destruct (filterByDateRange_cases data (mkDateRange bound other))
      as [(_ & H & _) | ->]; [cbn in H; congruence|].
    cbn [startDate endDate]. rewrite Hb. apply Hf. intros x.
    unfold inRange. destruct (processedDate x); [|reflexivity].
    destruct (rangeBound other true); reflexivity.
  - destruct (filterByDateRange_cases data (mkDateRange other bound))
      as [(_ & _ & H) | ->]; [cbn in H; congruence|].
    cbn [startDate endDate]. rewrite Hb. apply Hf. intros x.
    unfold inRange. destruct (processedDate x); [|reflexivity].
    destruct (rangeBound other false) as [s|]; [|reflexivity].
    cbn [dateLe]. apply andb_false_r.
Qed.

(** X9 (filterByDateRange): for a range given by two calendar dates in
    the format YYYY-MM-DD with years from 100 to 9999, the result holds
    exactly the dated rows whose day lies between the start day and the
    end day: a row of another day is never kept, whatever its time of
    day. *)
Theorem filterByDateRange_days (data : list AdData) (r : AdData)
  (sy sm sd ey em ed : Z) :
  100 <= sy <= 9999 -> 1 <= sm <= 12 -> 1 <= sd <= 31 ->
  100 <= ey <= 9999 -> 1 <= em <= 12 -> 1 <= ed <= 31 ->
  (In r (filterByDateRange dateParse data
           (mkDateRange (dayKey sy sm sd) (dayKey ey em ed))) <->
   exists row t,
     In row data /\ r = ensureProcessedDate dateParse row /\
     processedDate r = Some t /\
     Day (civil sy sm sd 0) <= Day t <= Day (civil ey em ed 0)).
Proof.
  intros Hsy Hsm Hsd Hey Hem Hed.
  pose proof (rangeBound_dayKey sy sm sd false
                ltac:(lia) ltac:(lia) ltac:(lia)) as Hs.
  pose proof (rangeBound_dayKey ey em ed true
                ltac:(lia) ltac:(lia) ltac:(lia)) as He.
  cbv iota in Hs, He.
  rewrite filterByDateRange_bounded
    by (left; cbn [startDate]; apply nonEmpty_dayKey; lia).
  cbn [startDate endDate]. rewrite Hs, He, filter_In, in_map_iff.
  unfold civil.
  rewrite !Day_MakeDate by (unfold msPerDay; lia).
  split.
  - intros ((row & <- & Hin) & Hr).
    destruct (processedDate (ensureProcessedDate dateParse row)) as [t|] eqn:Ep.
    + exists row, t. rewrite (inRange_days _ t _ _ Ep) in Hr.
      apply andb_prop in Hr as [H1 H2].
      apply Z.leb_le in H1. apply Z.leb_le in H2. repeat split; auto.
    + unfold inRange in Hr. rewrite Ep in Hr. discriminate.
  - intros (row & t & Hin & -> & Ep & H1 & H2). split.
    + exists row. split; [reflexivity | exact Hin].
    + rewrite (inRange_days _ t _ _ Ep).
      apply andb_true_intro. split; apply Z.leb_le; assumption.
Qed.

End DateRangeComposition.

Lemma filterByDateRange_invalid_bound_witness :
  filterByDateRange isoDateParse marchRecords
    (mkDateRange "2024-03" "2024-03-02") = [] /\
  filterByDateRange isoDateParse marchRecords
    (mkDateRange "2024-03-02" "2024-03") = [].
Proof.
  apply (filterByDateRange_invalid_bound isoDateParse marchRecords
           "2024-03" "2024-03-02");
    [discriminate | vm_compute; lia].
Defined.

Lemma filterByDateRange_days_witness :
  In (adRow "100" "10" "50" "0" "0" "2024-03-02")
    (filterByDateRange isoDateParse marchRecords
       (mkDateRange (dayKey 2024 3 2) (dayKey 2024 3 31))) /\
  ~ In (adRow "200" "20" "100" "5" "150" "2024-03-01")
      (filterByDateRange isoDateParse marchRecords
         (mkDateRange (dayKey 2024 3 2) (dayKey 2024 3 31))).
Proof.
  pose proof (filterByDateRange_days isoDateParse marchRecords
                (adRow "100" "10" "50" "0" "0" "2024-03-02")
                2024 3 2 2024 3 31
                ltac:(lia) ltac:(lia) ltac:(lia) ltac:(lia) ltac:(lia)
                ltac:(lia)) as [_ Hkept].
  pose proof (filterByDateRange_days isoDateParse marchRecords
                (adRow "200" "20" "100" "5" "150" "2024-03-01")
                2024 3 2 2024 3 31
                ltac:(lia) ltac:(lia) ltac:(lia) ltac:(lia) ltac:(lia)
                ltac:(lia)) as [Hdropped _].
  split.
  - apply Hkept.
    exists (adRow "100" "10" "50" "0" "0" "2024-03-02"), (civil 2024 3 2 0).
    split; [right; left; reflexivity|]. split; [reflexivity|].
    split; [reflexivity|]. vm_compute. split; discriminate.
  - intros H. destruct (Hdropped H) as (row & t & _ & _ & Hp & Hlo & _).
    assert (Et : t = civil 2024 3 1 0)
      by (vm_compute in Hp; vm_compute; congruence).
    subst t. vm_compute in Hlo. apply Hlo. reflexivity.
Defined.

(** ** The processing effect *)

Lemma insertBy_map {A B : Type} (cmpA : A -> A -> Z) (cmpB : B -> B -> Z)
  (h : A -> B) (x : A) (l : list A) :
  (forall a b, cmpB (h a) (h b) = cmpA a b) ->
  insertBy cmpB (h x) (map h l) = map h (insertBy cmpA x l).
Proof.
  intros H. induction l as [|y l IH]; cbn [insertBy map]; [reflexivity|].
  rewrite H. destruct (cmpA x y <=? 0); cbn [map]; [reflexivity|].
  rewrite IH. reflexivity.
Qed.

Lemma sortBy_map {A B : Type} (cmpA : A -> A -> Z) (cmpB : B -> B -> Z)
  (h : A -> B) (l : list A) :
  (forall a b, cmpB (h a) (h b) = cmpA a b) ->
  sortBy cmpB (map h l) = map h (sortBy cmpA l).
Proof.
  intros H. unfold sortBy.
  induction l as [|x l IH]; cbn [map fold_right]; [reflexivity|].
  rewrite IH. apply insertBy_map, H.
Qed.

Section Effect.

Variable dateParse : string -> option Z.
Variable parseFloat : string -> option Q.
Variable numToString : Q -> string.

Local Notation "'cm'" := (calculateMetricsRow parseFloat numToString).
Local Notation "'ens'" := (ensureProcessedDate dateParse).

Lemma ensureProcessedDate_calculateMetricsRow (row : AdData) :
  ens (cm row) = cm (ens row).
Proof.
  unfold ensureProcessedDate. cbn [processedDate Date calculateMetricsRow].
  destruct (processedDate row); [reflexivity|].
  destruct (dateParse (Date row)); reflexivity.
Qed.

Lemma filterData_calculateMetrics (data : list AdData) (f : FilterOptions) :
  filterData (calculateMetrics parseFloat numToString data) f
  = calculateMetrics parseFloat numToString (filterData data f).
Proof.
  unfold calculateMetrics. rewrite !filterData_eq, filter_map_comm.
  f_equal.
Qed.

Lemma filterByDateRange_calculateMetrics (data : list AdData)
  (range : DateRange) :
  filterByDateRange dateParse (calculateMetrics parseFloat numToString data)
    range
  = calculateMetrics parseFloat numToString
      (filterByDateRange dateParse data range).
Proof.
  unfold filterByDateRange, calculateMetrics.
  destruct (negb (nonEmpty (startDate range))
            && negb (nonEmpty (endDate range))); [reflexivity|].
  cbv zeta. rewrite map_map.
  rewrite (map_ext _ (fun x => cm (ens x)))
    by apply ensureProcessedDate_calculateMetricsRow.
  rewrite <- (map_map ens cm), filter_map_comm. f_equal.
Qed.

Lemma groupPush_map (key : string) (row : AdData)
  (g : list (string * list AdData)) :
  groupPush key (cm row) (map (fun e => (fst e, map cm (snd e))) g)
  = map (fun e => (fst e, map cm (snd e))) (groupPush key row g).
Proof.
  induction g as [|[k rows] g IH]; cbn [groupPush map fst snd];
    [reflexivity|].
  destruct (String.eqb k key); cbn [map fst snd].
  - rewrite map_app. reflexivity.
  - rewrite IH. reflexivity.
Qed.

Lemma groupStep_fold_map (tu : TimeUnit) (rows : list AdData)
  (g : list (string * list AdData)) :
  fold_left (groupStep tu) (map cm rows)
    (map (fun e => (fst e, map cm (snd e))) g)
  = map (fun e => (fst e, map cm (snd e))) (fold_left (groupStep tu) rows g).
Proof.
  revert g. induction rows as [|row rows IH]; intros g;
    cbn [map fold_left]; [reflexivity|].
  rewrite <- IH. f_equal. unfold groupStep.
  cbn [processedDate calculateMetricsRow].
  destruct (processedDate row); [apply groupPush_map | reflexivity].
Qed.

Lemma generateTrendData_calculateMetrics (data : list AdData)
  (tu : TimeUnit) :
  generateTrendData dateParse parseFloat
    (calculateMetrics parseFloat numToString data) tu
  = generateTrendData dateParse parseFloat data tu.
Proof.
  unfold generateTrendData, calculateMetrics. cbv zeta.
  rewrite map_map.
  rewrite (map_ext _ (fun x => cm (ens x)))
    by apply ensureProcessedDate_calculateMetricsRow.
  rewrite <- (map_map ens cm).
  change (@nil (string * list AdData))
    with (map (fun e : string * list AdData => (fst e, map cm (snd e))) [])
    at 1.
  rewrite groupStep_fold_map.
  rewrite (sortBy_map
             (fun a b : string * list AdData =>
                comparePeriods tu (fst a) (fst b)))
    by reflexivity.
  rewrite map_map. apply map_ext. intros [k rows]. cbn [fst snd].
  f_equal. apply calculateKpiSummary_map_calculateMetricsRow.
Qed.

(** X10 (the processing effect of DataProvider, calculateMetrics): when
    the effect stores its results, the KPI summary and both trend series
    are those of the raw rows: the summary and the trend data are computed
    from the raw rows that pass the category filter and the date range,
    the complete trend data from the raw rows that pass the category
    filter, as if the derived metrics had never been computed. *)
Theorem processDataEffect_raw_counters (rawData : list AdData)
  (selectedFilters : FilterOptions) (timeUnit : TimeUnit)
  (compareBy : CompareBy) (dateRange : DateRange) (derived : DerivedData) :
  processDataEffect dateParse parseFloat numToString rawData selectedFilters
    timeUnit compareBy dateRange = Some derived ->
  derivedKpiSummary derived
  = calculateKpiSummary parseFloat
      (filterByDateRange dateParse (filterData rawData selectedFilters)
         dateRange) /\
  derivedTrendData derived
  = generateTrendData dateParse parseFloat
      (filterByDateRange dateParse (filterData rawData selectedFilters)
         dateRange) timeUnit /\
  derivedCompleteTrendData derived
  = generateTrendData dateParse parseFloat
      (filterData rawData selectedFilters) timeUnit.
Proof.
  unfold processDataEffect.
  destruct (List.length rawData =? 0)%nat; [discriminate|].
  cbv zeta. intros [= <-].
  cbn [derivedKpiSummary derivedTrendData derivedCompleteTrendData].
  rewrite filterData_calculateMetrics, filterByDateRange_calculateMetrics.
  rewrite !generateTrendData_calculateMetrics.
  split; [|split; reflexivity].
  apply calculateKpiSummary_map_calculateMetricsRow.
Qed.

Lemma rowsOfPeriod_filterByDateRange (tu : TimeUnit) (key : string)
  (data : list AdData) (range : DateRange) :
  rowsOfPeriod dateParse tu key (filterByDateRange dateParse data range)
    <> [] ->
  rowsOfPeriod dateParse tu key data <> [].
Proof.
  unfold rowsOfPeriod.
  destruct (filterByDateRange_cases dateParse data range) as [(E & _) | E];
    rewrite E; [tauto|].
  rewrite map_ensureProcessedDate_filter, filter_filter_comm.
  destruct (filter (inPeriod tu key) (map ens data)); [|discriminate].
  cbn [filter]. tauto.
Qed.

(** X11 (the processing effect of DataProvider): every period of the
    trend data of the date range is also a period of the complete trend
    data that the effect stores beside it. *)
Theorem processDataEffect_trend_periods (rawData : list AdData)
  (selectedFilters : FilterOptions) (timeUnit : TimeUnit)
  (compareBy : CompareBy) (dateRange : DateRange) (derived : DerivedData)
  (key : string) :
  processDataEffect dateParse parseFloat numToString rawData selectedFilters
    timeUnit compareBy dateRange = Some derived ->
  In key (map period (derivedTrendData derived)) ->
  In key (map period (derivedCompleteTrendData derived)).
Proof.
  unfold processDataEffect.
  destruct (List.length rawData =? 0)%nat; [discriminate|].
  cbv zeta. intros [= <-].
  cbn [derivedTrendData derivedCompleteTrendData].
  rewrite !generateTrendData_period_In.
  apply rowsOfPeriod_filterByDateRange.
Qed.

End Effect.

Lemma processDataEffect_raw_counters_witness :
  exists derived,
    processDataEffect isoDateParse integerParseFloat integerToString
      marchRecords noFilters Month ByAccountName
      (mkDateRange "2024-03-02" "2024-03-02") = Some derived /\
    derivedKpiSummary derived
    = calculateKpiSummary integerParseFloat
        (filterByDateRange isoDateParse (filterData marchRecords noFilters)
           (mkDateRange "2024-03-02" "2024-03-02")).
Proof.
  eexists. split; [reflexivity|].
  apply (processDataEffect_raw_counters isoDateParse integerParseFloat
           integerToString marchRecords noFilters Month ByAccountName
           (mkDateRange "2024-03-02" "2024-03-02")).
  reflexivity.
Defined.

Lemma processDataEffect_trend_periods_witness :
  exists derived,
    processDataEffect isoDateParse integerParseFloat integerToString
      winterRecords noFilters Month ByAccountName
      (mkDateRange "2024-03-01" "2024-03-31") = Some derived /\
    In "2024-3"%string (map period (derivedCompleteTrendData derived)).
Proof.
  eexists. split; [reflexivity|].
  apply (processDataEffect_trend_periods isoDateParse integerParseFloat
           integerToString winterRecords noFilters Month ByAccountName
           (mkDateRange "2024-03-01" "2024-03-31") _ "2024-3"
           eq_refl).
  vm_compute. left. reflexivity.
Defined.

(** ** The period comparison table *)

(** X12 (sortPeriodsNewestToOldest, sortPeriodsOldestToNewest): the two
    comparators are mirror images: comparing [a] with [b] newest first
    gives what comparing [b] with [a] oldest first gives, at every
    granularity and for all keys. *)
Theorem sortPeriods_flip (tu : TimeUnit) (a b : string) :
  sortPeriodsNewestToOldest tu a b = sortPeriodsOldestToNewest tu b a.
Proof.
  destruct tu; unfold sortPeriodsNewestToOldest, sortPeriodsOldestToNewest;
    cbv zeta; try reflexivity;
    rewrite (String.eqb_sym (nthStr (split "-" a) 0)); reflexivity.
Qed.

Lemma parseInt10_digits (s : string) :
  allDigits s = true -> s <> EmptyString ->
  parseInt10 s = Some (Z.of_N (parseDigits s 0)).
Proof.
  intros Hall Hne. destruct s as [|c s']; [congruence|].
  assert (Hc : isDigit c = true)
    by (simpl in Hall; apply andb_prop in Hall; tauto).
  destruct (isDigit_facts c Hc) as (Ew & Em & Ep & _).
  unfold parseInt10. cbn [trimStart]. rewrite Ew.
  assert (Hgen : option_map Z.of_N
                   (if startsWithDigit (String c s')
                    then Some (parseDigits (String c s') 0) else None)
                 = Some (Z.of_N (parseDigits (String c s') 0)))
    by (cbn [startsWithDigit]; rewrite Hc; reflexivity).
  destruct c as [[] [] [] [] [] [] [] []]; try exact Hgen;
    discriminate.
Qed.

Lemma parseInt10_showZ (z : Z) : 0 <= z -> parseInt10 (showZ z) = Some z.
Proof.
  intros H. rewrite parseInt10_digits
    by (apply allDigits_showZ || apply showZ_nonempty; exact H).
  rewrite showZ_nonneg, parseDigits_showN, Z2N.id by exact H. reflexivity.
Qed.

Lemma comparisonRowsFrom_periods (dateParse : string -> option Z)
  (tu : TimeUnit) (metric : MetricType)
  (sorted complete rest : list TrendData) (i : nat) :
  map rowPeriod (comparisonRowsFrom dateParse tu metric sorted complete i rest)
  = map period rest.
Proof.
  revert i. induction rest as [|cur rest IH]; intros i;
    cbn [comparisonRowsFrom map]; [reflexivity|].
  rewrite IH. reflexivity.
Qed.

Section ComparisonTable.

Variable dateParse : string -> option Z.

(** X13 (generateComparisonTable): the table is empty when the series has
    fewer than two periods; otherwise it has exactly one row for each
    period of the series: the periods of its rows are a permutation of
    the periods of the series. *)
Theorem generateComparisonTable_periods (tu : TimeUnit) (metric : MetricType)
  (filtered complete : list TrendData) :
  Permutation
    (map rowPeriod
       (generateComparisonTable dateParse tu metric filtered complete))
    (if (List.length filtered <? 2)%nat then [] else map period filtered).
Proof.
  unfold generateComparisonTable.
  destruct (List.length filtered <? 2)%nat; [apply Permutation_refl|].
  cbv zeta.
  eapply perm_trans; [apply Permutation_map, sortBy_Permutation|].
  rewrite comparisonRowsFrom_periods.
  apply Permutation_map, sortBy_Permutation.
Qed.

(** X14 (generateComparisonTable, year-over-year key): for a week, a
    month or a quarter the key of the same period of the previous year
    has the year lowered by one and the same week, month or quarter; at
    the granularity of years there is no such key. *)
Theorem previousYearPeriodKey_spec (y n : Z) :
  0 <= y -> 0 <= n ->
  previousYearPeriodKey dateParse Week (weekKey y n)
    = Some (weekKey (y - 1) n) /\
  previousYearPeriodKey dateParse Month (monthKey y n)
    = Some (monthKey (y - 1) n) /\
  previousYearPeriodKey dateParse Quarter (quarterKey y n)
    = Some (quarterKey (y - 1) n) /\
  previousYearPeriodKey dateParse Year (yearKey y) = None.
Proof.
  intros Hy Hn. unfold previousYearPeriodKey, weekKey, monthKey, quarterKey.
  rewrite currentYearOf_key2, currentSubPeriodOf_key2,
    currentYearOf_keyQ, currentSubPeriodOf_keyQ by assumption.
  cbn [numSub showNum]. repeat split.
Qed.

(** X15 (generateComparisonTable, year-over-year lookup): a row has a
    previous-year value only from a record whose key is exactly the key
    of the same period of the previous year, found in the sorted series
    or in the complete series; the value is the metric of that record and
    the year-over-year change is computed from it.  No other record is
    ever used in its place. *)
Theorem year_over_year_lookup (tu : TimeUnit) (metric : MetricType)
  (sorted complete : list TrendData) (i : nat) (cur : TrendData) (v : Q) :
  previousYear (comparisonRow dateParse tu metric sorted complete i cur)
    = Some v ->
  exists key p,
    previousYearPeriodKey dateParse tu (period cur) = Some key /\
    period p = key /\ (In p sorted \/ In p complete) /\
    v = orZero (metricOf metric p) /\
    yearOverYearChange
      (comparisonRow dateParse tu metric sorted complete i cur)
    = Some (calculateChange
              (current (comparisonRow dateParse tu metric sorted complete
                          i cur)) v).
Proof.
  unfold comparisonRow. cbn [previousYear yearOverYearChange current].
  unfold resolvePreviousYearPeriod.
  destruct (previousYearPeriodKey dateParse tu (period cur)) as [key|];
    [|discriminate].
  destruct (findPeriod key sorted) as [p|] eqn:E1.
  - cbn [option_map]. intros [= <-]. exists key, p.
    apply findPeriod_Some in E1 as [Hin Hk]. auto 6.
  - destruct (0 <? List.length complete)%nat; [|discriminate].
    destruct (findPeriod key complete) as [p|] eqn:E2; [|discriminate].
    cbn [option_map]. intros [= <-]. exists key, p.
    apply findPeriod_Some in E2 as [Hin Hk]. auto 6.
Qed.

Lemma first_segment (y : Z) (rest key : string) :
  0 <= y -> key = showZ y \/ key = (showZ y ++ "-" ++ rest)%string ->
  parseInt10 (nthStr (split "-" key) 0) = Some y.
Proof.
  intros Hy [-> | ->].
  - rewrite split_digits by (apply allDigits_showZ, Hy || reflexivity).
    cbn [nthStr nth]. apply parseInt10_showZ, Hy.
  - change ("-" ++ rest)%string with (String "-" rest).
    rewrite split_digits_sep by (apply allDigits_showZ, Hy || reflexivity).
    cbn [nthStr nth]. apply parseInt10_showZ, Hy.
Qed.

(** X16 (filteredTrendData of the trends view): with an end date that
    the host cannot parse the series is emptied; with an end date that it
    parses, a period whose key starts with a year is kept exactly when
    that year is not after the year of the end date, so that the periods
    of the end year that lie after the end date are kept. *)
Theorem filteredTrendData_by_year (trend : list TrendData)
  (range : DateRange) :
  endDate range <> EmptyString ->
  (dateParse (endDate range) = None ->
   filteredTrendData dateParse trend range = []) /\
  (forall d t y rest,
     dateParse (endDate range) = Some d -> In t trend -> 0 <= y ->
     period t = showZ y \/ period t = (showZ y ++ "-" ++ rest)%string ->
     (In t (filteredTrendData dateParse trend range)
      <-> y <= getFullYear d)).
Proof.
  intros Hne. unfold filteredTrendData.
  destruct (endDate range) as [|c s] eqn:Ee; [congruence|].
  cbn [nonEmpty negb]. cbv zeta. split.
  - intros ->. cbn [option_map].
    induction trend as [|t trend IH]; [reflexivity|]. cbn [filter].
    rewrite IH. destruct (parseInt10 _); reflexivity.
  - intros d t y rest -> Hin Hy Hk. cbn [option_map].
    rewrite filter_In, (first_segment y rest _ Hy Hk). cbn [numLe].
    rewrite Z.leb_le. tauto.
Qed.

(** X17 (generateComparisonTable, previous period): when the key of the
    predecessor is neither the key of the adjacent earlier period of the
    sorted series nor a key of the complete series, and the fallback for
    week 1 finds nothing, the previous-period value of the row is the
    value of that adjacent period, whatever its key. *)
Theorem previous_period_adjacent_bucket (tu : TimeUnit) (metric : MetricType)
  (sorted complete : list TrendData) (i : nat) (cur p : TrendData) :
  (0 < i)%nat -> nth_error sorted (i - 1) = Some p ->
  period p <> previousPeriodKey dateParse tu (period cur) ->
  findPeriod (previousPeriodKey dateParse tu (period cur)) complete = None ->
  tu <> Week
  \/ numEq (parseInt (currentSubPeriodOf (period cur))) (Some 1) = false
  \/ lastWeekFallback (currentYearOf (period cur)) complete = None ->
  previous (comparisonRow dateParse tu metric sorted complete i cur)
  = Some (orZero (metricOf metric p)).
Proof.
  intros Hi Hadj Hne Hnone Hcase. unfold comparisonRow. cbn [previous].
  rewrite (resolvePreviousPeriod_kept_adjacent dateParse tu sorted complete
             i cur p); [reflexivity | | exact Hne | exact Hnone | exact Hcase].
  apply Nat.ltb_lt in Hi. rewrite Hi. exact Hadj.
Qed.

End ComparisonTable.

Lemma previousYearPeriodKey_spec_witness :
  previousYearPeriodKey isoDateParse Week (weekKey 2024 3)
    = Some (weekKey (2024 - 1) 3) /\
  previousYearPeriodKey isoDateParse Month (monthKey 2024 3)
    = Some (monthKey (2024 - 1) 3) /\
  previousYearPeriodKey isoDateParse Quarter (quarterKey 2024 3)
    = Some (quarterKey (2024 - 1) 3) /\
  previousYearPeriodKey isoDateParse Year (yearKey 2024) = None.
Proof.
  apply (previousYearPeriodKey_spec isoDateParse 2024 3); lia.
Defined.

Lemma year_over_year_lookup_witness :
  exists key p,
    previousYearPeriodKey isoDateParse Month
      (period (trendPoint "2024-3" 120)) = Some key /\
    period p = key /\ (In p yearSeries \/ In p yearSeries) /\
    80%Q = orZero (metricOf Mrevenue p) /\
    yearOverYearChange
      (comparisonRow isoDateParse Month Mrevenue yearSeries yearSeries 1
         (trendPoint "2024-3" 120))
    = Some (calculateChange
              (current (comparisonRow isoDateParse Month Mrevenue
                          yearSeries yearSeries 1
                          (trendPoint "2024-3" 120))) 80%Q).
Proof.
  apply (year_over_year_lookup isoDateParse Month Mrevenue yearSeries
           yearSeries 1 (trendPoint "2024-3" 120) 80%Q).
  reflexivity.
Defined.

Lemma filteredTrendData_by_year_witness :
  In (trendPoint "2024-3" 120)
    (filteredTrendData isoDateParse monthSeries
       (mkDateRange "" "2024-02-15")).
Proof.
  destruct (filteredTrendData_by_year isoDateParse monthSeries
              (mkDateRange "" "2024-02-15") ltac:(discriminate))
    as [_ H].
  apply (H (civil 2024 2 15 0) (trendPoint "2024-3" 120) 2024
           "3"%string).
  - reflexivity.
  - right. right. left. reflexivity.
  - lia.
  - right. reflexivity.
  - vm_compute. discriminate.
Defined.

Lemma previous_period_adjacent_bucket_witness :
  previous (comparisonRow isoDateParse Month Mrevenue
              (sortedTrendDataOf Month gapSeries) gapSeries 1
              (trendPoint "2024-3" 120))
  = Some (orZero (metricOf Mrevenue (trendPoint "2024-1" 100))).
Proof.
  apply (previous_period_adjacent_bucket isoDateParse Month Mrevenue
           (sortedTrendDataOf Month gapSeries) gapSeries 1
           (trendPoint "2024-3" 120) (trendPoint "2024-1" 100)).
  - lia.
  - reflexivity.
  - vm_compute. discriminate.
  - reflexivity.
  - left. discriminate.
Defined.

(** ** Chronological order *)

Lemma comparePeriods_keyOfParts (tu : TimeUnit) (a b : Z * Z) :
  tu = Week \/ tu = Month ->
  0 <= fst a -> 0 <= snd a -> 0 <= fst b -> 0 <= snd b ->
  comparePeriods tu (keyOfParts a) (keyOfParts b)
  = if fst a =? fst b then snd a - snd b else fst a - fst b.
Proof.
  intros Htu Ha1 Ha2 Hb1 Hb2.
  assert (H : comparePeriods tu (keyOfParts a) (keyOfParts b)
              = comparePeriods Month (keyOfParts a) (keyOfParts b))
    by (destruct Htu; subst; reflexivity).
  rewrite H. unfold comparePeriods, keyOfParts, monthKey. cbv zeta.
  rewrite !split_key2 by (apply allDigits_showZ; assumption).
  cbn [map nthNum nth_error]. rewrite !jsNumber_showZ by assumption.
  cbn [numNeq numSub cmpResult].
  destruct (fst a =? fst b); reflexivity.
Qed.

Lemma decode_keys (l : list string) :
  Forall (fun k => exists p, k = keyOfParts p /\ 0 <= fst p /\ 0 <= snd p) l ->
  exists parts,
    l = map keyOfParts parts /\
    Forall (fun p => 0 <= fst p /\ 0 <= snd p) parts.
Proof.
  induction 1 as [|k l (p & -> & Hp) _ (parts & -> & Hparts)].
  - exists []. split; [reflexivity | constructor].
  - exists (p :: parts). split; [reflexivity | constructor; assumption].
Qed.

Lemma strictly_sorted_parts (tu : TimeUnit) (parts : list (Z * Z)) :
  tu = Week \/ tu = Month ->
  Forall (fun p => 0 <= fst p /\ 0 <= snd p) parts ->
  NoDup (map keyOfParts parts) ->
  StronglySorted (fun a b => comparePeriods tu a b <= 0)
    (map keyOfParts parts) ->
  StronglySorted lexLt parts.
Proof.
  intros Htu Hnn. induction Hnn as [|p parts Hp Hnn IH];
    cbn [map]; intros Hnd Hs; [constructor|].
  inversion Hnd as [|? ? Hnotin Hnd']; subst.
  inversion Hs as [|? ? Hs' Hall]; subst.
  constructor; [apply IH; assumption|].
  rewrite Forall_forall in *. intros q Hq.
  specialize (Hall (keyOfParts q) (in_map keyOfParts _ _ Hq)).
  specialize (Hnn q Hq).
  rewrite (comparePeriods_keyOfParts tu p q Htu) in Hall by tauto.
  assert (Hne : p <> q).
  { intros ->. apply Hnotin. apply in_map. exact Hq. }
  unfold lexLt. destruct (fst p =? fst q) eqn:E.
  - apply Z.eqb_eq in E. right. split; [exact E|].
    destruct (Z.eq_dec (snd p) (snd q)) as [E2|E2]; [|lia].
    exfalso. apply Hne. destruct p, q. cbn [fst snd] in E, E2. congruence.
  - apply Z.eqb_neq in E. left. lia.
Qed.

Section Chronological.

Variable dateParse : string -> option Z.
Variable parseFloat : string -> option Q.

Lemma periodKeyOf_keyParts (tu : TimeUnit) (d : Z) :
  tu = Week \/ tu = Month -> periodKeyOf tu d = keyOfParts (keyParts tu d).
Proof.
  intros [-> | ->]; unfold periodKeyOf, keyOfParts, keyParts, weekKey, monthKey;
    cbn [fst snd]; reflexivity.
Qed.

(** X18 (generateTrendData, comparePeriods): at the granularities of
    weeks and of months the trend data is in chronological order: when
    the year and the number of every dated row are not negative, the
    periods are the keys of a list of pairs of a year and a number that
    is strictly ascending, first by year and then by number. *)
Theorem generateTrendData_chronological (data : list AdData)
  (tu : TimeUnit) :
  tu = Week \/ tu = Month ->
  (forall row d, In row data ->
     processedDate (ensureProcessedDate dateParse row) = Some d ->
     0 <= fst (keyParts tu d) /\ 0 <= snd (keyParts tu d)) ->
  exists parts,
    map period (generateTrendData dateParse parseFloat data tu)
    = map keyOfParts parts /\
    StronglySorted lexLt parts.
Proof.
  intros Htu Hrows.
  assert (Hkeys : Forall (fun k => exists p, k = keyOfParts p /\
                                             0 <= fst p /\ 0 <= snd p)
                    (map period
                       (generateTrendData dateParse parseFloat data tu))).
  { rewrite Forall_forall. intros k Hk.
    apply generateTrendData_period_In in Hk. unfold rowsOfPeriod in Hk.
    destruct (filter (inPeriod tu k)
                (map (ensureProcessedDate dateParse) data))
      as [|r rs] eqn:E; [congruence|].
    assert (Hr : In r (r :: rs)) by (left; reflexivity).
    rewrite <- E in Hr. apply filter_In in Hr as [Hin Hp].
    apply in_map_iff in Hin as (row & <- & Hin).
    unfold inPeriod in Hp.
    destruct (processedDate (ensureProcessedDate dateParse row))
      as [d|] eqn:Ed; [|discriminate].
    apply String.eqb_eq in Hp. exists (keyParts tu d).
    rewrite <- Hp. split; [apply periodKeyOf_keyParts, Htu|].
    apply (Hrows row d Hin Ed). }
  destruct (decode_keys _ Hkeys) as (parts & Hparts & Hnn).
  exists parts. split; [exact Hparts|].
  apply (strictly_sorted_parts tu parts Htu Hnn).
  - rewrite <- Hparts.
    unfold generateTrendData. cbv zeta. rewrite map_map. cbn [period].
    eapply Permutation_NoDup.
    + apply Permutation_sym, Permutation_map, sortBy_Permutation.
    + apply groupStep_fold_NoDup. constructor.
  - rewrite <- Hparts. revert Hkeys.
    unfold generateTrendData. cbv zeta. rewrite map_map. cbn [period].
    set (g := fold_left (groupStep tu)
                (map (ensureProcessedDate dateParse) data) []).
    set (cmp := fun a b : string * list AdData =>
                  comparePeriods tu (fst a) (fst b)).
    intros Hkeys.
    assert (Hs : StronglySorted (fun a b => cmp a b <= 0) (sortBy cmp g)).
    { apply (sortBy_StronglySorted cmp
               (fun e => exists p, fst e = keyOfParts p /\
                                   0 <= fst p /\ 0 <= snd p)).
      - intros a b (pa & Ea & Ha) (pb & Eb & Hb). unfold cmp.
        rewrite Ea, Eb, !comparePeriods_keyOfParts by tauto.
        rewrite (Z.eqb_sym (fst pb)).
        destruct (fst pa =? fst pb) eqn:E; [lia|].
        apply Z.eqb_neq in E. lia.
      - intros a b c (pa & Ea & Ha) (pb & Eb & Hb) (pc & Ec & Hc).
        unfold cmp. rewrite Ea, Eb, Ec, !comparePeriods_keyOfParts by tauto.
        destruct (fst pa =? fst pb) eqn:E1;
          destruct (fst pb =? fst pc) eqn:E2;
          destruct (fst pa =? fst pc) eqn:E3;
          rewrite ?Z.eqb_eq, ?Z.eqb_neq in *; lia.
      - rewrite Forall_forall in *. intros e He.
        apply Hkeys. apply in_map_iff. exists e. split; [reflexivity|].
        apply sortBy_In. exact He. }
    clear Hkeys. induction Hs as [|e l Hs IH Hall]; cbn [map];
      constructor; [exact IH|].
    rewrite Forall_forall in *. intros k Hk.
    apply in_map_iff in Hk as (e' & <- & He'). apply (Hall e' He').
Qed.

End Chronological.

Lemma generateTrendData_chronological_witness :
  exists parts,
    map period
      (generateTrendData isoDateParse integerParseFloat winterRecords Month)
    = map keyOfParts parts /\
    StronglySorted lexLt parts.
Proof.
  apply (generateTrendData_chronological isoDateParse integerParseFloat
           winterRecords Month).
  - right. reflexivity.
  - intros row d Hin H. vm_compute in Hin.
    destruct Hin as [<- | [<- | [<- | []]]]; vm_compute in H;
      injection H as <-; vm_compute; split; discriminate.
Defined.

(** ** Date strings *)

Lemma split_noChar (sep : ascii) (s : string) :
  noChar sep s = true -> split sep s = [s].
Proof.
  induction s as [|c s IH]; cbn [noChar split]; [reflexivity|].
  intros H. apply andb_prop in H as [Hc Hs].
  apply negb_true_iff in Hc. rewrite Hc, (IH Hs). reflexivity.
Qed.

Lemma noChar_app (c : ascii) (a b : string) :
  noChar c (a ++ b) = noChar c a && noChar c b.
Proof.
  induction a as [|x a IH]; cbn [append noChar]; [reflexivity|].
  rewrite IH, andb_assoc. reflexivity.
Qed.

Lemma noChar_digits (c : ascii) (s : string) :
  isDigit c = false -> allDigits s = true -> noChar c s = true.
Proof.
  intros Hc. induction s as [|x s IH]; cbn [allDigits noChar];
    [reflexivity|].
  intros H. apply andb_prop in H as [Hx Hs]. rewrite (IH Hs), andb_true_r.
  apply negb_true_iff. destruct (Ascii.eqb x c) eqn:E; [|reflexivity].
  apply Ascii.eqb_eq in E. congruence.
Qed.

Lemma noWhite_app (a b : string) :
  noWhite (a ++ b) = noWhite a && noWhite b.
Proof.
  induction a as [|x a IH]; cbn [append noWhite]; [reflexivity|].
  rewrite IH, andb_assoc. reflexivity.
Qed.

Lemma noWhite_digits (s : string) : allDigits s = true -> noWhite s = true.
Proof.
  induction s as [|x s IH]; cbn [allDigits noWhite]; [reflexivity|].
  intros H. apply andb_prop in H as [Hx Hs]. rewrite (IH Hs), andb_true_r.
  destruct (isDigit_facts x Hx) as (Ew & _). rewrite Ew. reflexivity.
Qed.

Lemma trimEnd_noWhite (s : string) : noWhite s = true -> trimEnd s = s.
Proof.
  induction s as [|c s IH]; cbn [noWhite trimEnd]; [reflexivity|].
  intros H. apply andb_prop in H as [Hc Hs]. rewrite (IH Hs).
  apply negb_true_iff in Hc. rewrite Hc. destruct s; reflexivity.
Qed.

Lemma trim_noWhite (s : string) : noWhite s = true -> trim s = s.
Proof.
  intros H. unfold trim.
  assert (Hs : trimStart s = s).
  { destruct s as [|c s]; [reflexivity|]. cbn [noWhite] in H.
    apply andb_prop in H as [Hc _]. apply negb_true_iff in Hc.
    cbn [trimStart]. rewrite Hc. reflexivity. }
  rewrite Hs. apply trimEnd_noWhite, H.
Qed.

(** The three parts joined by a separator. *)
Lemma split_three (sep : ascii) (a b c : string) :
  isDigit sep = false ->
  allDigits a = true -> allDigits b = true -> allDigits c = true ->
  split sep (a ++ String sep (b ++ String sep c)) = [a; b; c].
Proof.
  intros Hsep Ha Hb Hc.
  rewrite !split_digits_sep by assumption.
  rewrite split_digits by assumption. reflexivity.
Qed.

Lemma noChar_three (x sep : ascii) (a b c : string) :
  isDigit x = false -> Ascii.eqb sep x = false ->
  allDigits a = true -> allDigits b = true -> allDigits c = true ->
  noChar x (a ++ String sep (b ++ String sep c)) = true.
Proof.
  intros Hx Hsep Ha Hb Hc.
  rewrite noChar_app. cbn [noChar]. rewrite noChar_app. cbn [noChar].
  rewrite !noChar_digits, Hsep by assumption. reflexivity.
Qed.

Lemma noWhite_three (sep : ascii) (a b c : string) :
  isWhite sep = false ->
  allDigits a = true -> allDigits b = true -> allDigits c = true ->
  noWhite (a ++ String sep (b ++ String sep c)) = true.
Proof.
  intros Hsep Ha Hb Hc.
  rewrite noWhite_app. cbn [noWhite]. rewrite noWhite_app. cbn [noWhite].
  rewrite !noWhite_digits, Hsep by assumption. reflexivity.
Qed.

Lemma nonEmpty_app_String (a b : string) (c : ascii) :
  nonEmpty (a ++ String c b) = true.
Proof. destruct a; reflexivity. Qed.

Lemma digitsOfLength_spec (lo hi : nat) (s : string) :
  digitsOfLength lo hi s = true ->
  allDigits s = true /\ (lo <= String.length s <= hi)%nat.
Proof.
  unfold digitsOfLength. intros H.
  apply andb_prop in H as [H H3]. apply andb_prop in H as [H1 H2].
  apply Nat.leb_le in H2. apply Nat.leb_le in H3. auto.
Qed.

Lemma digitsOfLength_false (lo hi : nat) (s : string) :
  (String.length s < lo \/ hi < String.length s)%nat ->
  digitsOfLength lo hi s = false.
Proof.
  unfold digitsOfLength. intros [H | H].
  - apply Nat.leb_gt in H. rewrite H, andb_false_r. reflexivity.
  - apply Nat.leb_gt in H. rewrite H, andb_false_r. reflexivity.
Qed.

Lemma matchThree_one_part (sep : ascii) (l1 h1 l2 h2 l3 h3 : nat)
  (s : string) :
  noChar sep s = true -> matchThree sep l1 h1 l2 h2 l3 h3 s = None.
Proof.
  intros H. unfold matchThree. rewrite split_noChar by exact H.
  reflexivity.
Qed.

Lemma parseInt_digitsValue (s : string) :
  allDigits s = true -> s <> EmptyString -> parseInt s = Some (digitsValue s).
Proof. apply parseInt_digits. Qed.

Lemma length_nonempty (s : string) :
  (1 <= String.length s)%nat -> s <> EmptyString.
Proof. destruct s; simpl; [lia | discriminate]. Qed.

Section DateStrings.

Variable dateParse : string -> option Z.

Lemma parseEuropeanDate_reorder (d m y : string) (n : Z) :
  allDigits d = true -> allDigits m = true -> allDigits y = true ->
  parseInt d = Some n -> 1 <= n <= 31 ->
  parseEuropeanDate (d ++ "-" ++ m ++ "-" ++ y)
  = (y ++ "-" ++ m ++ "-" ++ d)%string.
Proof.
  intros Hd Hm Hy Hn Hr. unfold parseEuropeanDate.
  change (d ++ "-" ++ m ++ "-" ++ y)%string
    with (d ++ String "-" (m ++ String "-" y))%string.
  rewrite nonEmpty_app_String. cbn [negb].
  rewrite split_three by (reflexivity || assumption).
  rewrite Hn. cbn [numInRange].
  destruct (1 <=? n) eqn:A; [|apply Z.leb_gt in A; lia].
  destruct (n <=? 31) eqn:B; [|apply Z.leb_gt in B; lia].
  reflexivity.
Qed.

(** X22 (parseEuropeanDate, mapGoogleSheetRow, processGoogleSheetData): a
    date of three groups of digits whose first group reads as a number
    from 1 to 31 is reordered from day-month-year to year-month-day.  The
    function is applied twice to a Microsoft Ads row; the second
    application leaves the reordered date alone unless the year also
    reads as a number from 1 to 31, in which case it restores the
    original order. *)
Theorem parseEuropeanDate_twice (d m y : string) (n : Z) :
  allDigits d = true -> allDigits m = true -> allDigits y = true ->
  parseInt d = Some n -> 1 <= n <= 31 ->
  parseEuropeanDate (d ++ "-" ++ m ++ "-" ++ y)
  = (y ++ "-" ++ m ++ "-" ++ d)%string /\
  parseEuropeanDate (parseEuropeanDate (d ++ "-" ++ m ++ "-" ++ y))
  = if numInRange 1 31 (parseInt y)
    then (d ++ "-" ++ m ++ "-" ++ y)%string
    else (y ++ "-" ++ m ++ "-" ++ d)%string.
Proof.
  intros Hd Hm Hy Hn Hr.
  pose proof (parseEuropeanDate_reorder d m y n Hd Hm Hy Hn Hr) as E1.
  split; [exact E1|]. rewrite E1. unfold parseEuropeanDate.
  change (y ++ "-" ++ m ++ "-" ++ d)%string
    with (y ++ String "-" (m ++ String "-" d))%string.
  rewrite nonEmpty_app_String. cbn [negb].
  rewrite split_three by (reflexivity || assumption).
  destruct (numInRange 1 31 (parseInt y)); reflexivity.
Qed.

(** X23 (parseDate, parseEuropeanDate): on the Microsoft Ads path a date
    DD-MM-YYYY reaches parseDate reordered to YYYY-MM-DD, which the
    pattern of parseDate for Microsoft Ads (DD-MM-YYYY) does not match:
    the result is whatever the date parser of the host returns for the
    reordered string, and the validation of parseDate is not applied. *)
Theorem parseDate_microsoft_reordered (d m y : string) (n : Z) :
  digitsOfLength 2 2 d = true -> digitsOfLength 2 2 m = true ->
  digitsOfLength 4 4 y = true ->
  parseInt d = Some n -> 1 <= n <= 31 ->
  parseDate dateParse (parseEuropeanDate (d ++ "-" ++ m ++ "-" ++ y))
    MICROSOFT_ADS
  = dateParse (y ++ "-" ++ m ++ "-" ++ d).
Proof.
  intros Hd Hm Hy Hn Hr.
  apply digitsOfLength_spec in Hd as [Hd Ld].
  apply digitsOfLength_spec in Hm as [Hm Lm].
  apply digitsOfLength_spec in Hy as [Hy Ly].
  rewrite (parseEuropeanDate_reorder d m y n Hd Hm Hy Hn Hr).
  unfold parseDate.
  change (y ++ "-" ++ m ++ "-" ++ d)%string
    with (y ++ String "-" (m ++ String "-" d))%string.
  rewrite nonEmpty_app_String. cbn [negb]. cbv zeta.
  rewrite trim_noWhite by (apply noWhite_three; reflexivity || assumption).
  rewrite !(matchThree_one_part "/")
    by (apply noChar_three; reflexivity || assumption).
  unfold matchThree at 1.
  rewrite split_three by (reflexivity || assumption).
  rewrite (digitsOfLength_false 2 2 y) by lia.
  reflexivity.
Qed.

(** X24 (parseDate): a date YYYY/M/D with slashes is accepted without
    validation for every data source: the result is the date that the
    Date constructor makes of the three numbers, rolled over when the
    day or the month is out of range. *)
Theorem parseDate_slash_unvalidated (y m d : string)
  (dataSource : DataSourceType) :
  digitsOfLength 4 4 y = true -> digitsOfLength 1 2 m = true ->
  digitsOfLength 1 2 d = true ->
  parseDate dateParse (y ++ "/" ++ m ++ "/" ++ d) dataSource
  = Some (newDate (digitsValue y) (digitsValue m - 1) (digitsValue d)).
Proof.
  intros Hy Hm Hd.
  pose proof Hy as Hy'. pose proof Hm as Hm'. pose proof Hd as Hd'.
  apply digitsOfLength_spec in Hy' as [Ay Ly].
  apply digitsOfLength_spec in Hm' as [Am Lm].
  apply digitsOfLength_spec in Hd' as [Ad Ld].
  unfold parseDate.
  change (y ++ "/" ++ m ++ "/" ++ d)%string
    with (y ++ String "/" (m ++ String "/" d))%string.
  rewrite nonEmpty_app_String. cbn [negb]. cbv zeta.
  rewrite trim_noWhite by (apply noWhite_three; reflexivity || assumption).
  rewrite !(matchThree_one_part "-")
    by (apply noChar_three; reflexivity || assumption).
  assert (E : matchThree "/" 4 4 1 2 1 2
                (y ++ String "/" (m ++ String "/" d))
              = Some (y, m, d)).
  { unfold matchThree.
    rewrite split_three by (reflexivity || assumption).
    rewrite Hy, Hm, Hd. reflexivity. }
  rewrite E. unfold dateFromParts.
  rewrite !parseInt_digitsValue
    by (assumption || (apply length_nonempty; lia)).
  destruct dataSource; reflexivity.
Qed.

End DateStrings.

Lemma parseEuropeanDate_twice_witness :
  parseEuropeanDate ("15" ++ "-" ++ "03" ++ "-" ++ "2024")
  = ("2024" ++ "-" ++ "03" ++ "-" ++ "15")%string /\
  parseEuropeanDate (parseEuropeanDate ("15" ++ "-" ++ "03" ++ "-" ++ "2024"))
  = if numInRange 1 31 (parseInt "2024")
    then ("15" ++ "-" ++ "03" ++ "-" ++ "2024")%string
    else ("2024" ++ "-" ++ "03" ++ "-" ++ "15")%string.
Proof.
  apply (parseEuropeanDate_twice "15" "03" "2024" 15);
    [reflexivity | reflexivity | reflexivity | reflexivity | lia].
Defined.

Lemma parseDate_microsoft_reordered_witness :
  parseDate isoDateParse
    (parseEuropeanDate ("15" ++ "-" ++ "03" ++ "-" ++ "2024")) MICROSOFT_ADS
  = isoDateParse ("2024" ++ "-" ++ "03" ++ "-" ++ "15").
Proof.
  apply (parseDate_microsoft_reordered isoDateParse "15" "03" "2024" 15);
    [reflexivity | reflexivity | reflexivity | reflexivity | lia].
Defined.

Lemma parseDate_slash_unvalidated_witness :
  parseDate isoDateParse ("2024" ++ "/" ++ "02" ++ "/" ++ "30") GOOGLE_ADS
  = Some (newDate (digitsValue "2024") (digitsValue "02" - 1)
            (digitsValue "30")) /\
  newDate (digitsValue "2024") (digitsValue "02" - 1) (digitsValue "30")
  = civil 2024 3 1 0.
Proof.
  split.
  - apply (parseDate_slash_unvalidated isoDateParse "2024" "02" "30"
             GOOGLE_ADS); reflexivity.
  - vm_compute. reflexivity.
Defined.

Lemma DateFromDay_bounds (d : Z) : 1 <= DateFromDay d <= 31.
Proof.
  unfold DateFromDay, MonthFromDay. cbv zeta.
  pose proof (DayWithinYear_bounds d) as Hw.
  assert (Hl : InLeapYear d = 0 \/ InLeapYear d = 1)
    by (unfold InLeapYear; destruct (isLeap (YearFromDay d)); auto).
  generalize dependent (DayWithinYear d). generalize dependent (InLeapYear d).
  intros l Hl w Hw.
  repeat match goal with
         | |- context [?a <? ?b] => destruct (Z.ltb_spec a b)
         end; cbn [daysBeforeMonth]; lia.
Qed.

Lemma parseDigits_acc (s : string) (acc : N) :
  allDigits s = true ->
  parseDigits s acc
  = (acc * 10 ^ N.of_nat (String.length s) + parseDigits s 0)%N.
Proof.
  revert acc. induction s as [|c s IH]; intros acc H.
  - cbn [parseDigits String.length]. change (10 ^ N.of_nat 0)%N with 1%N. lia.
  - cbn [allDigits] in H. apply andb_prop in H as [Hc Hs].
    cbn [parseDigits String.length]. rewrite Hc.
    rewrite (IH (10 * acc + digitVal c)%N Hs), (IH (10 * 0 + digitVal c)%N Hs).
    replace (N.of_nat (S (String.length s)))
      with (N.succ (N.of_nat (String.length s))) by lia.
    rewrite N.pow_succ_r'. lia.
Qed.

Lemma parseDigits_lt (s : string) :
  allDigits s = true ->
  (parseDigits s 0 < 10 ^ N.of_nat (String.length s))%N.
Proof.
  induction s as [|c s IH]; intros H.
  - cbn [parseDigits String.length]. change (10 ^ N.of_nat 0)%N with 1%N. lia.
  - cbn [allDigits] in H. apply andb_prop in H as [Hc Hs].
    cbn [parseDigits String.length]. rewrite Hc.
    rewrite (parseDigits_acc s _ Hs).
    replace (N.of_nat (S (String.length s)))
      with (N.succ (N.of_nat (String.length s))) by lia.
    rewrite N.pow_succ_r'.
    specialize (IH Hs).
    assert (Hd : (digitVal c <= 9)%N).
    { unfold isDigit in Hc. cbv zeta in Hc. apply andb_prop in Hc as [_ H2].
      apply N.leb_le in H2. unfold digitVal. lia. }
    nia.
Qed.

(** The decimal representation of a positive number does not start
    with the digit 0. *)
Lemma showN_head (n : N) :
  (0 < n)%N ->
  exists c s, showN n = String c s /\ (1 <= digitVal c)%N.
Proof.
  intros Hn. unfold showN.
  pose proof (DecimalN.Unsigned.to_of (N.to_uint n)) as E.
  rewrite DecimalN.Unsigned.of_to in E.
  destruct (N.to_uint n) as [|d|d|d|d|d|d|d|d|d|d] eqn:Ed;
    try (eexists; eexists; split; [reflexivity | vm_compute; discriminate]).
  - discriminate E.
  - exfalso. unfold Decimal.unorm in E. cbn [Decimal.nzhead] in E.
    pose proof (DecimalFacts.nb_digits_nzhead d) as Hnz.
    destruct (Decimal.nzhead d) eqn:Ez;
      try (rewrite <- E in Hnz; cbn [Decimal.nb_digits] in Hnz; lia).
    injection E as E. subst d.
    assert (H0 : N.of_uint (N.to_uint n) = 0%N) by (rewrite Ed; reflexivity).
    rewrite DecimalN.Unsigned.of_to in H0. lia.
Qed.

Lemma length_showZ_4 (y : Z) :
  1000 <= y <= 9999 -> String.length (showZ y) = 4%nat.
Proof.
  intros Hy. rewrite showZ_nonneg by lia.
  destruct (showN_head (Z.to_N y) ltac:(lia)) as (c & s & E & Hc).
  pose proof (allDigits_showN (Z.to_N y)) as Ha.
  pose proof (parseDigits_showN (Z.to_N y)) as Hv.
  rewrite E in Ha, Hv |- *. cbn [allDigits] in Ha.
  apply andb_prop in Ha as [Hd Hs].
  cbn [parseDigits] in Hv. rewrite Hd in Hv.
  rewrite (parseDigits_acc s _ Hs) in Hv.
  pose proof (parseDigits_lt s Hs) as Hlt.
  assert (Hd9 : (digitVal c <= 9)%N).
  { unfold isDigit in Hd. cbv zeta in Hd. apply andb_prop in Hd as [_ H2].
    apply N.leb_le in H2. unfold digitVal. lia. }
  cbn [String.length]. f_equal.
  destruct (String.length s) as [|[|[|[|k]]]] eqn:El.
  - change (10 ^ N.of_nat 0)%N with 1%N in *. lia.
  - change (10 ^ N.of_nat 1)%N with 10%N in *. lia.
  - change (10 ^ N.of_nat 2)%N with 100%N in *. lia.
  - reflexivity.
  - exfalso.
    assert (Hp : (10 ^ 4 <= 10 ^ N.of_nat (S (S (S (S k)))))%N)
      by (apply N.pow_le_mono_r; lia).
    change (10 ^ 4)%N with 10000%N in Hp. nia.
Qed.

Lemma length_padStart2 (n : Z) :
  0 <= n <= 99 -> String.length (padStart2 (showZ n)) = 2%nat.
Proof.
  intros Hn.
  assert (H : forallb (fun k => Nat.eqb
                         (String.length (padStart2 (showZ (Z.of_nat k)))) 2)
                (seq 0 100) = true) by (vm_compute; reflexivity).
  rewrite forallb_forall in H.
  specialize (H (Z.to_nat n)). rewrite Z2Nat.id in H by lia.
  apply Nat.eqb_eq, H, in_seq. lia.
Qed.

Lemma parseInt_padStart2 (z : Z) :
  0 <= z -> parseInt (padStart2 (showZ z)) = Some z.
Proof.
  intros H.
  destruct (padStart2_digits (showZ z) (allDigits_showZ z H)
              (showZ_nonempty z)) as (Ha & Hn & Hp).
  rewrite parseInt_digits by assumption. rewrite Hp.
  rewrite showZ_nonneg by exact H. rewrite parseDigits_showN.
  rewrite Z2N.id by exact H. reflexivity.
Qed.

Lemma digitsOfLength_intro (lo hi : nat) (s : string) :
  allDigits s = true -> (lo <= String.length s <= hi)%nat ->
  digitsOfLength lo hi s = true.
Proof.
  intros Ha [H1 H2]. unfold digitsOfLength. rewrite Ha.
  apply Nat.leb_le in H1. apply Nat.leb_le in H2. rewrite H1, H2.
  reflexivity.
Qed.

Section DateRoundTrip.

Variable dateParse : string -> option Z.

(** X25 (formatDateYYYYMMDD, parseDate): parsing the formatted date of a
    time in a year from 1000 to 9999 as a Google Ads date gives back the
    local midnight of the same day, without use of the date parser of
    the host. *)
Theorem parseDate_formatDateYYYYMMDD (t : Z) :
  1000 <= getFullYear t <= 9999 ->
  parseDate dateParse (formatDateYYYYMMDD t) GOOGLE_ADS
  = Some (MakeDate (Day t) 0).
Proof.
  intros Hy. unfold formatDateYYYYMMDD, getMonth, getDate.
  unfold getFullYear in *.
  pose proof (MonthFromDay_bounds (Day t)) as Hm.
  pose proof (DateFromDay_bounds (Day t)) as Hd.
  pose proof (MakeDay_roundtrip (Day t) 0) as Hr.
  rewrite !Z.add_0_r in Hr.
  remember (DateFromDay (Day t)) as d eqn:Ed.
  remember (MonthFromDay (Day t)) as m eqn:Em.
  assert (Ay : allDigits (showZ (YearFromDay (Day t))) = true)
    by (apply allDigits_showZ; lia).
  destruct (padStart2_digits (showZ (m + 1))
              (allDigits_showZ (m + 1) ltac:(lia)) (showZ_nonempty _))
    as (Am & _).
  destruct (padStart2_digits (showZ d)
              (allDigits_showZ d ltac:(lia)) (showZ_nonempty _))
    as (Ad & _).
  unfold parseDate, dayKey.
  change (showZ (YearFromDay (Day t)) ++ "-" ++ padStart2 (showZ (m + 1))
            ++ "-" ++ padStart2 (showZ d))%string
    with (showZ (YearFromDay (Day t))
            ++ String "-" (padStart2 (showZ (m + 1))
                             ++ String "-" (padStart2 (showZ d))))%string.
  rewrite nonEmpty_app_String. cbn [negb]. cbv zeta.
  rewrite trim_noWhite by (apply noWhite_three; reflexivity || assumption).
  assert (E : matchThree "-" 4 4 2 2 2 2
                (showZ (YearFromDay (Day t))
                   ++ String "-" (padStart2 (showZ (m + 1))
                                    ++ String "-" (padStart2 (showZ d))))
              = Some (showZ (YearFromDay (Day t)),
                      padStart2 (showZ (m + 1)), padStart2 (showZ d))).
  { unfold matchThree.
    rewrite split_three by (reflexivity || assumption).
    rewrite !digitsOfLength_intro; [reflexivity | | | | | |];
      try assumption.
    - rewrite length_padStart2; lia.
    - rewrite length_padStart2; lia.
    - rewrite length_showZ_4; lia. }
  rewrite E. unfold dateFromParts.
  rewrite parseInt_showZ, !parseInt_padStart2 by lia.
  unfold newDate.
  rewrite MakeFullYear_id by lia.
  replace (m + 1 - 1) with m by ring. rewrite Hr.
  unfold getFullYear, getMonth, getDate.
  rewrite Day_MakeDate by (unfold msPerDay; lia).
  rewrite <- Em, <- Ed, !Z.eqb_refl. reflexivity.
Qed.

End DateRoundTrip.

Lemma parseDate_formatDateYYYYMMDD_witness :
  parseDate isoDateParse (formatDateYYYYMMDD (civil 2024 3 15 3600000))
    GOOGLE_ADS
  = Some (MakeDate (Day (civil 2024 3 15 3600000)) 0).
Proof.
  assert (E : getFullYear (civil 2024 3 15 3600000) = 2024)
    by (vm_compute; reflexivity).
  apply (parseDate_formatDateYYYYMMDD isoDateParse
           (civil 2024 3 15 3600000)).
  rewrite E. lia.
Defined.

(** ** Mapping of sheet rows *)

Lemma mappedKeyOf_google (k : string) (f : AdField) :
  mappedKeyOf googleAdsFieldMap k = Some f <-> k = googleColumnOf f.
Proof.
  split.
  - unfold mappedKeyOf, googleAdsFieldMap. cbn [lookup].
    repeat match goal with
           | |- context [String.eqb ?a k] =>
               destruct (String.eqb_spec a k) as [<- | _]
           end;
      intros H; try discriminate H; injection H as <-; reflexivity.
  - intros ->. destruct f; reflexivity.
Qed.

Lemma getField_setField (f f' : AdField) (v : string) (r : AdData) :
  getField f (setField f' v r)
  = if match f, f' with
       | FCampaign, FCampaign | FDomainName, FDomainName
       | FAccountName, FAccountName | FLanguage, FLanguage
       | FCampaignType, FCampaignType | FImpr, FImpr | FClicks, FClicks
       | FCost, FCost | FConversions, FConversions | FRevenue, FRevenue
       | FStatus, FStatus | FDate, FDate => true
       | _, _ => false
       end
    then v else getField f r.
Proof. destruct f, f'; reflexivity. Qed.

Lemma getField_setField_same (f : AdField) (v : string) (r : AdData) :
  getField f (setField f v r) = v.
Proof. destruct f; reflexivity. Qed.

Lemma getField_setField_other (f f' : AdField) (v : string) (r : AdData) :
  f <> f' -> getField f (setField f' v r) = getField f r.
Proof. intros H. destruct f, f'; try reflexivity; congruence. Qed.

Lemma googleStep_fold_field (f : AdField) (row : list (string * string))
  (m : AdData) :
  NoDup (map fst row) ->
  getField f (fold_left googleStep row m)
  = match lookup (googleColumnOf f) row with
    | Some v => v
    | None => getField f m
    end.
Proof.
  revert m. induction row as [|[k v] row IH]; intros m Hnd;
    cbn [fold_left lookup map fst]; [reflexivity|].
  cbn [map fst] in Hnd. inversion Hnd as [|? ? Hk Hnd']; subst.
  rewrite (IH _ Hnd').
  destruct (String.eqb_spec k (googleColumnOf f)) as [-> | Hne].
  - assert (E : lookup (googleColumnOf f) row = None)
      by (apply lookup_None; exact Hk).
    rewrite E. unfold googleStep. cbn [fst snd].
    rewrite (proj2 (mappedKeyOf_google _ f) eq_refl).
    apply getField_setField_same.
  - destruct (lookup (googleColumnOf f) row); [reflexivity|].
    unfold googleStep. cbn [fst snd].
    destruct (mappedKeyOf googleAdsFieldMap k) as [f'|] eqn:E;
      [|reflexivity].
    apply getField_setField_other. intros <-.
    apply mappedKeyOf_google in E. congruence.
Qed.

Lemma googleStep_fold_derived (row : list (string * string)) (m : AdData) :
  let r := fold_left googleStep row m in
  Profit r = Profit m /\ CLV r = CLV m /\ CTR r = CTR m /\ CPC r = CPC m /\
  CPA r = CPA m /\ Conv_rate r = Conv_rate m /\ ROAS r = ROAS m /\
  processedDate r = processedDate m.
Proof.
  revert m. induction row as [|kv row IH]; intros m; cbn [fold_left];
    [cbv zeta; tauto|].
  cbv zeta in *. destruct (IH (googleStep m kv))
    as (H1 & H2 & H3 & H4 & H5 & H6 & H7 & H8).
  rewrite H1, H2, H3, H4, H5, H6, H7, H8. unfold googleStep.
  destruct (mappedKeyOf googleAdsFieldMap (fst kv)); repeat split.
Qed.

Section RowMapping.

Variable dateParse : string -> option Z.
Variable parseFloat : string -> option Q.
Variable numToString : Q -> string.

Lemma mapGoogleSheetRow_google (row : list (string * string)) :
  let m := fold_left googleStep row emptyMappedRow in
  let m' := if nonEmpty (Revenue m) && nonEmpty (Cost m)
            then setProfit (profitOf parseFloat numToString m) m else m in
  mapGoogleSheetRow dateParse parseFloat numToString row GOOGLE_ADS
  = setProcessedDate (parseDate dateParse (Date m') GOOGLE_ADS) m'.
Proof.
  cbv zeta. unfold mapGoogleSheetRow. cbv zeta.
  change (fold_left _ row emptyMappedRow)
    with (fold_left googleStep row emptyMappedRow).
  destruct (googleStep_fold_derived row emptyMappedRow) as (HP & _).
  rewrite HP. reflexivity.
Qed.

(** X26 (mapGoogleSheetRow, googleAdsFieldMap): for a Google Ads row
    with distinct column names, each mapped field of the result holds the
    value of its column of the sheet, and the empty string when the row
    has no such column. *)
Theorem mapGoogleSheetRow_columns (row : list (string * string))
  (f : AdField) :
  NoDup (map fst row) ->
  getField f
    (mapGoogleSheetRow dateParse parseFloat numToString row GOOGLE_ADS)
  = match lookup (googleColumnOf f) row with
    | Some v => v
    | None => EmptyString
    end.
Proof.
  intros Hnd. rewrite mapGoogleSheetRow_google. cbv zeta.
  pose proof (googleStep_fold_field f row emptyMappedRow Hnd) as H.
  assert (H0 : getField f emptyMappedRow = EmptyString)
    by (destruct f; reflexivity).
  rewrite H0 in H. rewrite <- H.
  destruct (nonEmpty (Revenue (fold_left googleStep row emptyMappedRow))
            && nonEmpty (Cost (fold_left googleStep row emptyMappedRow)));
    destruct f; reflexivity.
Qed.

(** X27 (mapGoogleSheetRow): the derived metrics of the sheet are
    discarded: whatever the Google Ads row holds in its columns CTR, CPC,
    CPA, Conv. Rate, ROAS, CLV and Profit, the mapped row has no rates,
    an empty CLV, and a profit that is computed from its revenue and its
    cost when both are present and is empty otherwise. *)
Theorem mapGoogleSheetRow_derived_discarded (row : list (string * string)) :
  let r := mapGoogleSheetRow dateParse parseFloat numToString row
             GOOGLE_ADS in
  CTR r = None /\ CPC r = None /\ CPA r = None /\ Conv_rate r = None /\
  ROAS r = None /\ CLV r = EmptyString /\
  Profit r = (if nonEmpty (Revenue r) && nonEmpty (Cost r)
              then numToString (parseNumericValue parseFloat (Revenue r)
                                - parseNumericValue parseFloat (Cost r))%Q
              else EmptyString).
Proof.
  cbv zeta. rewrite mapGoogleSheetRow_google. cbv zeta.
  destruct (googleStep_fold_derived row emptyMappedRow)
    as (H1 & H2 & H3 & H4 & H5 & H6 & H7 & _).
  cbv zeta in *.
  set (m := fold_left googleStep row emptyMappedRow) in *.
  destruct (nonEmpty (Revenue m) && nonEmpty (Cost m)) eqn:E;
    cbn [setProcessedDate setProfit CTR CPC CPA Conv_rate ROAS CLV Profit
         Revenue Cost];
    rewrite ?E, ?H1, ?H2, ?H3, ?H4, ?H5, ?H6, ?H7; repeat split.
Qed.

End RowMapping.

Lemma mapGoogleSheetRow_columns_witness :
  getField FCampaign
    (mapGoogleSheetRow isoDateParse integerParseFloat integerToString
       garbageDateRow GOOGLE_ADS)
  = match lookup (googleColumnOf FCampaign) garbageDateRow with
    | Some v => v
    | None => EmptyString
    end.
Proof.
  apply (mapGoogleSheetRow_columns isoDateParse integerParseFloat
           integerToString garbageDateRow FCampaign).
  unfold garbageDateRow. cbn [map fst].
  repeat (constructor; [cbn [In]; intuition discriminate|]).
  constructor.
Defined.

(** ** Microsoft Ads account names *)

Lemma take_S (n : nat) (c : ascii) (s : string) :
  take (S n) (String c s) = String c (take n s).
Proof. reflexivity. Qed.

Lemma take_0 (s : string) : take 0 s = EmptyString.
Proof. destruct s; reflexivity. Qed.

Lemma prefix_take (pat : string) (n : nat) (s : string) :
  String.prefix pat (take n s) = true -> String.prefix pat s = true.
Proof.
  revert n s. induction pat as [|p pat IH]; intros n s H;
    [destruct s; reflexivity|].
  destruct n as [|n]; [rewrite take_0 in H; discriminate|].
  destruct s as [|c s]; [discriminate|].
  rewrite take_S in H. cbn [String.prefix] in *.
  destruct (ascii_dec p c); [|discriminate].
  apply (IH n s H).
Qed.

Lemma indexOf_take (pat : string) (s : string) (i : nat) :
  pat <> EmptyString -> indexOf pat s = Some i ->
  indexOf pat (take i s) = None.
Proof.
  intros Hpat. revert i. induction s as [|c s IH]; intros i; cbn [indexOf].
  - destruct (String.prefix pat "") eqn:E.
    + intros [= <-]. destruct pat; [congruence | discriminate].
    + discriminate.
  - destruct (String.prefix pat (String c s)) eqn:E.
    + intros [= <-]. rewrite take_0. cbn [indexOf].
      destruct pat; [congruence | reflexivity].
    + destruct (indexOf pat s) as [j|] eqn:Ej; [|discriminate].
      cbn [option_map]. intros [= <-]. rewrite take_S. cbn [indexOf].
      destruct (String.prefix pat (String c (take j s))) eqn:E2.
      * rewrite <- take_S in E2. apply prefix_take in E2. congruence.
      * rewrite (IH j eq_refl). reflexivity.
Qed.

(** X28 (truncateMicrosoftAccountName, extractDomainFromMicrosoftAccount,
    extractLanguageFromMicrosoftAccount): the truncated account name
    holds no opening of a parenthesised code, truncating it again changes
    nothing, and the domain and the language derived from the truncated
    name are those derived from the full name: the code in parentheses
    never influences them. *)
Theorem truncateMicrosoftAccountName_code_free (accountName : string) :
  indexOf " (" (truncateMicrosoftAccountName accountName) = None /\
  truncateMicrosoftAccountName (truncateMicrosoftAccountName accountName)
  = truncateMicrosoftAccountName accountName /\
  extractDomainFromMicrosoftAccount (truncateMicrosoftAccountName accountName)
  = extractDomainFromMicrosoftAccount accountName /\
  extractLanguageFromMicrosoftAccount
    (truncateMicrosoftAccountName accountName)
  = extractLanguageFromMicrosoftAccount accountName.
Proof.
  assert (H : indexOf " (" (truncateMicrosoftAccountName accountName) = None).
  { unfold truncateMicrosoftAccountName.
    destruct (indexOf " (" accountName) as [i|] eqn:E; [|exact E].
    apply indexOf_take; [discriminate | exact E]. }
  assert (Hb : beforeFirst " (" (truncateMicrosoftAccountName accountName)
               = beforeFirst " (" accountName).
  { unfold beforeFirst at 1. rewrite H.
    unfold truncateMicrosoftAccountName, beforeFirst.
    destruct (indexOf " (" accountName); reflexivity. }
  split; [exact H|]. split; [|split].
  - unfold truncateMicrosoftAccountName at 1. rewrite H. reflexivity.
  - unfold extractDomainFromMicrosoftAccount. rewrite Hb. reflexivity.
  - unfold extractLanguageFromMicrosoftAccount. rewrite Hb. reflexivity.
Qed.

(** ** Opportunities *)

Lemma subSign_le (a b : Q) : subSign a b <= 0 <-> (a <= b)%Q.
Proof.
  unfold subSign. destruct (a ?= b)%Q eqn:E.
  - apply Qeq_alt in E. rewrite E. split; [intros _; apply Qle_refl | lia].
  - apply Qlt_alt in E. split; [intros _; apply Qlt_le_weak, E | lia].
  - apply Qgt_alt in E. split; [lia|].
    intros H. exfalso. apply (Qlt_not_le _ _ E H).
Qed.

Lemma sortBy_subSign_sorted (l : list Q) :
  StronglySorted (fun a b => subSign a b <= 0) (sortBy subSign l).
Proof.
  apply (sortBy_StronglySorted subSign (fun _ => True)).
  - intros a b _ _. rewrite !subSign_le.
    destruct (Qlt_le_dec b a) as [H | H];
      [right; apply Qlt_le_weak, H | left; exact H].
  - intros a b c _ _ _. rewrite !subSign_le. apply Qle_trans.
  - apply Forall_forall. intros; exact I.
Qed.

Lemma Qgtb_lt (a b : Q) : Qgtb a b = true <-> (b < a)%Q.
Proof.
  unfold Qgtb. rewrite negb_true_iff. split.
  - intros H. apply Qnot_le_lt. intros Hle.
    apply Qle_bool_iff in Hle. congruence.
  - intros H. destruct (Qle_bool a b) eqn:E; [|reflexivity].
    apply Qle_bool_iff in E. exfalso. apply (Qlt_not_le _ _ H E).
Qed.

Lemma orZero_eq (v : Q) : (orZero v == v)%Q.
Proof.
  unfold orZero. destruct (Qeq_bool v 0) eqn:E; [|reflexivity].
  apply Qeq_bool_iff in E. symmetry. exact E.
Qed.

(** In an ascending list fewer than [k + 1] elements are below the
    element at index [k]. *)
Lemma count_below_nth (s : list Q) (k : nat) (t : Q) :
  StronglySorted (fun a b => subSign a b <= 0) s ->
  nth_error s k = Some t ->
  (List.length (filter (fun v => Qgtb t v) s) <= k)%nat.
Proof.
  intros Hs. revert k. induction Hs as [|x s Hs IH Hall]; intros k Hk.
  - destruct k; discriminate.
  - destruct k as [|k]; cbn [nth_error] in Hk.
    + injection Hk as ->. cbn [filter].
      assert (E : Qgtb t t = false).
      { destruct (Qgtb t t) eqn:E; [|reflexivity].
        apply Qgtb_lt in E. exfalso. apply (Qlt_irrefl _ E). }
      rewrite E.
      assert (Hnil : filter (fun v => Qgtb t v) s = []).
      { clear IH Hs. induction s as [|y s IHs]; [reflexivity|].
        inversion Hall as [|? ? Hy Hall']; subst. cbn [filter].
        destruct (Qgtb t y) eqn:Ey; [|apply IHs, Hall'].
        apply Qgtb_lt in Ey. apply subSign_le in Hy.
        exfalso. apply (Qlt_not_le _ _ Ey Hy). }
      rewrite Hnil. apply Nat.le_refl.
    + specialize (IH k Hk). cbn [filter].
      destruct (Qgtb t x); cbn [List.length]; lia.
Qed.

Lemma filter_length_Permutation {A : Type} (p : A -> bool) (l l' : list A) :
  Permutation l l' -> List.length (filter p l) = List.length (filter p l').
Proof.
  induction 1 as [|x l l' _ IH|x y l|l l' l'' _ IH1 _ IH2]; cbn [filter].
  - reflexivity.
  - destruct (p x); cbn [List.length]; congruence.
  - destruct (p x), (p y); reflexivity.
  - congruence.
Qed.

Lemma Qgtb_compat_l (a a' b : Q) : (a == a')%Q -> Qgtb a b = Qgtb a' b.
Proof.
  intros H. destruct (Qgtb a b) eqn:E1, (Qgtb a' b) eqn:E2; try reflexivity.
  - apply Qgtb_lt in E1. rewrite H in E1. apply Qgtb_lt in E1. congruence.
  - apply Qgtb_lt in E2. rewrite <- H in E2. apply Qgtb_lt in E2. congruence.
Qed.

Section OpportunitiesProps.

Variable parseFloat : string -> option Q.
Variable numToString : Q -> string.

(** X29 (identifyOpportunities, cpaThreshold): the rows reported as low
    CPA are at most a quarter, rounded down, of the rows with a positive
    CPA; in particular none is reported when fewer than four rows have a
    positive CPA. *)
Theorem lowCpa_at_most_a_quarter (data : list AdData) :
  (List.length (lowCpa (identifyOpportunities parseFloat numToString data))
   <= List.length
        (filter (fun row => Qgtb (metricOrZero (CPA row)) 0)
           (calculateMetrics parseFloat numToString data)) / 4)%nat.
Proof.
  unfold identifyOpportunities. cbv zeta. cbn [lowCpa].
  set (rows := calculateMetrics parseFloat numToString data).
  set (c := fun row : AdData => metricOrZero (CPA row)).
  set (values := filter (fun cpa => Qgtb cpa 0) (map c rows)).
  assert (Hlen : List.length (filter (fun row => Qgtb (c row) 0) rows)
                 = List.length values).
  { unfold values. rewrite filter_map_comm, length_map. reflexivity. }
  change (fun row : AdData => Qgtb (metricOrZero (CPA row)) 0)
    with (fun row => Qgtb (c row) 0).
  rewrite Hlen.
  assert (Hlow : forall thr,
            List.length
              (filter (fun row => Qgtb (c row) 0 && Qgtb thr (c row)) rows)
            = List.length (filter (fun v => Qgtb thr v) values)).
  { intros thr. unfold values.
    rewrite filter_map_comm, filter_map_comm, length_map.
    f_equal. clear. induction rows as [|r rows IH]; [reflexivity|].
    cbn [filter]. destruct (Qgtb (c r) 0); cbn [andb filter];
      [destruct (Qgtb thr (c r)); rewrite IH; reflexivity | exact IH]. }
  change (fun row : AdData =>
            Qgtb (metricOrZero (CPA row)) 0
            && Qgtb (cpaThreshold values) (metricOrZero (CPA row)))
    with (fun row => Qgtb (c row) 0 && Qgtb (cpaThreshold values) (c row)).
  rewrite Hlow. unfold cpaThreshold. cbv zeta.
  rewrite sortBy_length.
  destruct (nth_error (sortBy subSign values) (List.length values / 4))
    as [t|] eqn:E.
  - rewrite (filter_ext _ (fun v => Qgtb t v))
      by (intros v; apply Qgtb_compat_l, orZero_eq).
    rewrite (filter_length_Permutation _ _ _
               (Permutation_sym (sortBy_Permutation subSign values))).
    apply count_below_nth; [apply sortBy_subSign_sorted | exact E].
  - apply nth_error_None in E. rewrite sortBy_length in E.
    assert (Hv : values = []).
    { destruct values as [|v vs]; [reflexivity|]. exfalso.
      cbn [List.length] in E.
      pose proof (Nat.div_lt (S (List.length vs)) 4 ltac:(lia) ltac:(lia))
        as Hd. lia. }
    rewrite Hv. apply Nat.le_refl.
Qed.

End OpportunitiesProps.

(** ** The header row of the Microsoft Ads sheet *)

Lemma split_cons_line (line rest : string) :
  noChar "010" line = true ->
  split "010" (line ++ String "010" rest) = line :: split "010" rest.
Proof.
  induction line as [|c line IH]; cbn [noChar append split].
  - reflexivity.
  - intros H. apply andb_prop in H as [Hc Hl].
    apply negb_true_iff in Hc. rewrite Hc, (IH Hl). reflexivity.
Qed.

Lemma split_nonempty (sep : ascii) (s : string) : split sep s <> [].
Proof.
  destruct s as [|c s]; cbn [split]; [discriminate|].
  destruct (Ascii.eqb c sep); [discriminate|].
  destruct (split sep s); discriminate.
Qed.

Lemma join_split (s : string) :
  join (String "010" EmptyString) (split "010" s) = s.
Proof.
  unfold join. induction s as [|c s IH]; cbn [split]; [reflexivity|].
  destruct (Ascii.eqb c "010") eqn:E.
  - apply Ascii.eqb_eq in E. subst c.
    pose proof (split_nonempty "010" s) as Hne.
    destruct (split "010" s) as [|h t] eqn:Es; [congruence|].
    cbn [concat]. cbn [concat] in IH. rewrite IH. reflexivity.
  - pose proof (split_nonempty "010" s) as Hne.
    destruct (split "010" s) as [|h t] eqn:Es; [congruence|].
    destruct t; cbn [concat append] in *; rewrite IH; reflexivity.
Qed.

(** X30 (fetchGoogleSheetData): for Microsoft Ads the text returned is
    the response text without its first line, so that the second line
    becomes the header row; for the other data sources the text is
    returned unchanged. *)
Theorem fetchGoogleSheetData_header (first rest : string)
  (dataSource : DataSourceType) :
  noChar "010" first = true ->
  fetchGoogleSheetData_text (first ++ String "010" rest) dataSource
  = match dataSource with
    | MICROSOFT_ADS => rest
    | _ => (first ++ String "010" rest)%string
    end.
Proof.
  intros H. destruct dataSource; try reflexivity.
  unfold fetchGoogleSheetData_text. cbv zeta.
  rewrite split_cons_line by exact H.
  pose proof (split_nonempty "010" rest) as Hne.
  pose proof (join_split rest) as Hj.
  destruct (split "010" rest) as [|h t]; [congruence|]. exact Hj.
Qed.

Lemma fetchGoogleSheetData_header_witness :
  fetchGoogleSheetData_text
    ("Report" ++ String "010" ("Campaign,Date" ++ String "010" "A,01-03-2024"))
    MICROSOFT_ADS
  = ("Campaign,Date" ++ String "010" "A,01-03-2024")%string.
Proof.
  apply (fetchGoogleSheetData_header "Report"
           ("Campaign,Date" ++ String "010" "A,01-03-2024") MICROSOFT_ADS).
  reflexivity.
Defined.

(** ** Examples *)

Example calendar_examples :
  civil 1970 1 1 0 = 0 /\
  getDay (civil 2024 1 1 0) = 1 /\
  getDay (civil 2023 12 31 0) = 0 /\
  getDay (civil 2023 1 1 0) = 0 /\
  formatDateYYYYMMDD (civil 2024 2 29 0) = "2024-02-29"%string /\
  formatDateYYYYMMDD (setFullYear (civil 2024 2 29 0) 2023)
    = "2023-03-01"%string /\
  formatDateYYYYMMDD (setDate (civil 2024 3 1 0) 0) = "2024-02-29"%string /\
  formatDateYYYYMMDD (newDate 99 11 31) = "1999-12-31"%string /\
  getLastISOWeekOfYear 2020 = 53 /\ getLastISOWeekOfYear 2024 = 52.
Proof. vm_compute. repeat split; reflexivity. Qed.

Example mapping_examples :
  extractDomainFromMicrosoftAccount "CVwizard - NL (X123)"
    = "CVwizard.com"%string /\
  extractLanguageFromMicrosoftAccount "CVwizard - NL (X123)" = "NL"%string /\
  extractLanguageFromMicrosoftAccount "CV.fr (X9)" = "FR"%string /\
  truncateMicrosoftAccountName "CV.fr (X9)" = "CV.fr"%string /\
  normalizeMicrosoftAdsFieldName " Campaign Status " = "Campaign Status"%string /\
  parseEuropeanDate "15-03-2024" = "2024-03-15"%string /\
  parseDate isoDateParse "2024-03-15" GOOGLE_ADS = Some (civil 2024 3 15 0) /\
  parseDate isoDateParse "2024/3/5" GOOGLE_ADS = Some (civil 2024 3 5 0) /\
  parseNumericValue integerParseFloat "$1,200" = 1200%Q.
Proof. vm_compute. repeat split; reflexivity. Qed.

Example parse_examples :
  parseInt "2024" = Some 2024 /\ parseInt "  -12abc" = Some (-12) /\
  parseInt "Q3" = None /\ parseInt "" = None /\ parseInt "0x1f" = Some 31 /\
  jsNumber "03" = Some 3 /\ jsNumber "" = Some 0 /\ jsNumber "3a" = None /\
  showZ 2024 = "2024"%string /\ showZ (-5) = "-5"%string /\
  showZ 0 = "0"%string /\
  split "-" "2024-Q1" = ["2024"; "Q1"]%string /\
  split "-" "" = [""]%string /\ split "-" "a-" = ["a"; ""]%string /\
  padStart2 "7" = "07"%string /\ trim "  a b  " = "a b"%string /\
  indexOf " (" "CV.nl (123)" = Some 5%nat.
Proof. vm_compute. repeat split; reflexivity. Qed.

Example getISOWeek_2024_01_01 :
  getISOWeek (civil 2024 1 1 0) = Some (mkIsoWeek 2024 1).
Proof. vm_compute. reflexivity. Qed.
